(** * GraphCorpusGenerator: the graph-to-text corpus generator of
      GENERATE_CORPUS.py, embedded in Rocq.

    The two loaded JSON documents are Python values; every method of
    [GraphCorpusGenerator] that the properties below talk about is a Rocq
    function over those values.  A Python exception is a [Raise] in the
    [result] monad, the instance attributes [corpus_parts] and
    [seen_entities] are fields of an explicit [Generator] state, and the
    float arithmetic of the statistics runs on Rocq's binary64 floats.
    Logging, [print] and the writing of the output files are left out:
    they do not change what the methods return. *)

From Stdlib Require Import ZArith String Ascii List Bool Lia.
From Stdlib Require Import PrimFloat FloatOps SpecFloat Uint63.
From Stdlib Require DecimalString.
From stdpp Require Import base gmap strings.
Import ListNotations.

Open Scope string_scope.
Open Scope Z_scope.

(** ** Python values as [json.load] builds them

    [json.load] yields [None], booleans, integers, strings, lists and
    dictionaries.  A dictionary keeps its insertion order, which [.items()]
    follows, so it is an association list (its keys are distinct in a loaded
    document).  Non-integer JSON numbers do not occur in the metadata and
    taxonomy documents and are not part of this model; characters are the
    one-byte characters of [ascii]. *)

#[local] Set Warnings "-register-all".

Inductive value : Type :=
| VNone
| VBool (b : bool)
| VInt (n : Z)
| VStr (s : string)
| VList (l : list value)
| VDict (d : list (string * value)).

(** The exceptions the generator's expressions can raise. *)
Inductive exn : Type := AttributeError | TypeError | IndexError | KeyError.

Inductive result (A : Type) : Type :=
| Ok (a : A)
| Raise (e : exn).
Arguments Ok {A} a.
Arguments Raise {A} e.

Definition bind {A B : Type} (c : result A) (k : A -> result B) : result B :=
  match c with
  | Ok a => k a
  | Raise e => Raise e
  end.

Notation "'let*' x ':=' c 'in' k" := (bind c (fun x => k))
  (at level 10, x name, c at level 100, k at level 200).

(** [for x in xs: acc = f(acc, x)], stopping at the first exception. *)
Fixpoint foldM {A B : Type} (f : A -> B -> result A) (acc : A) (xs : list B)
  : result A :=
  match xs with
  | [] => Ok acc
  | x :: xs' => let* acc' := f acc x in foldM f acc' xs'
  end.

(** [[f(x) for x in xs]]. *)
Fixpoint mapM {A B : Type} (f : A -> result B) (xs : list A) : result (list B) :=
  match xs with
  | [] => Ok []
  | x :: xs' => let* y := f x in let* ys := mapM f xs' in Ok (y :: ys)
  end.

(** [[x for x in xs if p(x)]]. *)
Fixpoint filterM {A : Type} (p : A -> result bool) (xs : list A) : result (list A) :=
  match xs with
  | [] => Ok []
  | x :: xs' =>
      let* b := p x in let* ys := filterM p xs' in
      Ok (if b then x :: ys else ys)
  end.

(** ** Strings *)

Definition nl : string := String (ascii_of_nat 10) EmptyString.
Definition dquote : string := String (ascii_of_nat 34) EmptyString.
Definition squote : string := "'".
Definition backslash : string := String (ascii_of_nat 92) EmptyString.

(** [sep.join(parts)] on a list of strings. *)
Fixpoint join (sep : string) (parts : list string) : string :=
  match parts with
  | [] => ""
  | [p] => p
  | p :: rest => p ++ sep ++ join sep rest
  end.

(** [needle in haystack] on strings: [needle] is a substring. *)
Fixpoint is_substring (needle haystack : string) : bool :=
  String.prefix needle haystack ||
  match haystack with
  | EmptyString => false
  | String _ rest => is_substring needle rest
  end.

(** [str.isspace] on the one-byte characters: the characters [str.split()]
    and [str.strip()] treat as white space. *)
Definition is_space (c : ascii) : bool :=
  let n := nat_of_ascii c in
  ((9 <=? n) && (n <=? 13) || (28 <=? n) && (n <=? 32)
   || (n =? 133) || (n =? 160))%nat.

(** [len(s.split())]: the number of maximal runs of non-space characters.
    [in_word] tells whether the previous character belonged to a word. *)
Fixpoint count_words (in_word : bool) (s : string) : Z :=
  match s with
  | EmptyString => 0
  | String c rest =>
      if is_space c then count_words false rest
      else (if in_word then 0 else 1) + count_words true rest
  end.

Fixpoint lstrip (s : string) : string :=
  match s with
  | String c rest => if is_space c then lstrip rest else s
  | EmptyString => EmptyString
  end.

Fixpoint rstrip (s : string) : string :=
  match s with
  | EmptyString => EmptyString
  | String c rest =>
      match rstrip rest with
      | EmptyString => if is_space c then EmptyString else String c EmptyString
      | r => String c r
      end
  end.

(** [s.strip()]. *)
Definition strip (s : string) : string := rstrip (lstrip s).

(** [s.replace(old, new)] for a one-character [old]. *)
Fixpoint replace_char (old : ascii) (new : string) (s : string) : string :=
  match s with
  | EmptyString => EmptyString
  | String c rest =>
      (if Ascii.eqb c old then new else String c EmptyString)
        ++ replace_char old new rest
  end.

(** The case mappings of [str] on the one-byte characters, which are the
    code points below 256: besides the ASCII letters, the letters 192 to 222
    (215 is the multiplication sign) have their small form 32 places up, and
    the small letters 224 to 254 (247 is the division sign) their capital 32
    places down. *)
Definition lower (c : ascii) : ascii :=
  let n := nat_of_ascii c in
  if ((65 <=? n) && (n <=? 90) || (192 <=? n) && (n <=? 222) && negb (n =? 215))%nat
  then ascii_of_nat (n + 32) else c.

(** The title case of one character, which [capitalize] gives the first
    character (CPython 3.8 and later): the sharp s (223) becomes [Ss].  The
    capitals of the micro sign (181) and of the y with diaeresis (255) are
    not one-byte characters: a string that starts with one of them is outside
    the strings modelled here (see [one_byte_capital]), and the character is
    left as it is. *)
Definition title_case (c : ascii) : string :=
  let n := nat_of_ascii c in
  if ((97 <=? n) && (n <=? 122) || (224 <=? n) && (n <=? 254) && negb (n =? 247))%nat
  then String (ascii_of_nat (n - 32)) EmptyString
  else if (n =? 223)%nat then "Ss"
  else String c EmptyString.

Fixpoint map_string (f : ascii -> ascii) (s : string) : string :=
  match s with
  | EmptyString => EmptyString
  | String c rest => String (f c) (map_string f rest)
  end.

(** [s.capitalize()]: the first character in title case, the others in
    lower case. *)
Definition capitalize (s : string) : string :=
  match s with
  | EmptyString => EmptyString
  | String c rest => title_case c ++ map_string lower rest
  end.

(** [str(n)] for an integer. *)
Definition str_of_Z (n : Z) : string :=
  DecimalString.NilZero.string_of_int (Z.to_int n).

Definition hex_digit (n : nat) : ascii :=
  if (n <? 10)%nat then ascii_of_nat (48 + n) else ascii_of_nat (87 + n).

(** [repr(s)] for a string: CPython picks double quotes only when the string
    holds a single quote and no double quote, and escapes the backslash, the
    chosen quote, tab, newline, carriage return and unprintable characters. *)
Definition printable (n : nat) : bool :=
  ((32 <=? n) && (n <? 127) || (161 <=? n) && negb (n =? 173))%nat.

Fixpoint repr_body (q : ascii) (s : string) : string :=
  match s with
  | EmptyString => EmptyString
  | String c rest =>
      let n := nat_of_ascii c in
      (if Ascii.eqb c q || (n =? 92)%nat then backslash ++ String c EmptyString
       else if (n =? 9)%nat then backslash ++ "t"
       else if (n =? 10)%nat then backslash ++ "n"
       else if (n =? 13)%nat then backslash ++ "r"
       else if printable n then String c EmptyString
       else backslash ++ "x"
              ++ String (hex_digit (n / 16)) (String (hex_digit (n mod 16)) EmptyString))
        ++ repr_body q rest
  end.

Definition repr_str (s : string) : string :=
  let q := if is_substring squote s && negb (is_substring dquote s)
           then ascii_of_nat 34 else ascii_of_nat 39 in
  String q (repr_body q s ++ String q EmptyString).

(** [repr(v)]; inside a list or a dictionary a string shows its quotes. *)
Fixpoint py_repr (v : value) : string :=
  match v with
  | VNone => "None"
  | VBool true => "True"
  | VBool false => "False"
  | VInt n => str_of_Z n
  | VStr s => repr_str s
  | VList l => "[" ++ join ", " (map py_repr l) ++ "]"
  | VDict d =>
      "{" ++ join ", " (map (fun kv => repr_str (fst kv) ++ ": " ++ py_repr (snd kv)) d)
          ++ "}"
  end.

(** [str(v)], which is what an f-string placeholder [{v}] inserts. *)
Definition py_str (v : value) : string :=
  match v with
  | VStr s => s
  | _ => py_repr v
  end.

(** ** Operations on values *)

Fixpoint lookup_key (k : string) (d : list (string * value)) : option value :=
  match d with
  | [] => None
  | (k', v) :: rest => if String.eqb k k' then Some v else lookup_key k rest
  end.

(** [v.get(k, dflt)]: only a dictionary has a [get] method. *)
Definition get (v : value) (k : string) (dflt : value) : result value :=
  match v with
  | VDict d => Ok (match lookup_key k d with Some x => x | None => dflt end)
  | _ => Raise AttributeError
  end.

(** [v.get(k)]. *)
Definition get_none (v : value) (k : string) : result value := get v k VNone.

(** [v.items()]. *)
Definition items (v : value) : result (list (string * value)) :=
  match v with
  | VDict d => Ok d
  | _ => Raise AttributeError
  end.

(** The truth value of [v] in [if v:] and in a conditional expression. *)
Definition truthy (v : value) : bool :=
  match v with
  | VNone => false
  | VBool b => b
  | VInt n => negb (n =? 0)
  | VStr s => negb (String.eqb s "")
  | VList l => match l with [] => false | _ => true end
  | VDict d => match d with [] => false | _ => true end
  end.

(** [a == b]: booleans compare as the integers 0 and 1, lists position by
    position, dictionaries key by key whatever their order. *)
Fixpoint py_eq (a b : value) : bool :=
  match a, b with
  | VNone, VNone => true
  | VBool x, VBool y => Bool.eqb x y
  | VBool x, VInt y => Z.b2z x =? y
  | VInt x, VBool y => x =? Z.b2z y
  | VInt x, VInt y => x =? y
  | VStr x, VStr y => String.eqb x y
  | VList l1, VList l2 =>
      (fix eq_list (xs ys : list value) {struct xs} : bool :=
         match xs, ys with
         | [], [] => true
         | x :: xs', y :: ys' => py_eq x y && eq_list xs' ys'
         | _, _ => false
         end) l1 l2
  | VDict d1, VDict d2 =>
      (length d1 =? length d2)%nat &&
      (fix eq_dict (kvs : list (string * value)) {struct kvs} : bool :=
         match kvs with
         | [] => true
         | (k, v) :: kvs' =>
             match lookup_key k d2 with
             | Some v' => py_eq v v' && eq_dict kvs'
             | None => false
             end
         end) d1
  | _, _ => false
  end.

(** The elements a [for] loop (or a comprehension, or [join]) draws from [v]:
    the items of a list, the keys of a dictionary, the characters of a
    string; anything else is not iterable. *)
Fixpoint chars (s : string) : list value :=
  match s with
  | EmptyString => []
  | String c rest => VStr (String c EmptyString) :: chars rest
  end.

Definition py_iter (v : value) : result (list value) :=
  match v with
  | VList l => Ok l
  | VDict d => Ok (map (fun kv => VStr (fst kv)) d)
  | VStr s => Ok (chars s)
  | _ => Raise TypeError
  end.

(** [len(v)]. *)
Definition py_len (v : value) : result Z :=
  match v with
  | VList l => Ok (Z.of_nat (length l))
  | VDict d => Ok (Z.of_nat (length d))
  | VStr s => Ok (Z.of_nat (String.length s))
  | _ => Raise TypeError
  end.

(** [needle in container] for a string [needle]. *)
Definition str_in (needle : string) (container : value) : result bool :=
  match container with
  | VStr s => Ok (is_substring needle s)
  | VList l => Ok (existsb (py_eq (VStr needle)) l)
  | VDict d => Ok (match lookup_key needle d with Some _ => true | None => false end)
  | _ => Raise TypeError
  end.

(** [sep.join(v)]: every element drawn from [v] has to be a string. *)
Definition as_str (v : value) : result string :=
  match v with
  | VStr s => Ok s
  | _ => Raise TypeError
  end.

Definition py_join (sep : string) (v : value) : result string :=
  let* xs := py_iter v in let* ss := mapM as_str xs in Ok (join sep ss).

(** A method of [str] called on [v]: [v.strip()], [v.capitalize()],
    [v.replace('_', ' ')]. *)
Definition str_method (f : string -> string) (v : value) : result string :=
  match v with
  | VStr s => Ok (f s)
  | _ => Raise AttributeError
  end.

(** [v[:n]]: a list or a string is cut; a dictionary cannot be sliced (a
    [TypeError] up to CPython 3.11, a [KeyError] from 3.12 on). *)
Definition slice_prefix (n : nat) (v : value) : result value :=
  match v with
  | VList l => Ok (VList (firstn n l))
  | VStr s => Ok (VStr (String.substring 0 n s))
  | _ => Raise TypeError
  end.

(** The hashable values, as a set of strings stores them: [True] and [1]
    (and [False] and [0]) are one element. *)
Definition hkey : Type := option (Z + string).

(** [hash(v)] succeeds on [None], booleans, integers and strings only. *)
Definition as_key (v : value) : result hkey :=
  match v with
  | VNone => Ok None
  | VBool b => Ok (Some (inl (Z.b2z b)))
  | VInt n => Ok (Some (inl n))
  | VStr s => Ok (Some (inr s))
  | _ => Raise TypeError
  end.

(** [v[0]]. *)
Definition index0 (v : value) : result value :=
  match v with
  | VList (x :: _) => Ok x
  | VStr (String c _) => Ok (VStr (String c EmptyString))
  | VList [] | VStr EmptyString => Raise IndexError
  | VDict _ => Raise KeyError
  | _ => Raise TypeError
  end.

(** ** The generator object *)

(** The dictionary [_calculate_statistics] returns. *)
Record Stats : Type := {
  total_parts : Z;
  characters : Z;
  words : Z;
  estimated_tokens : Z
}.

(** The attributes of a [GraphCorpusGenerator]. *)
Record Generator : Type := {
  metadata : value;
  taxonomy : value;
  views_only : value;
  corpus_parts : list string;
  seen_entities : gset hkey
}.

(** [_load_json]: the content of the file, or the empty dictionary when the
    file is missing or does not hold JSON ([None] here). *)
Definition _load_json (file : option value) : value :=
  match file with
  | Some v => v
  | None => VDict []
  end.

(** [__init__]. *)
Definition __init__ (metadata_file taxonomy_file views_only_file : option value)
  : Generator :=
  {| metadata := _load_json metadata_file;
     taxonomy := _load_json taxonomy_file;
     views_only := _load_json views_only_file;
     corpus_parts := [];
     seen_entities := ∅ |}.

(** *** Field describer *)

Definition visibility (visible pub : value) : string :=
  (if truthy visible then "visible" else "not visible") ++ " and "
  ++ (if truthy pub then "public" else "private") ++ ".".

(** The list [paragraph] of [generate_measure_description]. *)
Definition measure_paragraph (cube_name m : value) : result (list string) :=
  let* m_name := get m "name" (VStr "unknown") in
  let* m_title := get m "title" m_name in
  let* m_short := get m "shortTitle" (VStr "") in
  let* m_desc_text := get m "description" (VStr "No description provided.") in
  let* m_type := get m "type" (VStr "unknown") in
  let* agg := get m "aggType" (VStr "unknown") in
  let* visible := get m "isVisible" (VBool false) in
  let* pub := get m "public" (VBool false) in
  let* cumulative := get m "cumulative" (VBool false) in
  Ok (app
        [ "The " ++ py_str m_name ++ " is a measure in the " ++ py_str cube_name ++ " cube.";
          "It is a " ++ py_str agg ++ " aggregation of type " ++ py_str m_type ++ ".";
          "Its full name is " ++ py_str cube_name ++ "." ++ py_str m_name;
          "Its title is " ++ dquote ++ py_str m_title ++ dquote ++ "." ]
     (app
        (if truthy m_short
         then [ "Its short title is " ++ dquote ++ py_str m_short ++ dquote ++ "." ]
         else [])
        [ "Description: " ++ py_str m_desc_text ++ ".";
          "This measure is " ++ visibility visible pub;
          "It is " ++ (if truthy cumulative then "cumulative" else "not cumulative") ++ "." ])).

Definition generate_measure_description (cube_name m : value) : result string :=
  let* paragraph := measure_paragraph cube_name m in
  Ok (join nl paragraph ++ nl).

(** The list [paragraph] of [generate_dimension_description]. *)
Definition dimension_paragraph (cube_name d : value) : result (list string) :=
  let* d_name := get d "name" (VStr "unknown") in
  let* d_title := get d "title" d_name in
  let* d_type := get d "type" (VStr "unknown") in
  let* d_desc_text := get d "description" (VStr "No description provided.") in
  let* primary := get d "primaryKey" (VBool false) in
  let* visible := get d "isVisible" (VBool false) in
  let* pub := get d "public" (VBool false) in
  let* suggest := get d "suggestFilterValues" (VBool false) in
  let* alias := get d "aliasMember" (VStr "") in
  let* meta := get d "meta" (VDict []) in
  let full_name := py_str cube_name ++ "." ++ py_str d_name in
  let* has_sub := str_in "subEntity" meta in
  let* sub_entity :=
    (if has_sub
     then let* s := get_none meta "subEntity" in
          Ok [ "It belongs to the sub-entity '" ++ py_str s ++ "'." ]
     else Ok []) in
  Ok (app
        [ "The " ++ py_str d_name ++ " is a dimension in the " ++ py_str cube_name ++ " cube.";
          "It is of type " ++ py_str d_type ++ ".";
          "Its full name is " ++ full_name ++ ".";
          "Its title is " ++ dquote ++ py_str d_title ++ dquote ++ ".";
          "Description: " ++ py_str d_desc_text ++ ".";
          "This dimension is " ++ visibility visible pub;
          "It is " ++ (if truthy primary then "a primary key" else "not a primary key") ++ ".";
          if truthy suggest then "It suggests filter values."
          else "It does not suggest filter values." ]
     (app
        (if truthy alias
         then [ "It has an alias member '" ++ py_str alias
                  ++ "', useful for joining across cubes." ]
         else [])
        sub_entity)).

Definition generate_dimension_description (cube_name d : value) : result string :=
  let* paragraph := dimension_paragraph cube_name d in
  Ok (join nl paragraph ++ nl).

(** *** Semantic catalog *)

Definition catalog_keywords : list string := ["join"; "relationship"; "cube_"; "view_"].

(** [any(keyword in dim_name for keyword in keywords)]: stops at the first
    keyword found. *)
Fixpoint any_keyword_in (dim_name : value) (keywords : list string) : result bool :=
  match keywords with
  | [] => Ok false
  | keyword :: rest =>
      let* found := str_in keyword dim_name in
      if found then Ok true else any_keyword_in dim_name rest
  end.

(** One turn of the loop over the catalog's dimensions: what it adds to
    [desc]. *)
Definition catalog_dimension_line (dim : value) : result string :=
  let* dim_name := get dim "name" (VStr "unknown") in
  let* dim_title := get dim "title" (VStr "") in
  let* dim_desc := get dim "description" (VStr "No description available.") in
  let* highlighted := any_keyword_in dim_name catalog_keywords in
  Ok (if highlighted
      then "- **" ++ py_str dim_title ++ " (`" ++ py_str dim_name ++ "`)**: "
             ++ py_str dim_desc ++ nl
      else "").

Definition catalog_header : string :=
  "# Semantic Catalog - The Metadata Hub" ++ nl ++ nl
  ++ "The 'semantic_catalog' is a special view that acts as a metadata registry for the entire data schema. "
  ++ "It provides a complete picture of all available semantic views, cubes, and their relationships."
  ++ nl ++ nl
  ++ "## Key Metadata Dimensions in the Catalog:" ++ nl ++ nl.

Definition generate_catalog_description (catalog : value) : result string :=
  if negb (truthy catalog) then Ok ""
  else
    let* dimensions := get catalog "dimensions" (VList []) in
    let* dims := py_iter dimensions in
    let* lines := mapM catalog_dimension_line dims in
    Ok (catalog_header ++ String.concat "" lines).

(** *** Entity describer: cubes *)

(** The brief line of one measure in [generate_cube_description]. *)
Definition measure_brief_line (m : value) : result string :=
  let* m_name := get m "name" (VStr "unknown") in
  let* m_title := get m "title" m_name in
  let* m_type := get m "type" (VStr "unknown") in
  let* m_agg := get m "aggType" (VStr "aggregation") in
  let* m_desc := get m "description" (VStr "") in
  let* m_desc_text := str_method strip m_desc in
  Ok ("- **" ++ py_str m_name ++ "**: A **" ++ py_str m_agg
        ++ " ** measure with following description : " ++ m_desc_text ++ "."
        ++ dquote ++ " This measure has the title " ++ py_str m_title ++ dquote
        ++ " and is of type " ++ py_str m_type).

(** The brief line of one dimension in [generate_cube_description]. *)
Definition dimension_brief_line (d : value) : result string :=
  let* d_name := get d "name" (VStr "unknown") in
  let* d_title := get d "title" d_name in
  let* d_type := get d "type" (VStr "unknown") in
  let* d_pk := get d "primaryKey" (VBool false) in
  let* d_vis := get d "isVisible" (VBool false) in
  Ok ("- **" ++ py_str d_name ++ "**: A **" ++ py_str d_type ++ "** dimension "
        ++ (if truthy d_pk then "that serves as the primary key" else "") ++ ". "
        ++ "This dimension has the title " ++ dquote ++ py_str d_title ++ dquote
        ++ " and is " ++ (if truthy d_vis then "visible" else "not visible") ++ ".").

(** The header lines of a cube: the first eight entries of [desc]. *)
Definition cube_header (cube : value) : result (list string) :=
  let* name := get cube "name" (VStr "UnknownCube") in
  let* title := get cube "title" name in
  let* ctype := get cube "type" (VStr "cube") in
  let* is_visible := get cube "isVisible" (VBool true) in
  let* is_public := get cube "public" (VBool true) in
  let* description := get cube "description" (VStr "used for data analysis.") in
  let* conn_components := get cube "connectedComponents" (VList []) in
  let* ctype_cap := str_method capitalize ctype in
  let* n_components := py_len conn_components in
  Ok [ "### Cube: " ++ py_str title ++ nl;
       "The **" ++ py_str title ++ "** cube is a data structure wiht the description:"
         ++ py_str description ++ "." ++ nl;
       "It has the following properties:";
       "- **Name:** " ++ py_str name;
       "- **Title:** " ++ py_str title;
       "- **Type:** " ++ ctype_cap;
       "- **Visibility:** " ++ (if truthy is_visible then "visible" else "not visible")
         ++ ", " ++ (if truthy is_public then "public" else "private");
       "- **Connected Components:** " ++ str_of_Z n_components ++ nl ].

(** A brief summary: nothing when [fields] is empty, else a count line, one
    line per field and a closing newline entry. *)
Definition brief_summary (kind : string) (line : value -> result string)
    (fields : value) : result (list string) :=
  if truthy fields then
    let* n := py_len fields in
    let* fs := py_iter fields in
    let* lines := mapM line fs in
    Ok (("This cube contains **" ++ str_of_Z n ++ " " ++ kind ++ "**:" ++ nl)
          :: app lines [nl])
  else Ok [].

(** The list [desc] of [generate_cube_description]. *)
Definition cube_lines (cube : value) : result (list string) :=
  let* header := cube_header cube in
  let* name := get cube "name" (VStr "UnknownCube") in
  let* measures := get cube "measures" (VList []) in
  let* dims := get cube "dimensions" (VList []) in
  let* measure_brief := brief_summary "measures" measure_brief_line measures in
  let* dimension_brief := brief_summary "dimensions" dimension_brief_line dims in
  let* ms := py_iter measures in
  let* measure_details := mapM (generate_measure_description name) ms in
  let* ds := py_iter dims in
  let* dimension_details := mapM (generate_dimension_description name) ds in
  Ok (app header
     (app [ "## Measures (Brief Summary)" ++ nl ]
     (app measure_brief
     (app [ "## Dimensions (Brief Summary)" ++ nl ]
     (app dimension_brief
     (app [ "## Detailed Measure Descriptions" ++ nl;
            "Below is a detailed breakdown of each measure, including type, aggregation "
              ++ "behavior, visibility, titles, and additional metadata:" ++ nl ]
     (app measure_details
     (app [ nl;
            "## Detailed Dimension Descriptions" ++ nl;
            "The following section provides detailed information for each dimension, "
              ++ "including type, primary key status, visibility, titles, and other metadata:"
              ++ nl ]
          dimension_details)))))))).

Definition generate_cube_description (cube : value) : result string :=
  let* desc := cube_lines cube in
  Ok (join nl desc).

(** *** Entity describer: views *)

(** The loop over one subdivision's [views]: the sentence of the first entry
    whose name is [view_name], after which the loop is left by [break]. *)
Fixpoint subdivision_context (subdiv_data view_name : value) (views : list value)
  : result (list string) :=
  match views with
  | [] => Ok []
  | v :: rest =>
      let* name := get_none v "name" in
      if py_eq name view_name then
        let* display_name := get_none subdiv_data "display_name" in
        let* functional_area := get_none v "functional_area" in
        Ok [ "**Business Context**: Belongs to the '" ++ py_str display_name
               ++ "' subdivision and is used for '" ++ py_str functional_area ++ "'."
               ++ nl ++ nl ]
      else subdivision_context subdiv_data view_name rest
  end.

(** The loops over the business units and, inside, over their subdivisions:
    the Business Context sentences added to [desc], in order. *)
Definition business_context (taxonomy view_name : value) : result (list string) :=
  if truthy taxonomy then
    let* hierarchy := get taxonomy "hierarchy" (VDict []) in
    let* division := get hierarchy "division" (VDict []) in
    let* business_units := get division "business_units" (VDict []) in
    let* bus := items business_units in
    foldM (fun acc bu =>
             let* subdivisions := get (snd bu) "subdivisions" (VDict []) in
             let* subdivs := items subdivisions in
             foldM (fun acc' subdiv =>
                      let* views := get (snd subdiv) "views" (VList []) in
                      let* vs := py_iter views in
                      let* sentence := subdivision_context (snd subdiv) view_name vs in
                      Ok (app acc' sentence))
                   acc subdivs)
          [] bus
  else Ok [].

Definition view_measure_bullet (m : value) : result string :=
  let* name := get_none m "name" in
  let* title := get m "title" name in
  let* agg := get_none m "aggType" in
  Ok ("- **" ++ py_str title ++ "** (`" ++ py_str name ++ "`): A `" ++ py_str agg
        ++ "` aggregation." ++ nl).

Definition view_dimension_bullet (d : value) : result string :=
  let* name := get_none d "name" in
  let* title := get d "title" name in
  let* type := get_none d "type" in
  Ok ("- **" ++ py_str title ++ "** (`" ++ py_str name ++ "`): Data type is `"
        ++ py_str type ++ "`." ++ nl).

(** The text of a view that has not been seen yet. *)
Definition view_text (taxonomy view view_name : value) : result string :=
  let* title := get view "title" view_name in
  let* description := get view "description" (VStr "No description available.") in
  let* context := business_context taxonomy view_name in
  let* measures := get view "measures" (VList []) in
  let* metrics :=
    (if truthy measures
     then let* ms := py_iter measures in
          let* bullets := mapM view_measure_bullet ms in
          Ok ("### Key Metrics (Measures) in " ++ py_str view_name ++ ":" ++ nl
                ++ String.concat "" bullets)
     else Ok "") in
  let* dimensions := get view "dimensions" (VList []) in
  let* attributes :=
    (if truthy dimensions
     then let* ds := py_iter dimensions in
          let* bullets := mapM view_dimension_bullet ds in
          Ok (nl ++ "### Attributes (Dimensions) in " ++ py_str view_name ++ ":" ++ nl
                ++ String.concat "" bullets)
     else Ok "") in
  let* ms := py_iter measures in
  let* measure_fields :=
    mapM (fun m => let* p := generate_measure_description view_name m in Ok (p ++ nl)) ms in
  let* ds := py_iter dimensions in
  let* dimension_fields :=
    mapM (fun d => let* p := generate_dimension_description view_name d in Ok (p ++ nl)) ds in
  Ok ("# Semantic View: " ++ py_str title ++ nl ++ nl
        ++ "**Technical Name**: `" ++ py_str view_name ++ "`" ++ nl ++ nl
        ++ "**Description**: " ++ py_str description ++ nl ++ nl
        ++ String.concat "" context
        ++ metrics
        ++ attributes
        ++ nl ++ "#### Detailed Fields for " ++ py_str view_name ++ ":" ++ nl
        ++ String.concat "" measure_fields
        ++ String.concat "" dimension_fields).

Definition mark_seen (k : hkey) (g : Generator) : Generator :=
  {| metadata := metadata g;
     taxonomy := taxonomy g;
     views_only := views_only g;
     corpus_parts := corpus_parts g;
     seen_entities := {[ k ]} ∪ seen_entities g |}.

(** [generate_view_description]: what the call returns or raises, and the
    generator it leaves behind.  The name is added to [seen_entities] before
    the text is built, so it stays there when building the text raises. *)
Definition generate_view_description (g : Generator) (view : value)
  : result string * Generator :=
  if negb (truthy view) then (Ok "", g)
  else
    match (let* name := get_none view "name" in as_key name) with
    | Raise e => (Raise e, g)
    | Ok k =>
        if bool_decide (k ∈ seen_entities g) then (Ok "", g)
        else
          match (let* view_name := get view "name" (VStr "Unknown") in
                 let* k' := as_key view_name in
                 Ok (view_name, k')) with
          | Raise e => (Raise e, g)
          | Ok (view_name, k') =>
              (view_text (taxonomy g) view view_name, mark_seen k' g)
          end
    end.

(** *** Taxonomy renderer *)

(** [", ".join(xs) if xs else dflt]. *)
Definition join_or (xs : value) (dflt : string) : result string :=
  if truthy xs then py_join ", " xs else Ok dflt.

Definition functional_area_bullet (area : value) : result string :=
  let* name := get area "name" (VStr "") in
  let* display_name := get area "display_name" name in
  let* description := get area "description" (VStr "") in
  Ok ("- " ++ py_str display_name ++ ": " ++ py_str description ++ "." ++ nl).

Definition hierarchy_view_bullet (view : value) : result string :=
  let* name := get view "name" (VStr "") in
  let* view_type := get view "type" (VStr "") in
  let* functional_area := get view "functional_area" (VStr "") in
  let* tags := get view "tags" (VList []) in
  let* tags_text := join_or tags "no associated tags" in
  let* area := str_method (replace_char "_" " ") functional_area in
  Ok ("- **" ++ py_str name ++ "**: This is a " ++ py_str view_type
        ++ " view belonging to the " ++ area ++ " functional area. "
        ++ "It includes tags such as " ++ tags_text ++ "." ++ nl).

(** A bullet listing under [heading], or nothing when [xs] is empty. *)
Definition bullet_section (heading : string) (bullet : value -> result string)
    (xs : value) : result string :=
  if truthy xs then
    let* l := py_iter xs in
    let* bullets := mapM bullet l in
    Ok (heading ++ nl ++ String.concat "" bullets ++ nl)
  else Ok "".

Definition subdivision_text (bu_name : string) (subdiv : string * value) : result string :=
  let (subdiv_name, subdiv_data) := subdiv in
  let* subdiv_desc := get subdiv_data "description" (VStr "N/A") in
  let* functional_areas := get subdiv_data "functional_areas" (VList []) in
  let* areas := bullet_section "**Functional Areas:**" functional_area_bullet functional_areas in
  let* views := get subdiv_data "views" (VList []) in
  let* view_list := bullet_section "**Views:**" hierarchy_view_bullet views in
  Ok ("##### Subdivision: " ++ subdiv_name ++ nl ++ nl
        ++ "The " ++ bu_name ++ " business unit has a **" ++ subdiv_name
        ++ "** subdivision and is used for " ++ py_str subdiv_desc ++ nl ++ nl
        ++ areas ++ view_list).

Definition business_unit_text (div_name : value) (bu : string * value) : result string :=
  let (bu_name, bu_data) := bu in
  let* display_name := get bu_data "display_name" (VStr "Unknown") in
  let* description := get bu_data "description" (VStr "Unknown") in
  let* subdivisions := get bu_data "subdivisions" (VDict []) in
  let* subdivs := items subdivisions in
  let* texts := mapM (subdivision_text bu_name) subdivs in
  Ok ("#### Business Unit: " ++ bu_name ++ nl ++ nl
        ++ "The " ++ py_str div_name ++ " division contains the **" ++ bu_name
        ++ "** business unit." ++ nl ++ nl
        ++ "The division with name is known as '" ++ py_str display_name
        ++ "' and  is user for : " ++ py_str description ++ "." ++ nl ++ nl
        ++ String.concat "" texts).

Definition classification_bullet (vc : string * value) : result string :=
  let (vc_name, vc_data) := vc in
  let* purpose := get vc_data "purpose" (VStr "No purpose provided") in
  let* data_domains := get vc_data "data_domains" (VList []) in
  let* primary_users := get vc_data "primary_users" (VList []) in
  let* update_freq := get vc_data "update_frequency" (VStr "unknown frequency") in
  let* domains_text := join_or data_domains "no data domains" in
  let* users_text := join_or primary_users "no defined users" in
  Ok ("- **" ++ vc_name ++ "**: This classification is used for " ++ py_str purpose ++ ". "
        ++ "It covers data domains such as " ++ domains_text ++ ". "
        ++ "The primary users of this view include " ++ users_text ++ ". "
        ++ "The data for this classification is updated on a " ++ py_str update_freq
        ++ " basis." ++ nl).

(** [", ".join(xs) if xs else None], then the line under [if text:]. *)
Definition shared_line (label : string) (xs : value) : result string :=
  if truthy xs then
    let* text := py_join ", " xs in
    Ok (if String.eqb text "" then "" else "  - " ++ label ++ ": " ++ text ++ "." ++ nl)
  else Ok "".

Definition relationship_entry (vr : string * value) : result string :=
  let (view_name, vr_data) := vr in
  let* related_views := get vr_data "related_views" (VList []) in
  let* shared_measures := get vr_data "shared_measures" (VList []) in
  let* shared_dimensions := get vr_data "shared_dimensions" (VList []) in
  let* relationship_type := get vr_data "relationship_type" VNone in
  let* related_text := join_or related_views "no directly related views" in
  let* measures_line := shared_line "Shared measures" shared_measures in
  let* dimensions_line := shared_line "Shared dimensions" shared_dimensions in
  Ok ("- **" ++ view_name ++ "**:" ++ nl
        ++ "  - Related views: " ++ related_text ++ "." ++ nl
        ++ measures_line ++ dimensions_line
        ++ (if truthy relationship_type
            then "  - Relationship type: " ++ py_str relationship_type ++ "." ++ nl
            else "")
        ++ nl).

Definition view_type_line (vt : string * value) : string :=
  "    - " ++ replace_char "_" " " (fst vt) ++ ": " ++ py_str (snd vt).

Definition metadata_summary (metadata : value) : result string :=
  let* total_views := get metadata "total_views" (VStr "N/A") in
  let* view_types := get metadata "view_types" (VDict []) in
  let* business_units := get metadata "business_units" (VStr "N/A") in
  let* subdivisions := get metadata "subdivisions" (VStr "N/A") in
  let* functional_areas_count := get metadata "functional_areas" (VStr "N/A") in
  let* vts := items view_types in
  let view_type_lines := map view_type_line vts in
  let view_type_text :=
    match view_type_lines with
    | [] => "    - No detailed view types listed"
    | _ => join nl view_type_lines
    end in
  Ok ("### Metadata Summary" ++ nl ++ nl
        ++ "The following metadata provides a high-level overview of the structure and "
        ++ "composition of this business unit, including counts of views, view types, "
        ++ "business units, subdivisions, and functional areas." ++ nl ++ nl
        ++ "- **Total Views:** " ++ py_str total_views ++ nl
        ++ "- **View Types:**" ++ nl ++ view_type_text ++ nl
        ++ "- **Business Units:** " ++ py_str business_units ++ nl
        ++ "- **Subdivisions:** " ++ py_str subdivisions ++ nl
        ++ "- **Functional Areas:** " ++ py_str functional_areas_count ++ nl ++ nl).

(** A flat section of the taxonomy: emitted only when its mapping is not
    empty. *)
Definition guarded_section (mapping : value) (render : result string) : result string :=
  if truthy mapping then render else Ok "".

Definition classifications_intro : string :=
  "### View Classifications" ++ nl ++ nl
  ++ "The business unit includes a set of classified views. "
  ++ "Each classification describes the purpose of the view, the data domains it covers, "
  ++ "its primary users, and how frequently its data is updated." ++ nl ++ nl.

Definition relationships_intro : string :=
  "### View Relationships" ++ nl ++ nl
  ++ "This section describes how different views are connected to one another. "
  ++ "Each entry lists related views, and when available, the shared measures, "
  ++ "shared dimensions, or special relationship types that define how the views "
  ++ "interact within the data ecosystem." ++ nl ++ nl.

(** [generate_hierarchy_description], on the generator's taxonomy. *)
Definition generate_hierarchy_description (g : Generator) : result string :=
  let taxonomy := taxonomy g in
  let* organization := get taxonomy "organization" (VStr "Organization") in
  let* org_name := get organization "name" (VStr "Unknown") in
  let* organization' := get taxonomy "organization" (VStr "Organization") in
  let* org_code := get organization' "code" (VStr "N/A") in
  let* hierarchy := get taxonomy "hierarchy" (VDict []) in
  let* division := get hierarchy "division" (VDict []) in
  let* div_name := get division "name" (VStr "Unknown") in
  let* business_units := get division "business_units" (VDict []) in
  let* bus := items business_units in
  let* bu_texts := mapM (business_unit_text div_name) bus in
  let* view_classifications := get taxonomy "view_classifications" (VDict []) in
  let* classifications :=
    guarded_section view_classifications
      (let* vcs := items view_classifications in
       let* bullets := mapM classification_bullet vcs in
       Ok (classifications_intro ++ String.concat "" bullets ++ nl)) in
  let* view_relationships := get taxonomy "view_relationships" (VDict []) in
  let* relationships :=
    guarded_section view_relationships
      (let* vrs := items view_relationships in
       let* entries := mapM relationship_entry vrs in
       Ok (relationships_intro ++ String.concat "" entries)) in
  let* metadata := get taxonomy "metadata" (VDict []) in
  let* summary := guarded_section metadata (metadata_summary metadata) in
  Ok ("# Business Hierarchy" ++ nl ++ nl
        ++ "## Organizational Structure" ++ nl ++ nl
        ++ "The **" ++ py_str org_name ++ "** is the top-level organization. The code is "
        ++ py_str org_code ++ nl ++ nl
        ++ "### Division: " ++ py_str div_name ++ nl ++ nl
        ++ "The " ++ py_str org_name ++ " has a division called **" ++ py_str div_name
        ++ "**." ++ nl ++ nl
        ++ String.concat "" bu_texts
        ++ classifications ++ relationships ++ summary
        ++ "---" ++ nl ++ nl).

(** *** Query-pattern synthesizer *)

(** [m.get('title', m.get('name'))]. *)
Definition title_or_name (m : value) : result value :=
  let* name := get_none m "name" in
  get m "title" name.

(** The six blocks of the loop body, each the question/answer pair it adds
    to [desc] ([[]] when its condition fails). *)

(** Question about purpose. *)
Definition purpose_pair (cube_name cube_title description : value) : list string :=
  if truthy description
  then [ "**Question**: What is the purpose of the '" ++ py_str cube_title ++ "'?" ++ nl
           ++ "**Answer**: The '" ++ py_str cube_title ++ "' (technical name: `"
           ++ py_str cube_name ++ "`) is used for: " ++ py_str description ++ nl ++ nl ]
  else [].

(** Question about measures, by quoted titles. *)
Definition metrics_pair (cube_title measures : value) : result (list string) :=
  if truthy measures
  then let* ms := py_iter measures in
       let* titles := mapM title_or_name ms in
       let measure_names := map (fun t => "'" ++ py_str t ++ "'") titles in
       Ok [ "**Question**: What metrics are available in '" ++ py_str cube_title ++ "'?" ++ nl
              ++ "**Answer**: The '" ++ py_str cube_title
              ++ "' provides the following metrics: " ++ join ", " measure_names
              ++ "." ++ nl ++ nl ]
  else Ok [].

(** Question about measures, by raw names. *)
Definition measure_list_pair (cube_name measures : value) : result (list string) :=
  if truthy measures
  then let* n := py_len measures in
       let* ms := py_iter measures in
       let* names := mapM (fun m => get m "name" (VStr "unknown")) ms in
       let* measure_names := mapM as_str names in
       Ok [ "**Question:** What measures are in " ++ py_str cube_name ++ "?" ++ nl ++ nl
              ++ "**Answer:** The " ++ py_str cube_name ++ " cube has " ++ str_of_Z n
              ++ " measures: " ++ join ", " measure_names ++ "." ++ nl ++ nl ]
  else Ok [].

(** Question about a specific dimension's data type. *)
Definition dimension_type_pair (cube_title dimensions : value) : result (list string) :=
  if truthy dimensions
  then let* dim := index0 dimensions in
       let* dim_title := title_or_name dim in
       let* dim_type := get dim "type" (VStr "unknown") in
       Ok [ "**Question**: What is the data type of '" ++ py_str dim_title ++ "' in the '"
              ++ py_str cube_title ++ "' view?" ++ nl
              ++ "**Answer**: In '" ++ py_str cube_title ++ "', the data type for '"
              ++ py_str dim_title ++ "' is `" ++ py_str dim_type ++ "`." ++ nl ++ nl ]
  else Ok [].

(** Question about field location. *)
Definition location_pair (cube_title measures : value) : result (list string) :=
  if truthy measures
  then let* measure := index0 measures in
       let* measure_title := title_or_name measure in
       Ok [ "**Question**: Where can I find the '" ++ py_str measure_title ++ "' metric?" ++ nl
              ++ "**Answer**: The metric '" ++ py_str measure_title
              ++ "' is located in the **" ++ py_str cube_title ++ "** cube/view."
              ++ nl ++ nl ]
  else Ok [].

(** [d.get('primaryKey')] as the condition of the comprehension [pk_dims]. *)
Definition has_primary_key (d : value) : result bool :=
  let* pk := get_none d "primaryKey" in
  Ok (truthy pk).

(** Primary key query, on [pk_dims[0]]. *)
Definition primary_key_pair (cube_name : value) (pk_dims : list value)
  : result (list string) :=
  match pk_dims with
  | [] => Ok []
  | pk :: _ =>
      let* pk_name := get_none pk "name" in
      let* pk_type := get pk "type" (VStr "unknown") in
      Ok [ "**Question:** What is the primary key of " ++ py_str cube_name ++ "?" ++ nl ++ nl
             ++ "**Answer:** The primary key is " ++ py_str pk_name ++ ", "
             ++ "which is a " ++ py_str pk_type ++ " dimension." ++ nl ++ nl ]
  end.

(** The question/answer pairs of one entity, one string per pair, in the
    order the loop body adds them to [desc]. *)
Definition entity_query_patterns (cube : value) : result (list string) :=
  let* cube_name := get cube "name" (VStr "Unknown") in
  let* cube_title := get cube "title" cube_name in
  let* description := get_none cube "description" in
  let purpose := purpose_pair cube_name cube_title description in
  let* measures := get cube "measures" (VList []) in
  let* metrics := metrics_pair cube_title measures in
  let* measure_list := measure_list_pair cube_name measures in
  let* dimensions := get cube "dimensions" (VList []) in
  let* dimension_type := dimension_type_pair cube_title dimensions in
  let* location := location_pair cube_title measures in
  let* ds := py_iter dimensions in
  let* pk_dims := filterM has_primary_key ds in
  let* primary_key := primary_key_pair cube_name pk_dims in
  Ok (app purpose (app metrics (app measure_list
       (app dimension_type (app location primary_key))))).

Definition query_patterns_header : string :=
  "# Example Questions and Answers" ++ nl ++ nl.

(** [generate_query_patterns]: the loop runs over [cubes[:20]]. *)
Definition generate_query_patterns (g : Generator) : result string :=
  let* cubes := get (metadata g) "cubes" (VList []) in
  let* prefix := slice_prefix 20 cubes in
  let* entities := py_iter prefix in
  let* pairs := mapM entity_query_patterns entities in
  Ok (query_patterns_header ++ String.concat "" (map (String.concat "") pairs)).

(** *** Statistics *)

(** The float literal [1.3]: the binary64 number nearest to 13/10. *)
Definition f1_3 : float := 0x1.4cccccccccccdp+0%float.

(** [float(n)] for the integer a [len] returns (below 2^63). *)
Definition py_float (n : Z) : float := PrimFloat.of_uint63 (Uint63.of_Z n).

(** [int(x)] for a float: the integer part, rounding toward zero. *)
Definition py_int (x : float) : Z :=
  match Prim2SF x with
  | S754_finite s m e =>
      let magnitude :=
        match e with
        | Zneg p => Z.shiftr (Zpos m) (Zpos p)
        | _ => Z.shiftl (Zpos m) e
        end in
      if s then - magnitude else magnitude
  | _ => 0
  end.

Definition _calculate_statistics (g : Generator) (corpus : string) : Stats :=
  {| total_parts := Z.of_nat (length (corpus_parts g));
     characters := Z.of_nat (String.length corpus);
     words := count_words false corpus;
     estimated_tokens :=
       py_int (PrimFloat.mul (py_float (count_words false corpus)) f1_3) |}.

(** *** Corpus orchestrator *)

Definition is_catalog (c : value) : result bool :=
  let* name := get_none c "name" in
  Ok (py_eq name (VStr "semantic_catalog")).

Definition is_semantic_view (c : value) : result bool :=
  let* type := get_none c "type" in
  if py_eq type (VStr "view")
  then let* name := get_none c "name" in
       Ok (negb (py_eq name (VStr "semantic_catalog")))
  else Ok false.

Definition is_data_cube (c : value) : result bool :=
  let* type := get_none c "type" in
  Ok (py_eq type (VStr "cube")).

(** The three list comprehensions of [generate_full_corpus]:
    [catalog_views], [semantic_views] and [data_cubes]. *)
Definition classify_entities (cubes_list : list value)
  : result (list value * list value * list value) :=
  let* catalog_views := filterM is_catalog cubes_list in
  let* semantic_views := filterM is_semantic_view cubes_list in
  let* data_cubes := filterM is_data_cube cubes_list in
  Ok (catalog_views, semantic_views, data_cubes).

Definition separator : string := nl ++ nl ++ "---" ++ nl ++ nl.

(** [generate_full_corpus]: the corpus it returns, with the statistics it
    hands to [_save_statistics] and the generator afterwards.  The six
    generation stages are commented out in the source, so no stage appends to
    [corpus_parts]. *)
Definition generate_full_corpus (g : Generator) : result (string * Stats * Generator) :=
  let* cubes_list := get (metadata g) "cubes" (VList []) in
  let* entities := py_iter cubes_list in
  let* partitions := classify_entities entities in
  let full_corpus := join separator (corpus_parts g) in
  let stats := _calculate_statistics g full_corpus in
  Ok (full_corpus, stats, g).

(** *** Relationship extractor *)

(** [s] without its prefix [p], when [s] starts with [p]. *)
Fixpoint strip_prefix (p s : string) : option string :=
  match p, s with
  | EmptyString, _ => Some s
  | String a p', String b s' => if Ascii.eqb a b then strip_prefix p' s' else None
  | String _ _, EmptyString => None
  end.

(** The first occurrence of [sep] in [s]: the text before it and the text
    after it. *)
Fixpoint find_sep (sep s : string) : option (string * string) :=
  match strip_prefix sep s with
  | Some rest => Some ("", rest)
  | None =>
      match s with
      | EmptyString => None
      | String c s' =>
          match find_sep sep s' with
          | Some (before, after) => Some (String c before, after)
          | None => None
          end
      end
  end.

(** [s.split(sep)] for a non-empty [sep]: cut at each occurrence, from the
    left.  Each cut leaves a shorter rest, so [fuel] the length of [s] is
    never used up. *)
Fixpoint split_fuel (fuel : nat) (sep s : string) : list string :=
  match fuel with
  | O => [s]
  | S fuel' =>
      match find_sep sep s with
      | Some (before, after) => before :: split_fuel fuel' sep after
      | None => [s]
      end
  end.

Definition split (sep s : string) : list string :=
  split_fuel (String.length s) sep s.

(** [s.replace(old, new)] for a non-empty [old]: the occurrences
    [s.split(old)] cuts at are the ones replaced. *)
Definition replace (old new s : string) : string := join new (split old s).

Definition relationships_header : string :=
  "# View and Cube Relationships" ++ nl ++ nl.

(** The body of the [try]: the names between 'A combined view of' and
    ' to provide'.  A missing list item is an [IndexError]. *)
Definition extract_cube_names (description : string) : result (list string) :=
  match nth_error (split "A combined view of" description) 1 with
  | None => Raise IndexError
  | Some after_phrase =>
      match nth_error (split " to provide" after_phrase) 0 with
      | None => Raise IndexError
      | Some cube_names_str =>
          Ok (map strip (split "," (replace "and " "" cube_names_str)))
      end
  end.

(** One turn of the loop over the semantic views: what it adds to [desc]. *)
Definition relationship_sentence (view : value) : result string :=
  let* name := get_none view "name" in
  let* view_name := get view "title" name in
  let* description := get view "description" (VStr "") in
  let* found := str_in "A combined view of" description in
  if found then
    match description with
    | VStr d =>
        match extract_cube_names d with
        | Ok cube_names =>
            Ok (match cube_names with
                | [] => ""
                | _ => "The **" ++ py_str view_name
                         ++ "** view is constructed by combining data from the following cubes: **"
                         ++ join ", " cube_names ++ "**." ++ nl
                end)
        | Raise IndexError => Ok ""
        | Raise e => Raise e
        end
    | _ => Raise AttributeError
    end
  else Ok "".

(** [generate_relationship_sentences]. *)
Definition generate_relationship_sentences (g : Generator) : result string :=
  let* cubes := get (metadata g) "cubes" (VList []) in
  let* entities := py_iter cubes in
  let* semantic_views := filterM is_semantic_view entities in
  let* sentences := mapM relationship_sentence semantic_views in
  Ok (relationships_header ++ String.concat "" sentences).

(** ** The instruction generator of GENERATE_INSTRUCTIONS.py and the prompt
       formatter of FINETUNE_LORA.py *)

(** [v[k]] for a string key: only a dictionary can be indexed by it. *)
Definition subscript (v : value) (k : string) : result value :=
  match v with
  | VDict d =>
      match lookup_key k d with
      | Some x => Ok x
      | None => Raise KeyError
      end
  | _ => Raise TypeError
  end.

Module InstructionGenerator.

(** [__init__]: the metadata document, loaded without a fallback. *)
Definition __init__ (metadata_file : value) : value := metadata_file.

Definition system_prompt : string :=
  "You are a metadata expert for Bayer Crop Science. Answer questions about cubes from your knowledge.".

(** One instruction: a dictionary with the three messages. *)
Definition instruction (question answer : string) : value :=
  VDict [("messages",
          VList [ VDict [("role", VStr "system"); ("content", VStr system_prompt)];
                  VDict [("role", VStr "user"); ("content", VStr question)];
                  VDict [("role", VStr "assistant"); ("content", VStr answer)] ])].

(** The loop of [_format_measures_answer] over [enumerate(measures, i)]. *)
Fixpoint measure_items (i : Z) (measures : list value) : result string :=
  match measures with
  | [] => Ok ""
  | measure :: rest =>
      let* m_name := get measure "name" (VStr "unknown") in
      let* m_title := get measure "title" m_name in
      let* agg_type := get measure "aggType" (VStr "unknown") in
      let* others := measure_items (i + 1) rest in
      Ok (str_of_Z i ++ ". **" ++ py_str m_name ++ "**" ++ nl
            ++ "   - Title: " ++ py_str m_title ++ nl
            ++ "   - Aggregation: " ++ py_str agg_type ++ nl ++ nl
            ++ others)
  end.

Definition _format_measures_answer (cube_name measures : value) : result string :=
  let* n := py_len measures in
  let* ms := py_iter measures in
  let* items := measure_items 1 ms in
  Ok (strip ("The " ++ py_str cube_name ++ " cube has " ++ str_of_Z n ++ " measures:"
               ++ nl ++ nl ++ items)).

(** The instructions one entity adds to the list. *)
Definition cube_instructions (cube : value) : result (list value) :=
  let* cube_name := get cube "name" (VStr "Unknown") in
  let* measures := get cube "measures" (VList []) in
  let* dimensions := get cube "dimensions" (VList []) in
  let* list_measures :=
    (if truthy measures
     then let* answer := _format_measures_answer cube_name measures in
          Ok [ instruction ("What measures are in " ++ py_str cube_name ++ "?") answer ]
     else Ok []) in
  let* ds := py_iter dimensions in
  let* pk_dims := filterM has_primary_key ds in
  let* primary_key :=
    match pk_dims with
    | [] => Ok []
    | pk :: _ =>
        let* pk_name := get_none pk "name" in
        let* pk_type := get_none pk "type" in
        Ok [ instruction ("What is the primary key of " ++ py_str cube_name ++ "?")
               ("The primary key of " ++ py_str cube_name ++ " is " ++ py_str pk_name
                  ++ ", which is a " ++ py_str pk_type ++ " dimension.") ]
    end in
  Ok (app list_measures primary_key).

Definition generate_instructions (metadata : value) : result (list value) :=
  let* cubes := get metadata "cubes" (VList []) in
  let* entities := py_iter cubes in
  let* per_cube := mapM cube_instructions entities in
  Ok (concat per_cube).

End InstructionGenerator.

(** What one message adds to [formatted] in [format_instruction]. *)
Definition format_message (msg : value) : result string :=
  let* role := subscript msg "role" in
  let* content := subscript msg "content" in
  Ok (if py_eq role (VStr "system")
      then "<|system|>" ++ nl ++ py_str content ++ "<|end|>" ++ nl
      else if py_eq role (VStr "user")
      then "<|user|>" ++ nl ++ py_str content ++ "<|end|>" ++ nl
      else if py_eq role (VStr "assistant")
      then "<|assistant|>" ++ nl ++ py_str content ++ "<|end|>" ++ nl
      else "").

(** [format_instruction], the function [create_dataset] maps over the
    instruction file. *)
Definition format_instruction (sample : value) : result string :=
  let* messages := subscript sample "messages" in
  let* msgs := py_iter messages in
  let* parts := mapM format_message msgs in
  Ok (String.concat "" parts).

(** ** Vocabulary of the properties *)

(** The value a dictionary's [get] returns. *)
Definition field (d : list (string * value)) (k : string) (dflt : value) : value :=
  match lookup_key k d with
  | Some x => x
  | None => dflt
  end.

(** The shape of a value: a dictionary, a string, a list. *)
Definition is_dict (v : value) : bool :=
  match v with
  | VDict _ => true
  | _ => false
  end.

(** A list whose items all pass [p]. *)
Definition records (p : value -> bool) (v : value) : bool :=
  match v with
  | VList l => forallb p l
  | _ => false
  end.

(** The metadata document of the data model: a dictionary whose [cubes],
    when the key is there, is a list of entity records (dictionaries). *)
Definition metadata_ok (md : value) : bool :=
  match md with
  | VDict d => records is_dict (field d "cubes" (VList []))
  | _ => false
  end.

(** A dimension record: its [meta], when the key is there, is a
    dictionary. *)
Definition dimension_ok (d : value) : bool :=
  match d with
  | VDict f => is_dict (field f "meta" (VDict []))
  | _ => false
  end.

(** A view record of the data model: [measures] and [dimensions], when
    there, are lists of measure and dimension records. *)
Definition view_ok (f : list (string * value)) : bool :=
  records is_dict (field f "measures" (VList []))
  && records dimension_ok (field f "dimensions" (VList [])).

(** The record's [name] is ['semantic_catalog']. *)
Definition named_catalog (d : list (string * value)) : bool :=
  py_eq (field d "name" VNone) (VStr "semantic_catalog").

(** The record's [type] is the string [t]. *)
Definition typed (t : string) (d : list (string * value)) : bool :=
  py_eq (field d "type" VNone) (VStr t).

(** The conditions of the comprehensions [catalog_views], [semantic_views]
    and [data_cubes]. *)
Definition in_catalog_views (c : value) : bool :=
  match c with VDict d => named_catalog d | _ => false end.

Definition in_semantic_views (c : value) : bool :=
  match c with VDict d => typed "view" d && negb (named_catalog d) | _ => false end.

Definition in_data_cubes (c : value) : bool :=
  match c with VDict d => typed "cube" d | _ => false end.

(** The statistics of an empty corpus. *)
Definition zero_stats : Stats :=
  {| total_parts := 0; characters := 0; words := 0; estimated_tokens := 0 |}.

(** A condition counted as 0 or 1. *)
Definition b2n (b : bool) : nat := if b then 1%nat else 0%nat.

(** In how many of the three lists an entity lands. *)
Definition partitions_of (c : value) : nat :=
  (b2n (in_catalog_views c) + b2n (in_semantic_views c) + b2n (in_data_cubes c))%nat.

(** An entity named like the catalog and typed as a cube, and an entity
    with no type. *)
Definition catalog_cube : value :=
  VDict [("name", VStr "semantic_catalog"); ("type", VStr "cube")].

Definition untyped_entity : value := VDict [("name", VStr "E1")].

(** A taxonomy in which two subdivisions both list the view [ViewX]. *)
Definition two_subdivision_taxonomy : value :=
  VDict [("hierarchy", VDict [("division", VDict [("business_units", VDict
    [("BU1", VDict [("subdivisions", VDict
       [("S1", VDict [("display_name", VStr "First");
                      ("views", VList [VDict [("name", VStr "ViewX");
                                              ("functional_area", VStr "area_one")]])]);
        ("S2", VDict [("display_name", VStr "Second");
                      ("views", VList [VDict [("name", VStr "ViewX");
                                              ("functional_area", VStr "area_two")]])])])])])])])].




(** The word a renderer prints for the flag [k] of the record [f], read
    with the default [dflt]. *)
Definition flag_word (f : list (string * value)) (k : string) (dflt : bool)
    (yes no : string) : string :=
  if truthy (field f k (VBool dflt)) then yes else no.

Definition is_str (v : value) : bool :=
  match v with
  | VStr _ => true
  | _ => false
  end.

Definition is_list (v : value) : bool :=
  match v with
  | VList _ => true
  | _ => false
  end.

(** [round(x)] for a float, as the property is worded: the nearest integer,
    a tie going to the even one. *)
Definition py_round (x : float) : Z :=
  match Prim2SF x with
  | S754_finite s m e =>
      let magnitude :=
        match e with
        | Zneg p =>
            let q := Z.shiftr (Zpos m) (Zpos p) in
            let r := Zpos m - Z.shiftl q (Zpos p) in
            let half := Z.shiftl 1 (Zpos p - 1) in
            if r <? half then q
            else if half <? r then q + 1
            else if Z.even q then q else q + 1
        | _ => Z.shiftl (Zpos m) e
        end in
      if s then - magnitude else magnitude
  | _ => 0
  end.

(** [int(n * 1.3)] for a word count [n]. *)
Definition tokens_of (n : Z) : Z := py_int (PrimFloat.mul (py_float n) f1_3).

(** Checks [tokens_of k = 13 * k / 10] for the [fuel] word counts from [n]
    on. *)
Fixpoint tokens_floor_upto (fuel : nat) (n : Z) : bool :=
  match fuel with
  | O => true
  | S fuel' =>
      if tokens_of n =? 13 * n / 10 then tokens_floor_upto fuel' (n + 1) else false
  end.

(** A dimension record flagged as primary key. *)
Definition flagged_primary (d : value) : bool :=
  match d with
  | VDict f => truthy (field f "primaryKey" VNone)
  | _ => false
  end.

(** An option that holds a value. *)
Definition is_some {A : Type} (o : option A) : bool :=
  match o with
  | Some _ => true
  | None => false
  end.

(** An entity with a description, a measure and a primary-key dimension. *)
Definition full_entity : value :=
  VDict [("name", VStr "Orders"); ("description", VStr "All orders.");
         ("measures", VList [VDict [("name", VStr "total")]]);
         ("dimensions", VList [VDict [("name", VStr "id"); ("type", VStr "number");
                                      ("primaryKey", VBool true)]])].

(** [kw] occurs in [s] as a substring. *)
Definition contains (kw s : string) : Prop :=
  exists pre post, s = pre ++ kw ++ post.

(** A record whose [description], when the key is there, is a string. *)
Definition described (c : value) : bool :=
  match c with
  | VDict f => is_str (field f "description" (VStr ""))
  | _ => false
  end.

(** The sentence the relationship extractor writes for a view record [f]
    with the cube names [names]. *)
Definition relationship_text (f : list (string * value)) (names : list string) : string :=
  "The **" ++ py_str (field f "title" (field f "name" VNone))
    ++ "** view is constructed by combining data from the following cubes: **"
    ++ join ", " names ++ "**." ++ nl.

(** Every character of [s] passes [p]. *)
Fixpoint all_chars (p : ascii -> bool) (s : string) : bool :=
  match s with
  | EmptyString => true
  | String c rest => p c && all_chars p rest
  end.

(** The sum of [h] over a list. *)
Definition total {A : Type} (h : A -> Z) (l : list A) : Z :=
  fold_right (fun x acc => h x + acc) 0 l.

(** A generator that holds the blocks [parts]. *)
Definition with_parts (g : Generator) (parts : list string) : Generator :=
  {| metadata := metadata g;
     taxonomy := taxonomy g;
     views_only := views_only g;
     corpus_parts := parts;
     seen_entities := seen_entities g |}.

(** [v.get(k, dflt)], read off a value that is a dictionary. *)
Definition vfield (v : value) (k : string) (dflt : value) : value :=
  match v with
  | VDict d => field d k dflt
  | _ => dflt
  end.

(** The values of a dictionary and the items of a list, in order. *)
Definition dict_values (v : value) : list value :=
  match v with
  | VDict d => map snd d
  | _ => []
  end.

Definition list_items (v : value) : list value :=
  match v with
  | VList l => l
  | _ => []
  end.

(** A dictionary whose values all pass [p]. *)
Definition dict_of (p : value -> bool) (v : value) : bool :=
  match v with
  | VDict d => forallb (fun kv => p (snd kv)) d
  | _ => false
  end.

(** The business units of a taxonomy and, unit after unit, their
    subdivisions. *)
Definition taxonomy_business_units (tx : value) : value :=
  vfield (vfield (vfield tx "hierarchy" (VDict [])) "division" (VDict []))
    "business_units" (VDict []).

Definition taxonomy_subdivisions (tx : value) : list value :=
  flat_map (fun bu => dict_values (vfield bu "subdivisions" (VDict [])))
    (dict_values (taxonomy_business_units tx)).

(** An entry of a subdivision's [views] is named [view_name]. *)
Definition names_view (view_name v : value) : bool :=
  py_eq (vfield v "name" VNone) view_name.

(** The subdivision lists a view named [view_name]. *)
Definition lists_view (view_name subdiv : value) : bool :=
  existsb (names_view view_name) (list_items (vfield subdiv "views" (VList []))).

(** The Business Context sentence a subdivision gives a view: the one of
    its first entry with that name, if there is one. *)
Definition context_sentence (view_name subdiv : value) : list string :=
  match find (names_view view_name) (list_items (vfield subdiv "views" (VList []))) with
  | Some v =>
      [ "**Business Context**: Belongs to the '"
          ++ py_str (vfield subdiv "display_name" VNone)
          ++ "' subdivision and is used for '"
          ++ py_str (vfield v "functional_area" VNone) ++ "'." ++ nl ++ nl ]
  | None => []
  end.

(** The part of the taxonomy the view describer walks through, typed as in
    the data model: dictionaries down to the subdivisions, whose [views] are
    lists of records. *)
Definition subdivision_listing_ok (subdiv : value) : bool :=
  is_dict subdiv && records is_dict (vfield subdiv "views" (VList [])).

Definition business_unit_listing_ok (bu : value) : bool :=
  is_dict bu && dict_of subdivision_listing_ok (vfield bu "subdivisions" (VDict [])).

Definition context_ok (tx : value) : bool :=
  is_dict tx
  && is_dict (vfield tx "hierarchy" (VDict []))
  && is_dict (vfield (vfield tx "hierarchy" (VDict [])) "division" (VDict []))
  && dict_of business_unit_listing_ok (taxonomy_business_units tx).

(** A measure record whose [description], when there, is a string. *)
Definition measure_ok (m : value) : bool := described m.

(** A cube record of the data model: a string [type], a list of connected
    components, lists of measure and dimension records (each key may be
    absent). *)
Definition cube_ok (f : list (string * value)) : bool :=
  is_str (field f "type" (VStr "cube"))
  && is_list (field f "connectedComponents" (VList []))
  && records measure_ok (field f "measures" (VList []))
  && records dimension_ok (field f "dimensions" (VList [])).

(** The entries of a brief summary of [n] fields: none for no field, else a
    count line, the bullets and a closing entry. *)
Definition brief_entries (n : nat) : nat :=
  match n with
  | O => O
  | S _ => (n + 2)%nat
  end.

(** A measure record whose [name], when there, is a string. *)
Definition named_measure (m : value) : bool :=
  match m with
  | VDict f => is_str (field f "name" (VStr "unknown"))
  | _ => false
  end.

(** An entity record as the synthesizer reads it: lists of measure and
    dimension records (each key may be absent). *)
Definition query_entity_ok (c : value) : bool :=
  match c with
  | VDict f =>
      records named_measure (field f "measures" (VList []))
      && records is_dict (field f "dimensions" (VList []))
  | _ => false
  end.

(** One block of a prompt: the role marker, the content, the end marker. *)
Definition prompt_block (role content : string) : string :=
  "<|" ++ role ++ "|>" ++ nl ++ content ++ "<|end|>" ++ nl.

(** The prompt [format_instruction] builds from the three messages of an
    instruction. *)
Definition formatted_instruction (question answer : string) : string :=
  prompt_block "system" InstructionGenerator.system_prompt
  ++ prompt_block "user" question
  ++ prompt_block "assistant" answer.



(** A list of strings. *)
Definition str_list (v : value) : bool := records is_str v.

(** The nodes of a taxonomy, typed as in the data model; every key of a
    node may be absent. *)
Definition view_entry_ok (v : value) : bool :=
  match v with
  | VDict f =>
      is_str (field f "functional_area" (VStr ""))
      && str_list (field f "tags" (VList []))
  | _ => false
  end.

Definition subdivision_ok (s : value) : bool :=
  match s with
  | VDict f =>
      records is_dict (field f "functional_areas" (VList []))
      && records view_entry_ok (field f "views" (VList []))
  | _ => false
  end.

Definition business_unit_ok (bu : value) : bool :=
  match bu with
  | VDict f => dict_of subdivision_ok (field f "subdivisions" (VDict []))
  | _ => false
  end.

Definition classification_ok (c : value) : bool :=
  match c with
  | VDict f =>
      str_list (field f "data_domains" (VList []))
      && str_list (field f "primary_users" (VList []))
  | _ => false
  end.

Definition relationship_ok (r : value) : bool :=
  match r with
  | VDict f =>
      str_list (field f "related_views" (VList []))
      && str_list (field f "shared_measures" (VList []))
      && str_list (field f "shared_dimensions" (VList []))
  | _ => false
  end.

Definition summary_ok (m : value) : bool :=
  match m with
  | VDict f => is_dict (field f "view_types" (VDict []))
  | _ => false
  end.

(** A taxonomy document of the data model: [organization] is there and is
    a dictionary; every other key may be absent. *)
Definition taxonomy_ok (tx : value) : bool :=
  match tx with
  | VDict t =>
      match lookup_key "organization" t with
      | Some (VDict _) => true
      | _ => false
      end
      && is_dict (field t "hierarchy" (VDict []))
      && is_dict (vfield (field t "hierarchy" (VDict [])) "division" (VDict []))
      && dict_of business_unit_ok (taxonomy_business_units tx)
      && dict_of classification_ok (field t "view_classifications" (VDict []))
      && dict_of relationship_ok (field t "view_relationships" (VDict []))
      && summary_ok (field t "metadata" (VDict []))
  | _ => false
  end.

(** The character is not [c]. *)
Definition is_not (c : ascii) (x : ascii) : bool := negb (Ascii.eqb x c).

(** A view record without a [name] key, and the block it is rendered as. *)
Definition nameless_view : value :=
  VDict [("title", VStr "Sales");
         ("measures", VList [VDict [("name", VStr "total"); ("aggType", VStr "sum")]])].

Definition nameless_view_block : string :=
  "# Semantic View: Sales" ++ nl ++ nl
  ++ "**Technical Name**: `Unknown`" ++ nl ++ nl
  ++ "**Description**: No description available." ++ nl ++ nl
  ++ "### Key Metrics (Measures) in Unknown:" ++ nl
  ++ "- **total** (`total`): A `sum` aggregation." ++ nl
  ++ nl ++ "#### Detailed Fields for Unknown:" ++ nl
  ++ "The total is a measure in the Unknown cube." ++ nl
  ++ "It is a sum aggregation of type unknown." ++ nl
  ++ "Its full name is Unknown.total" ++ nl
  ++ "Its title is " ++ dquote ++ "total" ++ dquote ++ "." ++ nl
  ++ "Description: No description provided.." ++ nl
  ++ "This measure is not visible and private." ++ nl
  ++ "It is not cumulative." ++ nl
  ++ nl.

(** The first character of a string has its capital among the one-byte
    characters: it is neither the micro sign nor the y with diaeresis. *)
Definition one_byte_capital (v : value) : bool :=
  match v with
  | VStr (String c _) =>
      negb (Nat.eqb (nat_of_ascii c) 181 || Nat.eqb (nat_of_ascii c) 255)
  | _ => true
  end.

(** The eight header lines of the cube record [f]. *)
Definition cube_header_lines (f : list (string * value)) : list string :=
  let name := py_str (field f "name" (VStr "UnknownCube")) in
  let title := py_str (field f "title" (field f "name" (VStr "UnknownCube"))) in
  [ "### Cube: " ++ title ++ nl;
    "The **" ++ title ++ "** cube is a data structure wiht the description:"
      ++ py_str (field f "description" (VStr "used for data analysis.")) ++ "." ++ nl;
    "It has the following properties:";
    "- **Name:** " ++ name;
    "- **Title:** " ++ title;
    "- **Type:** " ++ capitalize (py_str (field f "type" (VStr "cube")));
    "- **Visibility:** " ++ flag_word f "isVisible" true "visible" "not visible"
      ++ ", " ++ flag_word f "public" true "public" "private";
    "- **Connected Components:** "
      ++ str_of_Z (Z.of_nat (length (list_items (field f "connectedComponents" (VList [])))))
      ++ nl ].

(** The bullet of a measure and of a dimension in the brief summaries. *)
Definition measure_bullet (m : value) : string :=
  "- **" ++ py_str (vfield m "name" (VStr "unknown")) ++ "**: A **"
  ++ py_str (vfield m "aggType" (VStr "aggregation"))
  ++ " ** measure with following description : "
  ++ strip (py_str (vfield m "description" (VStr ""))) ++ "."
  ++ dquote ++ " This measure has the title "
  ++ py_str (vfield m "title" (vfield m "name" (VStr "unknown"))) ++ dquote
  ++ " and is of type " ++ py_str (vfield m "type" (VStr "unknown")).

Definition dimension_bullet (d : value) : string :=
  "- **" ++ py_str (vfield d "name" (VStr "unknown")) ++ "**: A **"
  ++ py_str (vfield d "type" (VStr "unknown")) ++ "** dimension "
  ++ (if truthy (vfield d "primaryKey" (VBool false))
      then "that serves as the primary key" else "") ++ ". "
  ++ "This dimension has the title " ++ dquote
  ++ py_str (vfield d "title" (vfield d "name" (VStr "unknown"))) ++ dquote
  ++ " and is "
  ++ (if truthy (vfield d "isVisible" (VBool false)) then "visible" else "not visible")
  ++ ".".

(** A brief summary: nothing for no field, else the count line, the bullets
    and a closing newline entry. *)
Definition brief_block (kind : string) (bullets : list string) : list string :=
  match bullets with
  | [] => []
  | _ :: _ =>
      ("This cube contains **" ++ str_of_Z (Z.of_nat (length bullets)) ++ " " ++ kind
         ++ "**:" ++ nl) :: app bullets [nl]
  end.

(** The entries of a cube description: the header, the two brief summaries
    and the two detailed sections, which hold the blocks [measure_details]
    and [dimension_details] of the fields. *)
Definition cube_layout (f : list (string * value)) (ms ds : list value)
    (measure_details dimension_details : list string) : list string :=
  app (cube_header_lines f)
  (app [ "## Measures (Brief Summary)" ++ nl ]
  (app (brief_block "measures" (map measure_bullet ms))
  (app [ "## Dimensions (Brief Summary)" ++ nl ]
  (app (brief_block "dimensions" (map dimension_bullet ds))
  (app [ "## Detailed Measure Descriptions" ++ nl;
         "Below is a detailed breakdown of each measure, including type, aggregation "
           ++ "behavior, visibility, titles, and additional metadata:" ++ nl ]
  (app measure_details
  (app [ nl;
         "## Detailed Dimension Descriptions" ++ nl;
         "The following section provides detailed information for each dimension, "
           ++ "including type, primary key status, visibility, titles, and other metadata:"
           ++ nl ]
       dimension_details))))))).

(** The two layouts of a question/answer pair in the corpus. *)
Definition qa (question answer : string) : string :=
  "**Question**: " ++ question ++ nl ++ "**Answer**: " ++ answer ++ nl ++ nl.

Definition qa_spaced (question answer : string) : string :=
  "**Question:** " ++ question ++ nl ++ nl ++ "**Answer:** " ++ answer ++ nl ++ nl.

(** The title a field is quoted by: its [title], else its [name]. *)
Definition shown_title (m : value) : string :=
  py_str (vfield m "title" (vfield m "name" VNone)).

(** The six question/answer pairs of an entity named [name] with the title
    [title], each a list of no or one pair: the purpose, from the
    description; the metrics by quoted titles and the measures by raw names,
    from the measures; the data type of the first dimension; the location of
    the first measure; the primary key, from the first dimension flagged
    [primaryKey]. *)
Definition purpose_qa (name title : string) (description : value) : list string :=
  if truthy description
  then [ qa ("What is the purpose of the '" ++ title ++ "'?")
            ("The '" ++ title ++ "' (technical name: `" ++ name ++ "`) is used for: "
               ++ py_str description) ]
  else [].

Definition metrics_qa (title : string) (measures : list value) : list string :=
  match measures with
  | [] => []
  | _ :: _ =>
      [ qa ("What metrics are available in '" ++ title ++ "'?")
           ("The '" ++ title ++ "' provides the following metrics: "
              ++ join ", " (map (fun m => "'" ++ shown_title m ++ "'") measures) ++ ".") ]
  end.

Definition measure_list_qa (name : string) (measures : list value) : list string :=
  match measures with
  | [] => []
  | _ :: _ =>
      [ qa_spaced ("What measures are in " ++ name ++ "?")
           ("The " ++ name ++ " cube has " ++ str_of_Z (Z.of_nat (length measures))
              ++ " measures: "
              ++ join ", " (map (fun m => py_str (vfield m "name" (VStr "unknown"))) measures)
              ++ ".") ]
  end.

Definition dimension_type_qa (title : string) (dimensions : list value) : list string :=
  match dimensions with
  | [] => []
  | dim :: _ =>
      [ qa ("What is the data type of '" ++ shown_title dim ++ "' in the '" ++ title
              ++ "' view?")
           ("In '" ++ title ++ "', the data type for '" ++ shown_title dim ++ "' is `"
              ++ py_str (vfield dim "type" (VStr "unknown")) ++ "`.") ]
  end.

Definition location_qa (title : string) (measures : list value) : list string :=
  match measures with
  | [] => []
  | measure :: _ =>
      [ qa ("Where can I find the '" ++ shown_title measure ++ "' metric?")
           ("The metric '" ++ shown_title measure ++ "' is located in the **" ++ title
              ++ "** cube/view.") ]
  end.

Definition primary_key_qa (name : string) (dimensions : list value) : list string :=
  match find flagged_primary dimensions with
  | None => []
  | Some pk =>
      [ qa_spaced ("What is the primary key of " ++ name ++ "?")
           ("The primary key is " ++ py_str (vfield pk "name" VNone) ++ ", which is a "
              ++ py_str (vfield pk "type" (VStr "unknown")) ++ " dimension.") ]
  end.

(** The pairs of the entity record [f], in the order of the corpus. *)
Definition query_pairs (f : list (string * value)) : list string :=
  let name := py_str (field f "name" (VStr "Unknown")) in
  let title := py_str (field f "title" (field f "name" (VStr "Unknown"))) in
  let measures := list_items (field f "measures" (VList [])) in
  let dimensions := list_items (field f "dimensions" (VList [])) in
  app (purpose_qa name title (field f "description" VNone))
  (app (metrics_qa title measures)
  (app (measure_list_qa name measures)
  (app (dimension_type_qa title dimensions)
  (app (location_qa title measures)
       (primary_key_qa name dimensions))))).

(** * Properties *)

(** ** The [result] monad and the comprehension helpers *)

Lemma bind_Ok_inv {A B : Type} (c : result A) (k : A -> result B) (r : B) :
  bind c k = Ok r -> exists a, c = Ok a /\ k a = Ok r.
Proof.
  destruct c as [a | e]; simpl; intros H; [ exists a; split; [reflexivity | exact H] | discriminate ].
Qed.

(** Splits a hypothesis [(let* x := c in k) = Ok r] into [c = Ok x] and
    [k x = Ok r]. *)
Ltac bind_inv H :=
  let a := fresh "a" in
  let Ha := fresh "Ha" in
  apply bind_Ok_inv in H; destruct H as (a & Ha & H).

Lemma get_dict (d : list (string * value)) (k : string) (dflt : value) :
  get (VDict d) k dflt = Ok (field d k dflt).
Proof. reflexivity. Qed.

Lemma field_default (d : list (string * value)) (k : string) (dflt : value) :
  lookup_key k d = None -> field d k dflt = dflt.
Proof. unfold field. intros ->. reflexivity. Qed.

Lemma append_assoc (a b c : string) : (a ++ b) ++ c = a ++ b ++ c.
Proof.
  induction a as [| x a IH]; [reflexivity |].
  change (String x ((a ++ b) ++ c) = String x (a ++ b ++ c)). rewrite IH. reflexivity.
Qed.

Lemma filterM_pure {A : Type} (p : A -> result bool) (f : A -> bool) (xs : list A) :
  (forall x, In x xs -> p x = Ok (f x)) -> filterM p xs = Ok (List.filter f xs).
Proof.
  induction xs as [| x xs IH]; intros Hp; simpl; [reflexivity |].
  rewrite (Hp x (or_introl eq_refl)); simpl.
  rewrite IH by (intros y Hy; apply Hp; right; exact Hy).
  simpl. destruct (f x); reflexivity.
Qed.

Lemma mapM_total {A B : Type} (f : A -> result B) (xs : list A) :
  (forall x, In x xs -> exists y, f x = Ok y) -> exists ys, mapM f xs = Ok ys.
Proof.
  induction xs as [| x xs IH]; intros Hf; simpl; [eexists; reflexivity |].
  destruct (Hf x (or_introl eq_refl)) as [y ->].
  destruct IH as [ys ->]; [intros z Hz; apply Hf; right; exact Hz |].
  simpl. eexists; reflexivity.
Qed.

Lemma mapM_records {B : Type} (p : value -> bool) (h : value -> result B) (l : list value) :
  (forall x, p x = true -> exists y, h x = Ok y) ->
  forallb p l = true -> exists ys, mapM h l = Ok ys.
Proof.
  intros Hh Hl. apply mapM_total. intros x Hx. apply Hh.
  rewrite forallb_forall in Hl. apply Hl, Hx.
Qed.

Lemma mapM_Forall2 {A B : Type} (h : A -> result B) (xs : list A) (ys : list B) :
  mapM h xs = Ok ys -> Forall2 (fun x y => h x = Ok y) xs ys.
Proof.
  revert ys; induction xs as [| x xs IH]; simpl; intros ys H.
  - injection H as <-. constructor.
  - bind_inv H. bind_inv H. injection H as <-. constructor; [exact Ha | apply IH, Ha0].
Qed.

Lemma mapM_pure {A B : Type} (h : A -> result B) (k : A -> B) (p : A -> bool)
    (xs : list A) :
  (forall x, p x = true -> h x = Ok (k x)) ->
  forallb p xs = true -> mapM h xs = Ok (map k xs).
Proof.
  intros Hh. induction xs as [| x xs IH]; simpl; intros Hxs; [reflexivity |].
  apply andb_true_iff in Hxs. destruct Hxs as [Hx Hxs].
  rewrite (Hh x Hx), (IH Hxs). reflexivity.
Qed.

Lemma mapM_ext {A B : Type} (h : A -> result B) (k : A -> B) (xs : list A)
    (ys : list B) :
  (forall x y, h x = Ok y -> y = k x) ->
  mapM h xs = Ok ys -> ys = map k xs.
Proof.
  intros Hh. revert ys; induction xs as [| x xs IH]; simpl; intros ys H.
  - injection H as <-. reflexivity.
  - bind_inv H. bind_inv H. injection H as <-.
    rewrite (Hh x a Ha), (IH a0 Ha0). reflexivity.
Qed.

(** ** Entity records *)

(** On a record each condition of the three comprehensions returns. *)
Lemma is_catalog_dict (c : value) :
  is_dict c = true -> is_catalog c = Ok (in_catalog_views c).
Proof. destruct c; try discriminate; reflexivity. Qed.

Lemma is_semantic_view_dict (c : value) :
  is_dict c = true -> is_semantic_view c = Ok (in_semantic_views c).
Proof.
  destruct c as [| | | | | d]; try discriminate; intros _.
  unfold is_semantic_view, in_semantic_views, typed, named_catalog, get_none.
  rewrite get_dict; simpl.
  destruct (py_eq (field d "type" VNone) (VStr "view")); reflexivity.
Qed.

Lemma is_data_cube_dict (c : value) :
  is_dict c = true -> is_data_cube c = Ok (in_data_cubes c).
Proof. destruct c; try discriminate; reflexivity. Qed.

(** On entity records the three comprehensions are three filters. *)
Lemma classify_entities_records (l : list value) :
  forallb is_dict l = true ->
  classify_entities l
  = Ok (List.filter in_catalog_views l, List.filter in_semantic_views l,
        List.filter in_data_cubes l).
Proof.
  intros Hl. rewrite forallb_forall in Hl. unfold classify_entities.
  rewrite (filterM_pure is_catalog in_catalog_views)
    by (intros x Hx; apply is_catalog_dict, Hl, Hx).
  simpl.
  rewrite (filterM_pure is_semantic_view in_semantic_views)
    by (intros x Hx; apply is_semantic_view_dict, Hl, Hx).
  simpl.
  rewrite (filterM_pure is_data_cube in_data_cubes)
    by (intros x Hx; apply is_data_cube_dict, Hl, Hx).
  reflexivity.
Qed.

(** ** C1: the default pipeline produces the empty corpus *)

(** Whatever the documents, a run of [generate_full_corpus] on a fresh
    generator that returns at all returns the empty corpus, zero statistics
    and an unchanged generator. *)
Lemma generate_full_corpus_empty_when_returns
    (mf tf vf : option value) (corpus : string) (st : Stats) (g' : Generator) :
  generate_full_corpus (__init__ mf tf vf) = Ok (corpus, st, g') ->
  corpus = "" /\ st = zero_stats /\ g' = __init__ mf tf vf.
Proof.
  unfold generate_full_corpus. intros H.
  bind_inv H. bind_inv H. bind_inv H.
  injection H as <- <- <-. repeat split.
Qed.

(** C1. For every pair of loaded documents whose metadata document is a
    dictionary with a list of entity records under [cubes] (or no [cubes] at
    all), [generate_full_corpus] on the freshly constructed generator returns
    the empty string, and the statistics it computes are total_parts = 0,
    characters = 0, words = 0 and estimated_tokens = 0: no stage appends a
    block. *)
Theorem generate_full_corpus_default_empty (mf tf vf : option value) :
  metadata_ok (_load_json mf) = true ->
  generate_full_corpus (__init__ mf tf vf)
  = Ok ("", zero_stats, __init__ mf tf vf).
Proof.
  intros Hmd. unfold generate_full_corpus.
  change (metadata (__init__ mf tf vf)) with (_load_json mf).
  unfold metadata_ok in Hmd.
  destruct (_load_json mf) as [| | | | | d]; try discriminate.
  rewrite get_dict.
  destruct (field d "cubes" (VList [])) as [| | | | l |]; try discriminate.
  simpl. rewrite (classify_entities_records l Hmd). reflexivity.
Qed.

(** The metadata document with zero entities, next to a taxonomy. *)
Lemma generate_full_corpus_zero_entities :
  metadata_ok (_load_json (Some (VDict [("cubes", VList [])]))) = true /\
  generate_full_corpus
    (__init__ (Some (VDict [("cubes", VList [])]))
              (Some (VDict [("hierarchy", VDict [])])) None)
  = Ok ("", zero_stats,
        __init__ (Some (VDict [("cubes", VList [])]))
                 (Some (VDict [("hierarchy", VDict [])])) None).
Proof.
  split; [reflexivity |].
  apply (generate_full_corpus_default_empty
           (Some (VDict [("cubes", VList [])]))
           (Some (VDict [("hierarchy", VDict [])])) None).
  reflexivity.
Defined.

(** Outside the data model the comprehensions fail before anything is
    returned: an item of [cubes] that is not a record has no [get]. *)
Remark generate_full_corpus_raises_on_non_record :
  generate_full_corpus (__init__ (Some (VDict [("cubes", VList [VInt 1])])) None None)
  = Raise AttributeError.
Proof. reflexivity. Qed.

(** ** C2: the three-way classification *)

Lemma typed_view_not_cube (d : list (string * value)) :
  typed "view" d = true -> typed "cube" d = false.
Proof.
  unfold typed. destruct (field d "type" VNone) as [| | | s | |]; simpl; try discriminate.
  intros H. apply String.eqb_eq in H. subst s. reflexivity.
Qed.

(** An entity record typed [view] or [cube] lands in exactly one list,
    unless it is typed [cube] and named [semantic_catalog]. *)
Lemma typed_entity_in_one_partition (d : list (string * value)) :
  typed "view" d || typed "cube" d = true ->
  named_catalog d && typed "cube" d = false ->
  partitions_of (VDict d) = 1%nat.
Proof.
  unfold partitions_of; simpl. intros Hty Hcat.
  destruct (typed "view" d) eqn:Hv.
  - rewrite (typed_view_not_cube d Hv). destruct (named_catalog d); reflexivity.
  - simpl in Hty. rewrite Hty in *. rewrite andb_true_r in Hcat. rewrite Hcat. reflexivity.
Qed.

(** The three entities of the specification's example land in one list
    each. *)
Example classify_three_entities :
  classify_entities
    [ VDict [("name", VStr "semantic_catalog"); ("type", VStr "view")];
      VDict [("name", VStr "V1"); ("type", VStr "view")];
      VDict [("name", VStr "C1"); ("type", VStr "cube")] ]
  = Ok ([ VDict [("name", VStr "semantic_catalog"); ("type", VStr "view")] ],
        [ VDict [("name", VStr "V1"); ("type", VStr "view")] ],
        [ VDict [("name", VStr "C1"); ("type", VStr "cube")] ]).
Proof. reflexivity. Qed.

(** C2. The classification is not a partition of every entity sequence: the
    comprehension for [data_cubes] tests the type alone, so an entity named
    [semantic_catalog] with type [cube] lands in both [catalog_views] and
    [data_cubes] (the name does not take precedence over the type there), and
    an entity with no type lands in none of the three lists. *)
Theorem classify_entities_not_a_partition :
  classify_entities [catalog_cube] = Ok ([catalog_cube], [], [catalog_cube]) /\
  partitions_of catalog_cube = 2%nat /\
  classify_entities [untyped_entity] = Ok ([], [], []) /\
  partitions_of untyped_entity = 0%nat.
Proof. repeat split. Qed.

(** ** C3: the Business Context sentence of a view *)

(** Inside one subdivision the loop stops at the first matching entry: at
    most one sentence. *)
Lemma subdivision_context_at_most_one
    (subdiv_data view_name : value) (views : list value) (sentences : list string) :
  subdivision_context subdiv_data view_name views = Ok sentences ->
  (length sentences <= 1)%nat.
Proof.
  induction views as [| v rest IH]; simpl; intros H.
  - injection H as <-. simpl. lia.
  - bind_inv H. destruct (py_eq a view_name).
    + bind_inv H. bind_inv H. injection H as <-. simpl. lia.
    + apply IH, H.
Qed.

(** C3. The [break] leaves only the loop over one subdivision's views; the
    loops over subdivisions and business units go on.  For a view listed in
    two subdivisions the describer appends two Business Context sentences,
    one per subdivision, not the first one only. *)
Theorem business_context_one_sentence_per_subdivision :
  business_context two_subdivision_taxonomy (VStr "ViewX")
  = Ok [ "**Business Context**: Belongs to the 'First' subdivision and is used for 'area_one'."
           ++ nl ++ nl;
         "**Business Context**: Belongs to the 'Second' subdivision and is used for 'area_two'."
           ++ nl ++ nl ]
  /\ exists desc g',
       generate_view_description
         (__init__ None (Some two_subdivision_taxonomy) None)
         (VDict [("name", VStr "ViewX")]) = (Ok desc, g')
       /\ is_substring "Belongs to the 'First' subdivision" desc = true
       /\ is_substring "Belongs to the 'Second' subdivision" desc = true.
Proof.
  split; [reflexivity |].
  eexists; eexists; split; [reflexivity |].
  split; vm_compute; reflexivity.
Qed.

(** ** C4: missing keys in the taxonomy *)

(** Without an [organization] key the default is the string
    ['Organization'], which has no [get] method. *)
Lemma hierarchy_without_organization (g : Generator) (d : list (string * value)) :
  taxonomy g = VDict d ->
  lookup_key "organization" d = None ->
  generate_hierarchy_description g = Raise AttributeError.
Proof.
  intros Ht Hk. unfold generate_hierarchy_description. rewrite Ht, get_dict.
  unfold field. rewrite Hk. reflexivity.
Qed.

(** C4. A taxonomy document with a hierarchy but no [organization] key makes
    [generate_hierarchy_description] raise [AttributeError]; with the key
    there (and nothing else) every other absent key is resolved by its
    default. *)
Theorem hierarchy_missing_organization_raises :
  generate_hierarchy_description
    (__init__ None (Some (VDict [("hierarchy", VDict [])])) None)
  = Raise AttributeError
  /\ exists desc,
       generate_hierarchy_description
         (__init__ None (Some (VDict [("organization", VDict [])])) None)
       = Ok desc.
Proof.
  split.
  - apply (hierarchy_without_organization _ [("hierarchy", VDict [])]); reflexivity.
  - eexists. reflexivity.
Qed.

(** ** C5: the shape of a field paragraph *)

(** The Field Describer returns on every measure record, and on every
    dimension record whose [meta] is a dictionary. *)
Lemma measure_paragraph_dict (cube_name : value) (f : list (string * value)) :
  exists p, measure_paragraph cube_name (VDict f) = Ok p.
Proof. unfold measure_paragraph. rewrite !get_dict. simpl. eexists; reflexivity. Qed.

Lemma dimension_paragraph_dict (cube_name : value) (f : list (string * value)) :
  is_dict (field f "meta" (VDict [])) = true ->
  exists p, dimension_paragraph cube_name (VDict f) = Ok p.
Proof.
  intros Hmeta. unfold dimension_paragraph. rewrite !get_dict. simpl.
  destruct (field f "meta" (VDict [])) as [| | | | | md]; try discriminate. simpl.
  destruct (lookup_key "subEntity" md); simpl; eexists; reflexivity.
Qed.




(** ** C9: the defaults of the visibility flags *)

(** [desc] starts with the header lines. *)
Lemma cube_lines_header (cube : value) (desc : list string) :
  cube_lines cube = Ok desc ->
  exists header rest, cube_header cube = Ok header /\ desc = app header rest.
Proof.
  unfold cube_lines. intros H. bind_inv H. exists a.
  repeat (let x := fresh "x" in let Hx := fresh "Hx" in
          apply bind_Ok_inv in H; destruct H as (x & Hx & H)).
  injection H as <-. eexists; split; [exact Ha | reflexivity].
Qed.

(** The header of a cube record whose [type] is a string and whose
    [connectedComponents] is a list. *)
Lemma cube_header_text (f : list (string * value)) :
  is_str (field f "type" (VStr "cube")) = true ->
  is_list (field f "connectedComponents" (VList [])) = true ->
  cube_header (VDict f) = Ok (cube_header_lines f).
Proof.
  intros Hty Hcc. unfold cube_header, cube_header_lines, flag_word.
  repeat (rewrite get_dict; cbn [bind]).
  destruct (field f "type" (VStr "cube")) as [| | | ty | |]; try discriminate.
  destruct (field f "connectedComponents" (VList [])) as [| | | | cc |]; try discriminate.
  reflexivity.
Qed.

Lemma measure_brief_line_text (m : value) :
  measure_ok m = true -> measure_brief_line m = Ok (measure_bullet m).
Proof.
  destruct m as [| | | | | f]; try discriminate. unfold measure_ok, described.
  intros H. unfold measure_brief_line, measure_bullet. cbn [vfield].
  repeat (rewrite get_dict; cbn [bind]).
  destruct (field f "description" (VStr "")); try discriminate. reflexivity.
Qed.

Lemma dimension_brief_line_text (d : value) :
  dimension_ok d = true -> dimension_brief_line d = Ok (dimension_bullet d).
Proof.
  destruct d as [| | | | | f]; try discriminate. intros _.
  unfold dimension_brief_line, dimension_bullet. cbn [vfield].
  repeat (rewrite get_dict; cbn [bind]). reflexivity.
Qed.

Lemma brief_summary_text (kind : string) (line : value -> result string)
    (bullet : value -> string) (p : value -> bool) (l : list value) :
  (forall x, p x = true -> line x = Ok (bullet x)) ->
  forallb p l = true ->
  brief_summary kind line (VList l) = Ok (brief_block kind (map bullet l)).
Proof.
  intros Hline Hl. unfold brief_summary, brief_block.
  destruct l as [| x l']; [reflexivity |].
  cbn [truthy py_len py_iter bind].
  rewrite (mapM_pure line bullet p (x :: l') Hline Hl). cbn [bind map].
  rewrite <- (length_map bullet (x :: l')). reflexivity.
Qed.

(** The Field Describer returns on every measure record, and on every
    dimension record whose [meta] is a dictionary. *)
Lemma generate_measure_description_dict (cube_name : value) (f : list (string * value)) :
  exists text, generate_measure_description cube_name (VDict f) = Ok text.
Proof.
  unfold generate_measure_description.
  destruct (measure_paragraph_dict cube_name f) as [p ->]. cbn [bind]. eauto.
Qed.

Lemma generate_dimension_description_dict (cube_name : value) (d : value) :
  dimension_ok d = true ->
  exists text, generate_dimension_description cube_name d = Ok text.
Proof.
  destruct d as [| | | | | f]; try discriminate. intros Hd.
  unfold generate_dimension_description.
  destruct (dimension_paragraph_dict cube_name f Hd) as [p ->]. cbn [bind]. eauto.
Qed.

(** The list [desc] of a cube record of the data model. *)
Lemma cube_lines_text (f : list (string * value)) (ms ds : list value) :
  cube_ok f = true ->
  field f "measures" (VList []) = VList ms ->
  field f "dimensions" (VList []) = VList ds ->
  exists measure_details dimension_details,
    Forall2 (fun m text =>
               generate_measure_description (field f "name" (VStr "UnknownCube")) m = Ok text)
      ms measure_details /\
    Forall2 (fun d text =>
               generate_dimension_description (field f "name" (VStr "UnknownCube")) d = Ok text)
      ds dimension_details /\
    cube_lines (VDict f) = Ok (cube_layout f ms ds measure_details dimension_details).
Proof.
  intros Hok Hms Hds. unfold cube_ok in Hok.
  repeat (apply andb_true_iff in Hok; destruct Hok as [Hok ?]).
  rewrite Hms in *. rewrite Hds in *. cbn [records] in *.
  destruct (mapM_records measure_ok
              (generate_measure_description (field f "name" (VStr "UnknownCube"))) ms)
    as [md Hmd]; [| assumption |].
  { intros [| | | | | mf] Hx; try discriminate.
    apply generate_measure_description_dict. }
  destruct (mapM_records dimension_ok
              (generate_dimension_description (field f "name" (VStr "UnknownCube"))) ds)
    as [dd Hdd]; [| assumption |].
  { intros d Hx. apply generate_dimension_description_dict, Hx. }
  exists md, dd.
  split; [apply mapM_Forall2, Hmd |]. split; [apply mapM_Forall2, Hdd |].
  unfold cube_lines. rewrite (cube_header_text f) by assumption. cbn [bind].
  repeat (rewrite get_dict; cbn [bind]). rewrite Hms, Hds.
  rewrite (brief_summary_text "measures" measure_brief_line measure_bullet measure_ok ms
             measure_brief_line_text) by assumption.
  rewrite (brief_summary_text "dimensions" dimension_brief_line dimension_bullet
             dimension_ok ds dimension_brief_line_text) by assumption.
  cbn [bind py_iter]. rewrite Hmd. cbn [bind]. rewrite Hdd. reflexivity.
Qed.

(** C9. The header of an entity reads [isVisible] and [public] with the
    default [True], the Field Describer reads them with the default [False].
    In the text [generate_cube_description] returns, the seventh entry is the
    visibility line of the record's two flags; a record without [isVisible]
    is "visible" there and one without [public] is "public".  In the text
    [generate_measure_description] returns, the last entry but one, and in
    the text [generate_dimension_description] returns, the sixth entry, is
    the visibility sentence; a record without [isVisible] is "not visible"
    there and one without [public] is "private".  The three renderers return
    on the records of the data model. *)
Theorem missing_visibility_flags_defaults (cube_name : value) (f : list (string * value)) :
  (forall text,
     generate_cube_description (VDict f) = Ok text ->
     exists desc,
       text = join nl desc /\
       nth_error desc 6
       = Some ("- **Visibility:** " ++ flag_word f "isVisible" true "visible" "not visible"
                 ++ ", " ++ flag_word f "public" true "public" "private"))
  /\ (cube_ok f = true -> exists text, generate_cube_description (VDict f) = Ok text)
  /\ (exists p,
        generate_measure_description cube_name (VDict f) = Ok (join nl p ++ nl) /\
        nth_error (rev p) 1
        = Some ("This measure is " ++ flag_word f "isVisible" false "visible" "not visible"
                  ++ " and " ++ flag_word f "public" false "public" "private" ++ "."))
  /\ (is_dict (field f "meta" (VDict [])) = true ->
      exists p,
        generate_dimension_description cube_name (VDict f) = Ok (join nl p ++ nl) /\
        nth_error p 5
        = Some ("This dimension is " ++ flag_word f "isVisible" false "visible" "not visible"
                  ++ " and " ++ flag_word f "public" false "public" "private" ++ "."))
  /\ (lookup_key "isVisible" f = None ->
      flag_word f "isVisible" true "visible" "not visible" = "visible" /\
      flag_word f "isVisible" false "visible" "not visible" = "not visible")
  /\ (lookup_key "public" f = None ->
      flag_word f "public" true "public" "private" = "public" /\
      flag_word f "public" false "public" "private" = "private").
Proof.
  split; [| split; [| split; [| split; [| split]]]].
  - intros text H. unfold generate_cube_description in H. bind_inv H.
    injection H as <-. exists a. split; [reflexivity |].
    apply cube_lines_header in Ha. destruct Ha as (header & rest & Hh & ->).
    assert (Hnth : nth_error header 6
              = Some ("- **Visibility:** "
                        ++ flag_word f "isVisible" true "visible" "not visible"
                        ++ ", " ++ flag_word f "public" true "public" "private")).
    { unfold cube_header in Hh. repeat (rewrite get_dict in Hh; cbn [bind] in Hh).
      bind_inv Hh. bind_inv Hh. injection Hh as <-. reflexivity. }
    rewrite nth_error_app1; [exact Hnth |].
    apply nth_error_Some. rewrite Hnth. discriminate.
  - intros Hok.
    assert (Hm : is_list (field f "measures" (VList [])) = true
                 /\ is_list (field f "dimensions" (VList [])) = true).
    { unfold cube_ok in Hok.
      repeat (apply andb_true_iff in Hok; destruct Hok as [Hok ?]).
      split.
      - destruct (field f "measures" (VList [])); try discriminate; reflexivity.
      - destruct (field f "dimensions" (VList [])); try discriminate; reflexivity. }
    destruct Hm as [Hm Hd].
    destruct (field f "measures" (VList [])) as [| | | | ms |] eqn:Hms; try discriminate.
    destruct (field f "dimensions" (VList [])) as [| | | | ds |] eqn:Hds; try discriminate.
    destruct (cube_lines_text f ms ds Hok Hms Hds) as (md & dd & _ & _ & Hrun).
    unfold generate_cube_description. rewrite Hrun. cbn [bind]. eauto.
  - unfold generate_measure_description, measure_paragraph, flag_word, visibility.
    repeat (rewrite get_dict; cbn [bind]).
    eexists; split; [reflexivity |].
    rewrite !rev_app_distr. reflexivity.
  - intros Hmeta.
    unfold generate_dimension_description, dimension_paragraph, flag_word, visibility.
    repeat (rewrite get_dict; cbn [bind]).
    destruct (field f "meta" (VDict [])) as [| | | | | md]; try discriminate.
    cbn [str_in bind].
    destruct (lookup_key "subEntity" md); cbn [bind get_none get];
      (eexists; split; [reflexivity |]); reflexivity.
  - intros Hvis. unfold flag_word. rewrite !(field_default f "isVisible" _ Hvis).
    split; reflexivity.
  - intros Hpub. unfold flag_word. rewrite !(field_default f "public" _ Hpub).
    split; reflexivity.
Qed.

(** An entity record with a name only, read as a cube, as a measure and as
    a dimension. *)
Lemma missing_visibility_flags_defaults_witness :
  (exists text desc,
     generate_cube_description (VDict [("name", VStr "Orders")]) = Ok text /\
     text = join nl desc /\
     nth_error desc 6 = Some "- **Visibility:** visible, public")
  /\ (exists p,
        generate_measure_description (VStr "Orders") (VDict [("name", VStr "Orders")])
        = Ok (join nl p ++ nl) /\
        nth_error (rev p) 1 = Some "This measure is not visible and private.")
  /\ (exists p,
        generate_dimension_description (VStr "Orders") (VDict [("name", VStr "Orders")])
        = Ok (join nl p ++ nl) /\
        nth_error p 5 = Some "This dimension is not visible and private.").
Proof.
  pose proof (missing_visibility_flags_defaults (VStr "Orders") [("name", VStr "Orders")])
    as (Hcube & Hruns & Hmeasure & Hdimension & _ & _).
  split; [| exact (conj Hmeasure (Hdimension eq_refl))].
  destruct (Hruns eq_refl) as [text Htext].
  destruct (Hcube text Htext) as (desc & Hjoin & Hline).
  exists text, desc. exact (conj Htext (conj Hjoin Hline)).
Defined.

(** ** C6: the estimated token count *)

(** A successful check covers every word count of its range. *)
Lemma tokens_floor_upto_sound (fuel : nat) (n : Z) :
  tokens_floor_upto fuel n = true ->
  forall k, n <= k < n + Z.of_nat fuel -> tokens_of k = 13 * k / 10.
Proof.
  revert n; induction fuel as [| fuel IH]; intros n H k Hk; [lia |].
  simpl in H. destruct (tokens_of n =? 13 * n / 10) eqn:Hn; [| discriminate].
  destruct (Z.eq_dec k n) as [-> | Hne]; [apply Z.eqb_eq, Hn |].
  apply (IH (n + 1) H). lia.
Qed.

Lemma tokens_floor_checked : tokens_floor_upto (Z.to_nat 100000) 0 = true.
Proof. vm_compute. reflexivity. Qed.

Lemma count_words_nonneg (in_word : bool) (s : string) : 0 <= count_words in_word s.
Proof.
  revert in_word; induction s as [| c rest IH]; intros in_word; simpl; [lia |].
  destruct (is_space c); [apply IH |].
  pose proof (IH true). destruct in_word; lia.
Qed.

(** A corpus of two words: 2 * 1.3 is 2.6, which [int] cuts to 2 and [round]
    would take to 3. *)
Lemma estimated_tokens_is_not_round :
  let st := _calculate_statistics (__init__ None None None) "schema corpus" in
  words st = 2 /\
  estimated_tokens st = 2 /\
  py_round (PrimFloat.mul (py_float (words st)) f1_3) = 3 /\
  estimated_tokens st <> py_round (PrimFloat.mul (py_float (words st)) f1_3).
Proof. vm_compute. repeat split. discriminate. Qed.

(** C6 (amended). For every corpus the statistics satisfy
    estimated_tokens = int(words * 1.3): the product is cut toward zero, not
    rounded.  For a corpus of fewer than 100000 words this is the integer
    quotient of 13 * words by 10. *)
Theorem estimated_tokens_truncates (g : Generator) (corpus : string) :
  let st := _calculate_statistics g corpus in
  words st = count_words false corpus /\
  estimated_tokens st = py_int (PrimFloat.mul (py_float (words st)) f1_3) /\
  (words st < 100000 -> estimated_tokens st = 13 * words st / 10).
Proof.
  simpl. repeat split. intros Hlt.
  apply (tokens_floor_upto_sound _ 0 tokens_floor_checked).
  pose proof (count_words_nonneg false corpus). lia.
Qed.

Lemma estimated_tokens_truncates_witness :
  let st := _calculate_statistics (__init__ None None None) "one two three four five" in
  words st = 5 /\ estimated_tokens st = 6.
Proof.
  pose proof (estimated_tokens_truncates (__init__ None None None)
                "one two three four five") as H.
  cbv zeta in *. destruct H as (Hwords & _ & Hfloor).
  split; [rewrite Hwords; reflexivity |].
  rewrite Hfloor; vm_compute; reflexivity.
Defined.

(** ** C7: the question/answer pairs of an entity *)

(** When the comprehension [pk_dims] goes through, it is the filter of the
    flagged dimension records, whose head is the first of them. *)
Lemma filterM_primary (ds pk_dims : list value) :
  filterM has_primary_key ds = Ok pk_dims ->
  pk_dims = List.filter flagged_primary ds.
Proof.
  revert pk_dims; induction ds as [| d ds IH]; simpl; intros pk_dims H.
  - injection H as <-. reflexivity.
  - bind_inv H. bind_inv H. injection H as <-.
    destruct d as [| | | | | f]; try discriminate.
    unfold has_primary_key, get_none in Ha. rewrite get_dict in Ha. simpl in Ha.
    injection Ha as <-. simpl. rewrite (IH a0 Ha0). reflexivity.
Qed.

Lemma filter_head_find {A : Type} (p : A -> bool) (l : list A) :
  hd_error (List.filter p l) = find p l.
Proof.
  induction l as [| x l IH]; simpl; [reflexivity |].
  destruct (p x); [reflexivity | exact IH].
Qed.

(** Reads a hypothesis [H : block = Ok l] of a guarded block: [l] is empty
    when the guard fails and one pair when it holds. *)
Ltac guarded_block H :=
  match type of H with
  | (if ?b then _ else _) = Ok _ =>
      destruct b;
      [ repeat (let x := fresh "x" in let Hx := fresh "Hx" in
                apply bind_Ok_inv in H; destruct H as (x & Hx & H));
        injection H as <-; reflexivity
      | injection H as <-; reflexivity ]
  end.

Lemma metrics_pair_length (cube_title measures : value) (l : list string) :
  metrics_pair cube_title measures = Ok l -> length l = b2n (truthy measures).
Proof. unfold metrics_pair. intros H. guarded_block H. Qed.

Lemma measure_list_pair_length (cube_name measures : value) (l : list string) :
  measure_list_pair cube_name measures = Ok l -> length l = b2n (truthy measures).
Proof. unfold measure_list_pair. intros H. guarded_block H. Qed.

Lemma dimension_type_pair_length (cube_title dimensions : value) (l : list string) :
  dimension_type_pair cube_title dimensions = Ok l -> length l = b2n (truthy dimensions).
Proof. unfold dimension_type_pair. intros H. guarded_block H. Qed.

Lemma location_pair_length (cube_title measures : value) (l : list string) :
  location_pair cube_title measures = Ok l -> length l = b2n (truthy measures).
Proof. unfold location_pair. intros H. guarded_block H. Qed.

Lemma purpose_pair_length (cube_name cube_title description : value) :
  length (purpose_pair cube_name cube_title description) = b2n (truthy description).
Proof. unfold purpose_pair. destruct (truthy description); reflexivity. Qed.

Lemma primary_key_pair_length (cube_name : value) (pk_dims : list value) (l : list string) :
  primary_key_pair cube_name pk_dims = Ok l -> length l = b2n (is_some (hd_error pk_dims)).
Proof.
  destruct pk_dims as [| pk rest]; simpl; intros H.
  - injection H as <-. reflexivity.
  - bind_inv H. bind_inv H. injection H as <-. reflexivity.
Qed.

(** The text of each block of the loop body, whenever the block goes
    through. *)
Lemma title_or_name_text (m t : value) :
  title_or_name m = Ok t -> t = vfield m "title" (vfield m "name" VNone).
Proof.
  destruct m as [| | | | | f]; try discriminate.
  unfold title_or_name, get_none. repeat (rewrite get_dict; cbn [bind]).
  intros H. injection H as <-. reflexivity.
Qed.

Lemma purpose_pair_text (cube_name cube_title description : value) :
  purpose_pair cube_name cube_title description
  = purpose_qa (py_str cube_name) (py_str cube_title) description.
Proof.
  unfold purpose_pair, purpose_qa, qa. destruct (truthy description); [| reflexivity].
  rewrite !append_assoc. reflexivity.
Qed.

Lemma metrics_pair_text (cube_title measures : value) (l : list string) :
  metrics_pair cube_title measures = Ok l ->
  l = metrics_qa (py_str cube_title) (list_items measures).
Proof.
  unfold metrics_pair. intros H.
  destruct measures as [| [|] | n | [| c s] | [| m ms] | [| kv d]];
    cbn [truthy negb String.eqb] in H;
    try (injection H as <-; reflexivity); try discriminate.
  - destruct (n =? 0); [injection H as <-; reflexivity | discriminate].
  - cbn [py_iter bind] in H. bind_inv H. injection H as <-.
    apply (mapM_ext _ _ _ _ title_or_name_text) in Ha. subst a.
    unfold metrics_qa, qa, shown_title. cbn [list_items]. rewrite map_map.
    rewrite !append_assoc. reflexivity.
Qed.

Lemma as_str_text (v : value) (s : string) : as_str v = Ok s -> s = py_str v.
Proof. destruct v; try discriminate. intros H; injection H as <-. reflexivity. Qed.

Lemma raw_name_text (m name : value) :
  get m "name" (VStr "unknown") = Ok name -> name = vfield m "name" (VStr "unknown").
Proof.
  destruct m as [| | | | | f]; try discriminate. rewrite get_dict.
  intros H; injection H as <-. reflexivity.
Qed.

Lemma measure_list_pair_text (cube_name measures : value) (l : list string) :
  measure_list_pair cube_name measures = Ok l ->
  l = measure_list_qa (py_str cube_name) (list_items measures).
Proof.
  unfold measure_list_pair. intros H.
  destruct measures as [| [|] | n | [| c s] | [| m ms] | [| kv d]];
    cbn [truthy negb String.eqb] in H;
    try (injection H as <-; reflexivity); try discriminate.
  - destruct (n =? 0); [injection H as <-; reflexivity | discriminate].
  - cbn [py_len py_iter bind] in H. bind_inv H. bind_inv H. injection H as <-.
    apply (mapM_ext _ _ _ _ raw_name_text) in Ha. subst a.
    apply (mapM_ext _ _ _ _ as_str_text) in Ha0. subst a0.
    unfold measure_list_qa, qa_spaced. cbn [list_items]. rewrite map_map.
    rewrite !append_assoc. reflexivity.
Qed.

Lemma dimension_type_pair_text (cube_title dimensions : value) (l : list string)
    (ds : list value) :
  dimension_type_pair cube_title dimensions = Ok l ->
  py_iter dimensions = Ok ds ->
  l = dimension_type_qa (py_str cube_title) (list_items dimensions) /\
  ds = list_items dimensions.
Proof.
  unfold dimension_type_pair. intros H Hds.
  destruct dimensions as [| [|] | n | [| c s] | [| dim ds'] | [| kv d]];
    cbn [truthy negb String.eqb index0 bind] in H; try discriminate;
    cbn [py_iter chars map] in Hds; injection Hds as <-;
    try (injection H as <-; split; reflexivity).
  bind_inv H. bind_inv H. injection H as <-.
  apply title_or_name_text in Ha. subst a.
  destruct dim as [| | | | | df]; try discriminate.
  rewrite get_dict in Ha0. injection Ha0 as <-.
  split; [| reflexivity].
  unfold dimension_type_qa, qa, shown_title. cbn [list_items vfield].
  rewrite !append_assoc. reflexivity.
Qed.

Lemma location_pair_text (cube_title measures : value) (l : list string) :
  location_pair cube_title measures = Ok l ->
  l = location_qa (py_str cube_title) (list_items measures).
Proof.
  unfold location_pair. intros H.
  destruct measures as [| [|] | n | [| c s] | [| m ms] | [| kv d]];
    cbn [truthy negb String.eqb index0 bind] in H;
    try (injection H as <-; reflexivity); try discriminate.
  - destruct (n =? 0); [injection H as <-; reflexivity | discriminate].
  - bind_inv H. injection H as <-. apply title_or_name_text in Ha. subst a.
    unfold location_qa, qa, shown_title. cbn [list_items].
    rewrite !append_assoc. reflexivity.
Qed.

Lemma primary_key_pair_text (cube_name : value) (ds : list value) (l : list string) :
  primary_key_pair cube_name (List.filter flagged_primary ds) = Ok l ->
  l = primary_key_qa (py_str cube_name) ds.
Proof.
  unfold primary_key_qa. rewrite <- filter_head_find.
  destruct (List.filter flagged_primary ds) as [| pk rest] eqn:Hfilter;
    cbn [primary_key_pair hd_error]; intros H.
  - injection H as <-. reflexivity.
  - assert (Hpk : flagged_primary pk = true).
    { apply (proj1 (filter_In flagged_primary pk ds)). rewrite Hfilter. left. reflexivity. }
    destruct pk as [| | | | | pf]; try discriminate.
    unfold get_none in H. repeat (rewrite get_dict in H; cbn [bind] in H).
    injection H as <-. unfold qa_spaced. cbn [vfield].
    rewrite !append_assoc. reflexivity.
Qed.

(** The pairs of an entity, whenever the loop body goes through. *)
Lemma entity_query_patterns_text (c : value) (ps : list string) :
  entity_query_patterns c = Ok ps ->
  exists f, c = VDict f /\ ps = query_pairs f.
Proof.
  intros H. destruct c as [| | | | | f]; try discriminate.
  exists f. split; [reflexivity |].
  unfold entity_query_patterns, get_none in H.
  repeat (rewrite get_dict in H; cbn [bind] in H).
  apply bind_Ok_inv in H; destruct H as (metrics & Hmetrics & H).
  apply bind_Ok_inv in H; destruct H as (measure_list & Hlist & H).
  apply bind_Ok_inv in H; destruct H as (dimension_type & Htype & H).
  apply bind_Ok_inv in H; destruct H as (location & Hlocation & H).
  apply bind_Ok_inv in H; destruct H as (ds & Hds & H).
  apply bind_Ok_inv in H; destruct H as (pk_dims & Hpk & H).
  apply bind_Ok_inv in H; destruct H as (primary_key & Hkey & H).
  injection H as <-.
  apply metrics_pair_text in Hmetrics. apply measure_list_pair_text in Hlist.
  apply location_pair_text in Hlocation.
  destruct (dimension_type_pair_text _ _ _ _ Htype Hds) as [-> ->].
  apply filterM_primary in Hpk. subst pk_dims.
  apply primary_key_pair_text in Hkey.
  subst. rewrite purpose_pair_text. reflexivity.
Qed.

Lemma mapM_entity_query_patterns (l : list value) (pairs : list (list string)) :
  mapM entity_query_patterns l = Ok pairs ->
  exists fs, l = map VDict fs /\ pairs = map query_pairs fs.
Proof.
  revert pairs; induction l as [| c l IH]; simpl; intros pairs H.
  - injection H as <-. exists []. split; reflexivity.
  - bind_inv H. bind_inv H. injection H as <-.
    destruct (entity_query_patterns_text c a Ha) as (f & -> & ->).
    destruct (IH a0 Ha0) as (fs & -> & ->).
    exists (f :: fs). split; reflexivity.
Qed.

(** An entity with a description, a measure and a primary-key dimension
    gets six question/answer pairs, one more than five. *)
Lemma full_entity_six_pairs :
  exists ps, entity_query_patterns full_entity = Ok ps /\ length ps = 6%nat.
Proof. eexists. split; reflexivity. Qed.

(** C7 (amended). The synthesizer draws only from the first 20 entities in
    document order: its text is the heading followed by the pairs of each of
    them.  For an entity it emits, in this order, at most six
    question/answer pairs: the purpose pair when there is a description;
    the metrics by quoted titles and the measures by raw names when there
    are measures; the data type of the first dimension when there are
    dimensions; the location of the first measure when there are measures;
    the primary key, which names the first dimension flagged [primaryKey]
    and is left out when no dimension is flagged.  Each pair depends on its
    own field only, so a field that is missing leaves the other pairs in
    place. *)
Theorem query_patterns_pairs :
  (forall (g1 g2 : Generator) (d1 d2 : list (string * value)) (l1 l2 : list value),
      metadata g1 = VDict d1 -> metadata g2 = VDict d2 ->
      lookup_key "cubes" d1 = Some (VList l1) ->
      lookup_key "cubes" d2 = Some (VList l2) ->
      firstn 20 l1 = firstn 20 l2 ->
      generate_query_patterns g1 = generate_query_patterns g2)
  /\
  (forall (g : Generator) (d : list (string * value)) (l : list value) (text : string),
      metadata g = VDict d ->
      lookup_key "cubes" d = Some (VList l) ->
      generate_query_patterns g = Ok text ->
      exists fs,
        firstn 20 l = map VDict fs /\
        text = query_patterns_header
               ++ String.concat "" (map (fun f => String.concat "" (query_pairs f)) fs))
  /\
  (forall (c : value) (ps : list string),
      entity_query_patterns c = Ok ps ->
      exists f ds,
        c = VDict f /\
        ps = query_pairs f /\
        py_iter (field f "dimensions" (VList [])) = Ok ds /\
        length ps
        = (b2n (truthy (field f "description" VNone))
           + 3 * b2n (truthy (field f "measures" (VList [])))
           + b2n (truthy (field f "dimensions" (VList [])))
           + b2n (is_some (find flagged_primary ds)))%nat /\
        (length ps <= 6)%nat /\
        (forall pf, find flagged_primary ds = Some (VDict pf) ->
           primary_key_pair (field f "name" (VStr "Unknown")) [VDict pf]
           = Ok [List.last ps ""])).
Proof.
  split; [| split].
  - intros g1 g2 d1 d2 l1 l2 Hg1 Hg2 Hc1 Hc2 Hprefix.
    unfold generate_query_patterns. rewrite Hg1, Hg2, !get_dict.
    unfold field. rewrite Hc1, Hc2. simpl. rewrite Hprefix. reflexivity.
  - intros g d l text Hg Hc H. unfold generate_query_patterns in H.
    rewrite Hg, get_dict in H. unfold field in H. rewrite Hc in H.
    cbn [bind slice_prefix py_iter] in H. bind_inv H. injection H as <-.
    destruct (mapM_entity_query_patterns _ _ Ha) as (fs & Hfs & ->).
    exists fs. split; [exact Hfs |]. rewrite map_map. reflexivity.
  - intros c ps H.
    destruct (entity_query_patterns_text c ps H) as (f0 & Hc & Htext).
    destruct c as [| | | | | f]; try discriminate.
    injection Hc as <-.
    unfold entity_query_patterns, get_none in H.
    repeat (rewrite get_dict in H; cbn [bind] in H).
    apply bind_Ok_inv in H; destruct H as (metrics & Hmetrics & H).
    apply bind_Ok_inv in H; destruct H as (measure_list & Hlist & H).
    apply bind_Ok_inv in H; destruct H as (dimension_type & Htype & H).
    apply bind_Ok_inv in H; destruct H as (location & Hlocation & H).
    apply bind_Ok_inv in H; destruct H as (ds & Hds & H).
    apply bind_Ok_inv in H; destruct H as (pk_dims & Hpk & H).
    apply bind_Ok_inv in H; destruct H as (primary_key & Hkey & H).
    injection H as Hps.
    apply metrics_pair_length in Hmetrics.
    apply measure_list_pair_length in Hlist.
    apply dimension_type_pair_length in Htype.
    apply location_pair_length in Hlocation.
    pose proof (primary_key_pair_length _ _ _ Hkey) as Hkeylen.
    apply filterM_primary in Hpk. subst pk_dims.
    rewrite filter_head_find in Hkeylen.
    exists f, ds. split; [reflexivity |]. split; [exact Htext |]. split; [exact Hds |].
    assert (Hlen :
      length ps
      = (b2n (truthy (field f "description" VNone))
         + 3 * b2n (truthy (field f "measures" (VList [])))
         + b2n (truthy (field f "dimensions" (VList [])))
         + b2n (is_some (find flagged_primary ds)))%nat).
    { rewrite <- Hps.
      rewrite !length_app, purpose_pair_length, Hmetrics, Hlist, Htype, Hlocation, Hkeylen.
      lia. }
    split; [exact Hlen |]. split.
    + rewrite Hlen.
      destruct (truthy (field f "description" VNone)),
               (truthy (field f "measures" (VList []))),
               (truthy (field f "dimensions" (VList []))),
               (is_some (find flagged_primary ds)); simpl; lia.
    + intros pf Hfind.
      pose proof (filter_head_find flagged_primary ds) as Hhead.
      rewrite Hfind in Hhead.
      destruct (List.filter flagged_primary ds) as [| pk rest] eqn:Hfilter;
        [discriminate |].
      injection Hhead as ->.
      cbn [primary_key_pair get_none get bind] in Hkey.
      injection Hkey as <-. rewrite <- Hps.
      rewrite !app_assoc, last_last. reflexivity.
Qed.

Lemma query_patterns_pairs_witness :
  exists ps,
    entity_query_patterns full_entity = Ok ps /\
    ps = [ qa "What is the purpose of the 'Orders'?"
              "The 'Orders' (technical name: `Orders`) is used for: All orders.";
           qa "What metrics are available in 'Orders'?"
              "The 'Orders' provides the following metrics: 'total'.";
           qa_spaced "What measures are in Orders?"
              "The Orders cube has 1 measures: total.";
           qa "What is the data type of 'id' in the 'Orders' view?"
              "In 'Orders', the data type for 'id' is `number`.";
           qa "Where can I find the 'total' metric?"
              "The metric 'total' is located in the **Orders** cube/view.";
           qa_spaced "What is the primary key of Orders?"
              "The primary key is id, which is a number dimension." ] /\
    length ps = 6%nat /\
    primary_key_pair (VStr "Orders")
      [VDict [("name", VStr "id"); ("type", VStr "number"); ("primaryKey", VBool true)]]
    = Ok [List.last ps ""].
Proof.
  destruct (proj2 (proj2 query_patterns_pairs) full_entity _ eq_refl)
    as (f & ds & Hf & Htext & Hds & Hlen & _ & Hlast).
  injection Hf as <-. injection Hds as <-.
  eexists. split; [reflexivity |]. split; [exact Htext |]. split; [exact Hlen |].
  exact (Hlast _ eq_refl).
Defined.

(** ** C8: the deduplication of views *)

Lemma prefix_append (s t : string) : String.prefix s (s ++ t) = true.
Proof.
  induction s as [| a s IH]; simpl; [destruct t; reflexivity |].
  destruct (ascii_dec a a); [exact IH | contradiction].
Qed.

Lemma view_text_starts_with_heading (tx view view_name : value) (desc : string) :
  view_text tx view view_name = Ok desc ->
  String.prefix "# Semantic View: " desc = true.
Proof.
  unfold view_text. intros H.
  repeat (let x := fresh "x" in let Hx := fresh "Hx" in
          apply bind_Ok_inv in H; destruct H as (x & Hx & H)).
  injection H as <-. apply prefix_append.
Qed.

(** On a view record of the data model the text is produced as soon as the
    taxonomy lookup goes through. *)
Lemma view_text_total (tx : value) (f : list (string * value)) (view_name : value)
    (ctx : list string) :
  business_context tx view_name = Ok ctx ->
  view_ok f = true ->
  exists desc, view_text tx (VDict f) view_name = Ok desc.
Proof.
  intros Hctx Hok. unfold view_ok in Hok. apply andb_true_iff in Hok. destruct Hok as [Hm Hd].
  unfold view_text. rewrite !get_dict, Hctx. cbn [bind].
  destruct (field f "measures" (VList [])) as [| | | | ms |]; try discriminate.
  destruct (field f "dimensions" (VList [])) as [| | | | ds |]; try discriminate.
  simpl in Hm, Hd. cbn [py_iter bind].
  destruct (mapM_records is_dict view_measure_bullet ms) as [b1 Hb1]; [| exact Hm |].
  { intros [| | | | | d] Hx; try discriminate. eexists. reflexivity. }
  destruct (mapM_records dimension_ok view_dimension_bullet ds) as [b2 Hb2]; [| exact Hd |].
  { intros [| | | | | d] Hx; try discriminate. eexists. reflexivity. }
  destruct (mapM_records is_dict
              (fun m => let* p := generate_measure_description view_name m in Ok (p ++ nl)) ms)
    as [b3 Hb3]; [| exact Hm |].
  { intros [| | | | | d] Hx; try discriminate.
    unfold generate_measure_description.
    destruct (measure_paragraph_dict view_name d) as [p ->]. eexists. reflexivity. }
  destruct (mapM_records dimension_ok
              (fun d => let* p := generate_dimension_description view_name d in Ok (p ++ nl)) ds)
    as [b4 Hb4]; [| exact Hd |].
  { intros [| | | | | d] Hx; try discriminate.
    unfold generate_dimension_description.
    destruct (dimension_paragraph_dict view_name d Hx) as [p ->]. eexists. reflexivity. }
  rewrite Hb1, Hb2, Hb3, Hb4. cbn [bind].
  destruct (truthy (VList ms)), (truthy (VList ds)); cbn [bind]; eexists; reflexivity.
Qed.

Lemma lookup_key_truthy (f : list (string * value)) (k : string) (v : value) :
  lookup_key k f = Some v -> truthy (VDict f) = true.
Proof. destruct f; [discriminate | reflexivity]. Qed.

(** [seen_entities] only grows, whether the call returns or raises. *)
Lemma seen_entities_grow (g : Generator) (view : value) :
  seen_entities g ⊆ seen_entities (snd (generate_view_description g view)).
Proof.
  unfold generate_view_description.
  destruct (negb (truthy view)); [reflexivity |].
  destruct (let* name := get_none view "name" in as_key name) as [k | e];
    [| reflexivity].
  destruct (bool_decide (k ∈ seen_entities g)); [reflexivity |].
  destruct (let* view_name := get view "name" (VStr "Unknown") in
            let* k' := as_key view_name in Ok (view_name, k')) as [[view_name k'] | e];
    [| reflexivity].
  unfold mark_seen; simpl. set_solver.
Qed.

(** A view record of the data model is always rendered: the call returns
    once the taxonomy lookup goes through. *)
Lemma named_view_returns (g : Generator) (f : list (string * value)) (name : value)
    (k : hkey) (ctx : list string) :
  lookup_key "name" f = Some name ->
  as_key name = Ok k ->
  view_ok f = true ->
  business_context (taxonomy g) name = Ok ctx ->
  exists desc g1, generate_view_description g (VDict f) = (Ok desc, g1).
Proof.
  intros Hname Hk Hok Hctx. unfold generate_view_description.
  rewrite (lookup_key_truthy f "name" name Hname). cbn [negb].
  unfold get_none. rewrite !get_dict. unfold field. rewrite Hname. cbn [bind].
  rewrite Hk. cbn [bind].
  destruct (bool_decide (k ∈ seen_entities g)); [eexists; eexists; reflexivity |].
  destruct (view_text_total (taxonomy g) f name ctx Hctx Hok) as [desc ->].
  eexists; eexists; reflexivity.
Qed.

(** Marking a name twice is marking it once. *)
Lemma mark_seen_twice (k : hkey) (g : Generator) :
  mark_seen k (mark_seen k g) = mark_seen k g.
Proof.
  unfold mark_seen; simpl. f_equal.
  apply set_eq. intros x. rewrite !elem_of_union. tauto.
Qed.

(** A view record without a [name] key is rendered every time it is
    requested: the membership test looks up [None], the name recorded is
    ['Unknown']. *)
Lemma view_without_name_not_deduplicated (g : Generator) (f : list (string * value)) :
  f <> [] ->
  lookup_key "name" f = None ->
  None ∉ seen_entities g ->
  generate_view_description g (VDict f)
  = (view_text (taxonomy g) (VDict f) (VStr "Unknown"),
     mark_seen (Some (inr "Unknown")) g)
  /\ generate_view_description (mark_seen (Some (inr "Unknown")) g) (VDict f)
     = (view_text (taxonomy g) (VDict f) (VStr "Unknown"),
        mark_seen (Some (inr "Unknown")) g).
Proof.
  intros Hf Hname Hnone.
  assert (Hcall : forall g', None ∉ seen_entities g' ->
            generate_view_description g' (VDict f)
            = (view_text (taxonomy g') (VDict f) (VStr "Unknown"),
               mark_seen (Some (inr "Unknown")) g')).
  { intros g' Hg'. unfold generate_view_description.
    destruct f as [| kv f']; [contradiction |]. cbn [truthy negb].
    unfold get_none. rewrite !get_dict. unfold field. rewrite Hname. cbn [bind as_key].
    rewrite bool_decide_false by exact Hg'. reflexivity. }
  split; [exact (Hcall g Hnone) |].
  rewrite Hcall.
  - rewrite mark_seen_twice. reflexivity.
  - unfold mark_seen; simpl. rewrite elem_of_union, elem_of_singleton.
    intros [Hk | Hk]; [discriminate | contradiction].
Qed.

(** C8. The deduplication misses a view record without a [name] key, which
    the code provides for (it names such a view ['Unknown']): requested
    twice on a fresh generator, the view is rendered in full both times,
    and so every further time, since the second call leaves the generator as
    the first one did. *)
Theorem view_without_name_rendered_twice :
  seen_entities (__init__ None None None) = ∅ /\
  exists g1,
    generate_view_description (__init__ None None None) nameless_view
    = (Ok nameless_view_block, g1) /\
    generate_view_description g1 nameless_view = (Ok nameless_view_block, g1) /\
    seen_entities g1 = {[ Some (inr "Unknown") ]} /\
    nameless_view_block <> "".
Proof.
  split; [reflexivity |].
  destruct (view_without_name_not_deduplicated (__init__ None None None)
              [("title", VStr "Sales");
               ("measures", VList [VDict [("name", VStr "total"); ("aggType", VStr "sum")]])])
    as [Hfirst Hsecond]; [discriminate | reflexivity | simpl; set_solver |].
  exists (mark_seen (Some (inr "Unknown")) (__init__ None None None)).
  split; [exact Hfirst |]. split; [exact Hsecond |]. split.
  - unfold mark_seen; simpl. set_solver.
  - discriminate.
Qed.

(** ** C10: the bullets of the catalog description *)

(** [String.prefix] and [is_substring] decide what they are named after. *)
Lemma prefix_spec (n h : string) :
  String.prefix n h = true <-> exists post, h = n ++ post.
Proof.
  split.
  - revert h; induction n as [| a n IH]; intros h H.
    + exists h. reflexivity.
    + destruct h as [| b h]; [discriminate |]. simpl in H.
      destruct (ascii_dec a b) as [-> | _]; [| discriminate].
      destruct (IH h H) as [post ->]. exists post. reflexivity.
  - intros [post ->]. apply prefix_append.
Qed.

Lemma is_substring_unfold (kw s : string) :
  is_substring kw s
  = String.prefix kw s
    || match s with
       | EmptyString => false
       | String _ rest => is_substring kw rest
       end.
Proof. destruct s; reflexivity. Qed.

Lemma is_substring_spec (kw s : string) :
  is_substring kw s = true <-> contains kw s.
Proof.
  split.
  - induction s as [| c s IH]; rewrite is_substring_unfold; intros H;
      apply orb_true_iff in H; destruct H as [H | H];
      try (apply prefix_spec in H; destruct H as [post H]; exists "", post; exact H).
    + discriminate.
    + destruct (IH H) as (pre & post & ->). exists (String c pre), post. reflexivity.
  - intros (pre & post & ->). induction pre as [| c pre IH]; rewrite is_substring_unfold.
    + change ("" ++ kw ++ post) with (kw ++ post). rewrite prefix_append. reflexivity.
    + change (String c pre ++ kw ++ post) with (String c (pre ++ kw ++ post)).
      cbv beta iota. rewrite IH. apply orb_true_r.
Qed.

Lemma any_keyword_in_str (n : string) (keywords : list string) :
  any_keyword_in (VStr n) keywords
  = Ok (existsb (fun kw => is_substring kw n) keywords).
Proof.
  induction keywords as [| kw rest IH]; simpl; [reflexivity |].
  destruct (is_substring kw n); [reflexivity | exact IH].
Qed.

Lemma existsb_contains (n : string) (keywords : list string) :
  existsb (fun kw => is_substring kw n) keywords = true
  <-> Exists (fun kw => contains kw n) keywords.
Proof.
  rewrite List.existsb_exists, List.Exists_exists.
  split; intros (kw & Hin & H); exists kw; (split; [exact Hin |]);
    apply is_substring_spec; exact H.
Qed.

(** C10. For a catalog dimension whose name is the string [n] (or is
    missing, which makes it "unknown"), [generate_catalog_description] adds a
    bullet line exactly when [n] contains one of 'join', 'relationship',
    'cube_' and 'view_'; any other dimension adds nothing.  The description
    of a catalog is its fixed heading followed by those lines, in the order
    of the dimensions. *)
Theorem catalog_bullets_only_for_keywords :
  (forall (f : list (string * value)) (n : string),
      field f "name" (VStr "unknown") = VStr n ->
      exists line,
        catalog_dimension_line (VDict f) = Ok line /\
        (Exists (fun kw => contains kw n) ["join"; "relationship"; "cube_"; "view_"] ->
         line = "- **" ++ py_str (field f "title" (VStr "")) ++ " (`" ++ n ++ "`)**: "
                  ++ py_str (field f "description" (VStr "No description available."))
                  ++ nl) /\
        (~ Exists (fun kw => contains kw n) ["join"; "relationship"; "cube_"; "view_"] ->
         line = ""))
  /\
  (forall (cf : list (string * value)) (dims : list value) (out : string),
      cf <> [] ->
      field cf "dimensions" (VList []) = VList dims ->
      generate_catalog_description (VDict cf) = Ok out ->
      exists lines,
        mapM catalog_dimension_line dims = Ok lines /\
        out = catalog_header ++ String.concat "" lines).
Proof.
  split.
  - intros f n Hname. unfold catalog_dimension_line. rewrite !get_dict, Hname.
    cbn [bind]. rewrite any_keyword_in_str. cbn [bind].
    fold catalog_keywords.
    destruct (existsb (fun kw => is_substring kw n) catalog_keywords) eqn:Hany;
      eexists; (split; [reflexivity |]); split.
    + intros _. reflexivity.
    + intros Hno. exfalso. apply Hno, existsb_contains, Hany.
    + intros Hyes. apply existsb_contains in Hyes.
      rewrite Hyes in Hany. discriminate.
    + intros _. reflexivity.
  - intros cf dims out Hcf Hdims H. unfold generate_catalog_description in H.
    destruct cf as [| kv cf']; [contradiction |]. cbn [truthy negb] in H.
    rewrite get_dict, Hdims in H. cbn [bind py_iter] in H.
    bind_inv H. injection H as <-. exists a. split; [exact Ha | reflexivity].
Qed.

Lemma catalog_bullets_only_for_keywords_witness :
  catalog_dimension_line (VDict [("name", VStr "cube_name"); ("title", VStr "Cube")])
  = Ok ("- **Cube (`cube_name`)**: No description available." ++ nl)
  /\ catalog_dimension_line (VDict [("name", VStr "region")]) = Ok "".
Proof.
  split.
  - destruct (proj1 catalog_bullets_only_for_keywords
                [("name", VStr "cube_name"); ("title", VStr "Cube")] "cube_name" eq_refl)
      as (line & Hline & Hyes & _).
    rewrite Hline, Hyes; [reflexivity |].
    apply existsb_contains. reflexivity.
  - destruct (proj1 catalog_bullets_only_for_keywords
                [("name", VStr "region")] "region" eq_refl)
      as (line & Hline & _ & Hno).
    rewrite Hline, Hno; [reflexivity |].
    intros H. apply existsb_contains in H. discriminate.
Defined.

(** * Further properties *)

(** ** Splitting strings *)

Lemma strip_prefix_spec (p s r : string) :
  strip_prefix p s = Some r <-> s = p ++ r.
Proof.
  revert s; induction p as [| a p IH]; intros s; simpl.
  - split; [intros [= ->]; reflexivity | intros ->; reflexivity].
  - destruct s as [| b s]; [split; discriminate |].
    destruct (Ascii.eqb a b) eqn:E.
    + apply Ascii.eqb_eq in E. subst b. rewrite IH. split; [intros ->; reflexivity |].
      intros [= ->]. reflexivity.
    + split; [discriminate |]. intros [= -> _]. rewrite Ascii.eqb_refl in E. discriminate.
Qed.

(** A cut found by [find_sep] is a cut: the three pieces make up the
    string. *)
Lemma find_sep_spec (sep s before after : string) :
  find_sep sep s = Some (before, after) -> s = before ++ sep ++ after.
Proof.
  revert before; induction s as [| c s IH]; intros before; simpl.
  - destruct (strip_prefix sep "") as [rest |] eqn:E; [| discriminate].
    intros [= <- <-]. apply strip_prefix_spec in E. exact E.
  - destruct (strip_prefix sep (String c s)) as [rest |] eqn:E.
    + intros [= <- <-]. apply strip_prefix_spec in E. exact E.
    + destruct (find_sep sep s) as [[b a] |]; [| discriminate].
      intros [= <- <-]. change (String c s = String c (b ++ sep ++ a)).
      f_equal. apply IH. reflexivity.
Qed.

Lemma strip_prefix_of_prefix (p s : string) :
  String.prefix p s = true -> exists r, strip_prefix p s = Some r.
Proof.
  intros H. apply prefix_spec in H. destruct H as [r ->].
  exists r. apply strip_prefix_spec. reflexivity.
Qed.

(** [find_sep] finds a cut whenever [sep] occurs. *)
Lemma find_sep_substring (sep s : string) :
  is_substring sep s = true -> exists before after, find_sep sep s = Some (before, after).
Proof.
  induction s as [| c s IH]; rewrite is_substring_unfold; intros H;
    apply orb_true_iff in H; destruct H as [H | H].
  - apply strip_prefix_of_prefix in H. destruct H as [r Hr]. simpl. rewrite Hr. eauto.
  - discriminate.
  - apply strip_prefix_of_prefix in H. destruct H as [r Hr]. simpl. rewrite Hr. eauto.
  - simpl. destruct (strip_prefix sep (String c s)); [eauto |].
    destruct (IH H) as (b & a & ->). eauto.
Qed.

Lemma find_sep_none (sep s : string) :
  is_substring sep s = false -> find_sep sep s = None.
Proof.
  intros H. destruct (find_sep sep s) as [[b a] |] eqn:E; [| reflexivity].
  apply find_sep_spec in E. 
  assert (is_substring sep s = true) by (apply is_substring_spec; exists b, a; exact E).
  congruence.
Qed.

Lemma length_append (a b : string) :
  String.length (a ++ b) = (String.length a + String.length b)%nat.
Proof.
  induction a as [| c a IH]; [reflexivity |].
  change (S (String.length (a ++ b)) = S (String.length a + String.length b)).
  rewrite IH. reflexivity.
Qed.

Lemma split_fuel_empty (sep : string) (fuel : nat) :
  sep <> "" -> split_fuel fuel sep "" = [""].
Proof.
  intros Hsep. destruct fuel; [reflexivity |].
  destruct sep; [contradiction | reflexivity].
Qed.

(** With a non-empty separator the fuel [split] gives is enough: more fuel
    gives the same list. *)
Lemma split_fuel_enough (sep : string) (fuel : nat) (s : string) :
  sep <> "" ->
  (String.length s <= fuel)%nat ->
  split_fuel fuel sep s = split sep s.
Proof.
  intros Hsep. unfold split.
  assert (H : forall n s f1 f2, (String.length s <= n)%nat ->
            (String.length s <= f1)%nat -> (String.length s <= f2)%nat ->
            split_fuel f1 sep s = split_fuel f2 sep s).
  { clear s fuel. induction n as [| n IH]; intros s f1 f2 Hn H1 H2.
    - destruct s; [| simpl in Hn; lia]. rewrite !split_fuel_empty by exact Hsep. reflexivity.
    - destruct s as [| c s]; [rewrite !split_fuel_empty by exact Hsep; reflexivity |].
      destruct f1 as [| f1]; [simpl in H1; lia |].
      destruct f2 as [| f2]; [simpl in H2; lia |].
      cbn [split_fuel].
      destruct (find_sep sep (String c s)) as [[b a] |] eqn:E; [| reflexivity].
      pose proof (find_sep_spec _ _ _ _ E) as Hs.
      assert (Hlen : (String.length a < String.length (String c s))%nat).
      { rewrite Hs, !length_append. destruct sep; [contradiction | simpl; lia]. }
      f_equal. apply IH; lia. }
  intros Hfuel. apply (H (String.length s)); lia.
Qed.

(** Joining the pieces of a split with the separator gives the string
    back. *)
Lemma join_split (sep s : string) : join sep (split sep s) = s.
Proof.
  unfold split. generalize (String.length s) as fuel. intros fuel.
  revert s; induction fuel as [| fuel IH]; intros s; simpl; [reflexivity |].
  destruct (find_sep sep s) as [[b a] |] eqn:E; [| reflexivity].
  apply find_sep_spec in E. specialize (IH a).
  destruct (split_fuel fuel sep a) as [| p ps] eqn:Ep.
  - destruct fuel; simpl in Ep; [discriminate |].
    destruct (find_sep sep a) as [[] |]; discriminate.
  - simpl in *. rewrite IH. symmetry. exact E.
Qed.

Lemma split_fuel_nonempty (fuel : nat) (sep s : string) : split_fuel fuel sep s <> [].
Proof. destruct fuel; simpl; [| destruct (find_sep sep s) as [[] |]]; discriminate. Qed.

(** When [sep] occurs in [s], [s.split(sep)] has at least two items. *)
Lemma split_two (sep s : string) :
  sep <> "" -> is_substring sep s = true ->
  exists a b rest, split sep s = a :: b :: rest.
Proof.
  intros Hsep H. destruct (find_sep_substring sep s H) as (before & after & E).
  unfold split. destruct (String.length s) as [| n] eqn:Hn.
  - destruct s; [| discriminate]. simpl in E. destruct sep; [contradiction | discriminate].
  - simpl. rewrite E.
    destruct (split_fuel n sep after) as [| b rest] eqn:Eb;
      [exfalso; exact (split_fuel_nonempty _ _ _ Eb) |].
    eauto.
Qed.

(** ** The relationship extractor *)

(** Once the phrase is in the description the [try] block goes through and
    yields at least one name. *)
Lemma extract_cube_names_total (d : string) :
  is_substring "A combined view of" d = true ->
  exists names, names <> [] /\ extract_cube_names d = Ok names.
Proof.
  intros H. unfold extract_cube_names.
  destruct (split_two "A combined view of" d) as (a & b & rest & ->);
    [discriminate | exact H |].
  cbn [nth_error].
  destruct (split " to provide" b) as [| s ss] eqn:Es;
    [exfalso; exact (split_fuel_nonempty _ _ _ Es) |].
  cbn [nth_error]. eexists. split; [| reflexivity].
  destruct (split "," (replace "and " "" s)) as [| x xs] eqn:Ex;
    [exfalso; exact (split_fuel_nonempty _ _ _ Ex) | discriminate].
Qed.

Lemma relationship_sentence_cases (f : list (string * value)) (d : string) :
  field f "description" (VStr "") = VStr d ->
  relationship_sentence (VDict f)
  = (if is_substring "A combined view of" d
     then match extract_cube_names d with
          | Ok names => Ok (relationship_text f names)
          | Raise e => Raise e
          end
     else Ok "").
Proof.
  intros Hd. unfold relationship_sentence, get_none.
  repeat (rewrite get_dict; cbn [bind]). rewrite Hd. cbn [str_in bind].
  destruct (is_substring "A combined view of" d) eqn:H; [| reflexivity].
  destruct (extract_cube_names_total d H) as (names & Hne & ->).
  destruct names; [contradiction | reflexivity].
Qed.

(** X1. A view record whose description is a string gets a relationship
    sentence exactly when the description contains 'A combined view of':
    with the phrase the extraction always goes through and yields a
    non-empty list of names (the [IndexError] handler and the test on
    [cube_names] never leave the view out); without it nothing is added. *)
Theorem relationship_sentence_iff_phrase (f : list (string * value)) (d : string) :
  field f "description" (VStr "") = VStr d ->
  (is_substring "A combined view of" d = false ->
   relationship_sentence (VDict f) = Ok "")
  /\
  (is_substring "A combined view of" d = true ->
   exists names,
     names <> [] /\
     extract_cube_names d = Ok names /\
     relationship_sentence (VDict f) = Ok (relationship_text f names)).
Proof.
  intros Hd. rewrite (relationship_sentence_cases f d Hd).
  split; intros H; rewrite H; [reflexivity |].
  destruct (extract_cube_names_total d H) as (names & Hne & Hnames).
  exists names. rewrite Hnames. auto.
Qed.

(** The description of the specification's example. *)
Lemma relationship_sentence_iff_phrase_witness :
  relationship_sentence
    (VDict [("name", VStr "orders_view");
            ("description",
             VStr "A combined view of Orders, Customers, and Shipments to provide a unified picture.")])
  = Ok ("The **orders_view** view is constructed by combining data from the following cubes: "
          ++ "**Orders, Customers, Shipments**." ++ nl).
Proof.
  destruct (proj2 (relationship_sentence_iff_phrase
                     [("name", VStr "orders_view");
                      ("description",
                       VStr "A combined view of Orders, Customers, and Shipments to provide a unified picture.")]
                     _ eq_refl) eq_refl)
    as (names & _ & Hnames & Hsentence).
  vm_compute in Hnames. injection Hnames as <-.
  rewrite Hsentence. reflexivity.
Defined.

Lemma relationship_sentence_described (c : value) :
  described c = true -> exists s, relationship_sentence c = Ok s.
Proof.
  destruct c as [| | | | | f]; try discriminate. simpl.
  destruct (field f "description" (VStr "")) as [| | | d | |] eqn:Hd; try discriminate.
  intros _. rewrite (relationship_sentence_cases f d Hd).
  destruct (is_substring "A combined view of" d) eqn:H; [| eauto].
  destruct (extract_cube_names_total d H) as (names & _ & ->). eauto.
Qed.

(** X2. On a metadata document whose entities are records with string (or
    absent) descriptions, [generate_relationship_sentences] returns the
    heading followed by the sentences of the semantic views, in document
    order: cubes and the entity named [semantic_catalog] are never looked
    at, whatever their descriptions say. *)
Theorem relationship_sentences_from_views_only
    (g : Generator) (d : list (string * value)) (l : list value) :
  metadata g = VDict d ->
  field d "cubes" (VList []) = VList l ->
  forallb described l = true ->
  exists sentences,
    generate_relationship_sentences g
    = Ok (relationships_header ++ String.concat "" sentences) /\
    Forall2 (fun view s => relationship_sentence view = Ok s)
      (List.filter in_semantic_views l) sentences.
Proof.
  intros Hg Hcubes Hl. unfold generate_relationship_sentences.
  rewrite Hg, get_dict, Hcubes. cbn [bind py_iter].
  assert (Hdict : forall x, In x l -> is_dict x = true).
  { intros x Hx. rewrite forallb_forall in Hl. specialize (Hl x Hx).
    destruct x; try discriminate. reflexivity. }
  rewrite (filterM_pure is_semantic_view in_semantic_views)
    by (intros x Hx; apply is_semantic_view_dict, Hdict, Hx).
  cbn [bind].
  destruct (mapM_total relationship_sentence (List.filter in_semantic_views l))
    as [sentences Hs].
  { intros x Hx. apply filter_In in Hx. destruct Hx as [Hx _].
    apply relationship_sentence_described.
    rewrite forallb_forall in Hl. apply Hl, Hx. }
  rewrite Hs. cbn [bind]. exists sentences. split; [reflexivity |].
  apply mapM_Forall2, Hs.
Qed.

(** A cube whose description has the phrase, next to a view that has it. *)
Lemma relationship_sentences_from_views_only_witness :
  generate_relationship_sentences
    (__init__
       (Some (VDict [("cubes", VList
          [ VDict [("name", VStr "C1"); ("type", VStr "cube");
                   ("description", VStr "A combined view of A, B to provide x")];
            VDict [("name", VStr "V1"); ("type", VStr "view");
                   ("description", VStr "A combined view of A, B to provide x")] ])]))
       None None)
  = Ok (relationships_header
          ++ "The **V1** view is constructed by combining data from the following cubes: **A, B**."
          ++ nl).
Proof.
  destruct (relationship_sentences_from_views_only
              (__init__
                 (Some (VDict [("cubes", VList
                    [ VDict [("name", VStr "C1"); ("type", VStr "cube");
                             ("description", VStr "A combined view of A, B to provide x")];
                      VDict [("name", VStr "V1"); ("type", VStr "view");
                             ("description", VStr "A combined view of A, B to provide x")] ])]))
                 None None)
              _ _ eq_refl eq_refl eq_refl)
    as (sentences & Hout & Hall).
  rewrite Hout. simpl in Hall.
  inversion Hall as [| v s vs ss Hv Hrest]; subst.
  inversion Hrest; subst.
  vm_compute in Hv. injection Hv as <-. reflexivity.
Defined.

(** ** Corpus statistics *)

Lemma count_words_bound (in_word : bool) (s : string) :
  2 * count_words in_word s <= Z.of_nat (String.length s) + (if in_word then 0 else 1).
Proof.
  revert in_word; induction s as [| c s IH]; intros in_word.
  - simpl. destruct in_word; lia.
  - cbn [count_words String.length]. destruct (is_space c).
    + specialize (IH false). cbn beta iota in IH. destruct in_word; lia.
    + specialize (IH true). cbn beta iota in IH. destruct in_word; lia.
Qed.

Lemma count_words_zero (s : string) :
  count_words false s = 0 <-> all_chars is_space s = true.
Proof.
  induction s as [| c s IH]; [split; reflexivity |].
  cbn [count_words all_chars]. destruct (is_space c); cbn [andb]; [exact IH |].
  pose proof (count_words_nonneg true s). split; [lia | discriminate].
Qed.

(** X3. The statistics of any corpus are consistent: the word count is not
    negative, two words need at least three characters (2 * words is at most
    characters + 1), and the word count is zero exactly for a corpus made of
    white space only. *)
Theorem statistics_word_bounds (g : Generator) (corpus : string) :
  let st := _calculate_statistics g corpus in
  0 <= words st /\
  2 * words st <= characters st + 1 /\
  (words st = 0 <-> all_chars is_space corpus = true).
Proof.
  cbn zeta. unfold _calculate_statistics; cbn [words characters].
  split; [apply count_words_nonneg |]. split.
  - apply (count_words_bound false).
  - apply count_words_zero.
Qed.

(** A word boundary: white space at the start of [b] ends any word of
    [a]. *)
Lemma count_words_append (in_word : bool) (a : string) (c : ascii) (b : string) :
  is_space c = true ->
  count_words in_word (a ++ String c b)
  = count_words in_word a + count_words false b.
Proof.
  intros Hc. revert in_word; induction a as [| x a IH]; intros in_word.
  - change ("" ++ String c b) with (String c b). cbn [count_words]. rewrite Hc. lia.
  - change (String x a ++ String c b) with (String x (a ++ String c b)).
    cbn [count_words]. destruct (is_space x); rewrite IH; lia.
Qed.

Lemma count_words_separator (in_word : bool) (a b : string) :
  count_words in_word (a ++ separator ++ b)
  = count_words in_word a + 1 + count_words false b.
Proof.
  unfold separator, nl.
  change (a ++ (String (ascii_of_nat 10) "" ++ String (ascii_of_nat 10) ""
                  ++ "---" ++ String (ascii_of_nat 10) "" ++ String (ascii_of_nat 10) "")
            ++ b)
    with (a ++ String (ascii_of_nat 10)
                 (String (ascii_of_nat 10)
                    ("---" ++ String (ascii_of_nat 10) (String (ascii_of_nat 10) b)))).
  rewrite count_words_append by reflexivity.
  change (count_words false
            (String (ascii_of_nat 10)
               ("---" ++ String (ascii_of_nat 10) (String (ascii_of_nat 10) b))))
    with (1 + count_words false b).
  lia.
Qed.

Lemma join_cons (sep p q : string) (rest : list string) :
  join sep (p :: q :: rest) = p ++ sep ++ join sep (q :: rest).
Proof. reflexivity. Qed.

Lemma words_of_join (p : string) (parts : list string) :
  count_words false (join separator (p :: parts))
  = total (count_words false) (p :: parts) + Z.of_nat (length parts).
Proof.
  revert p; induction parts as [| q parts IH]; intros p.
  - simpl. lia.
  - rewrite join_cons, count_words_separator, IH.
    unfold total. cbn [fold_right length]. lia.
Qed.

Lemma characters_of_join (p : string) (parts : list string) :
  Z.of_nat (String.length (join separator (p :: parts)))
  = total (fun s => Z.of_nat (String.length s)) (p :: parts) + 7 * Z.of_nat (length parts).
Proof.
  revert p; induction parts as [| q parts IH]; intros p.
  - simpl. lia.
  - rewrite join_cons, !length_append, !Nat2Z.inj_add, IH.
    unfold total. cbn [fold_right length].
    change (Z.of_nat (String.length separator)) with 7. lia.
Qed.

(** X4. [generate_full_corpus] joins the blocks the generator holds and
    leaves the generator as it was.  With [n] blocks (one at least) the
    statistics count n parts, the characters of the blocks plus 7 per
    separator, and the words of the blocks plus one per separator: each
    separator's dashes count as a word. *)
Theorem full_corpus_statistics_of_parts
    (g : Generator) (p : string) (parts : list string) :
  metadata_ok (metadata g) = true ->
  corpus_parts g = p :: parts ->
  exists st,
    generate_full_corpus g = Ok (join separator (p :: parts), st, g) /\
    total_parts st = 1 + Z.of_nat (length parts) /\
    characters st
    = total (fun s => Z.of_nat (String.length s)) (p :: parts) + 7 * Z.of_nat (length parts) /\
    words st = total (count_words false) (p :: parts) + Z.of_nat (length parts).
Proof.
  intros Hmd Hparts. unfold generate_full_corpus.
  unfold metadata_ok in Hmd.
  destruct (metadata g) as [| | | | | d]; try discriminate.
  rewrite get_dict.
  destruct (field d "cubes" (VList [])) as [| | | | l |]; try discriminate.
  cbn [py_iter bind]. rewrite (classify_entities_records l Hmd). cbn [bind].
  rewrite Hparts. eexists. split; [reflexivity |].
  unfold _calculate_statistics; cbn [total_parts characters words].
  rewrite Hparts. split; [cbn [length]; lia |]. split.
  - apply characters_of_join.
  - apply words_of_join.
Qed.

(** Two blocks of two words each. *)
Lemma full_corpus_statistics_of_parts_witness :
  exists st,
    generate_full_corpus (with_parts (__init__ None None None) ["alpha beta"; "gamma delta"])
    = Ok ("alpha beta" ++ separator ++ "gamma delta", st,
          with_parts (__init__ None None None) ["alpha beta"; "gamma delta"]) /\
    total_parts st = 2 /\ characters st = 28 /\ words st = 5.
Proof.
  destruct (full_corpus_statistics_of_parts
              (with_parts (__init__ None None None) ["alpha beta"; "gamma delta"])
              "alpha beta" ["gamma delta"] eq_refl eq_refl)
    as (st & Hrun & Hparts & Hchars & Hwords).
  exists st. split; [exact Hrun |]. split; [exact Hparts |]. split; [exact Hchars | exact Hwords].
Defined.

(** ** The taxonomy lookup of the view describer *)

(** A loop that appends what each item yields collects the yields in
    order. *)
Lemma foldM_collect {A B : Type} (body : list A -> B -> result (list A))
    (k : B -> list A) (xs : list B) (acc : list A) :
  (forall acc' x, In x xs -> body acc' x = Ok (app acc' (k x))) ->
  foldM body acc xs = Ok (app acc (flat_map k xs)).
Proof.
  revert acc; induction xs as [| x xs IH]; intros acc Hbody; simpl.
  - rewrite app_nil_r. reflexivity.
  - rewrite (Hbody acc x (or_introl eq_refl)). cbn [bind].
    rewrite IH by (intros acc' y Hy; apply Hbody; right; exact Hy).
    rewrite <- app_assoc. reflexivity.
Qed.

Lemma flat_map_map {A B C : Type} (k : B -> list C) (h : A -> B) (xs : list A) :
  flat_map k (map h xs) = flat_map (fun x => k (h x)) xs.
Proof. induction xs as [| x xs IH]; simpl; [reflexivity | rewrite IH; reflexivity]. Qed.

Lemma flat_map_flat_map {A B C : Type} (k : B -> list C) (h : A -> list B) (xs : list A) :
  flat_map k (flat_map h xs) = flat_map (fun x => flat_map k (h x)) xs.
Proof.
  induction xs as [| x xs IH]; simpl; [reflexivity |].
  rewrite flat_map_app, IH. reflexivity.
Qed.

Lemma subdivision_context_first (sd : list (string * value)) (view_name : value)
    (views : list value) :
  forallb is_dict views = true ->
  subdivision_context (VDict sd) view_name views
  = Ok (match find (names_view view_name) views with
        | Some v =>
            [ "**Business Context**: Belongs to the '"
                ++ py_str (field sd "display_name" VNone)
                ++ "' subdivision and is used for '"
                ++ py_str (vfield v "functional_area" VNone) ++ "'." ++ nl ++ nl ]
        | None => []
        end).
Proof.
  induction views as [| v views IH]; [reflexivity |].
  cbn [forallb]. intros H. apply andb_true_iff in H. destruct H as [Hv Hrest].
  destruct v as [| | | | | f]; try discriminate.
  cbn [subdivision_context find]. unfold get_none. rewrite get_dict. cbn [bind].
  unfold names_view at 1. cbn [vfield].
  destruct (py_eq (field f "name" VNone) view_name).
  - rewrite !get_dict. reflexivity.
  - apply IH, Hrest.
Qed.

Lemma context_sentence_length (view_name subdiv : value) :
  length (context_sentence view_name subdiv) = b2n (lists_view view_name subdiv).
Proof.
  unfold context_sentence, lists_view.
  induction (list_items (vfield subdiv "views" (VList []))) as [| v vs IH]; [reflexivity |].
  cbn [find existsb]. destruct (names_view view_name v); [reflexivity | exact IH].
Qed.

Lemma flat_map_length_filter {A B : Type} (k : A -> list B) (p : A -> bool) (xs : list A) :
  (forall x, length (k x) = b2n (p x)) ->
  length (flat_map k xs) = length (List.filter p xs).
Proof.
  intros Hk. induction xs as [| x xs IH]; [reflexivity |].
  cbn [flat_map List.filter]. rewrite length_app, Hk, IH.
  destruct (p x); reflexivity.
Qed.

(** X5. On a taxonomy typed as in the data model the view describer's
    lookup returns one Business Context sentence for every subdivision that
    lists the view, in the order of the taxonomy, each built from the first
    matching entry of its subdivision.  A view no subdivision lists gets no
    sentence, and nothing is raised for it. *)
Theorem business_context_per_subdivision (tx view_name : value) :
  context_ok tx = true ->
  business_context tx view_name
  = Ok (flat_map (context_sentence view_name) (taxonomy_subdivisions tx))
  /\ length (flat_map (context_sentence view_name) (taxonomy_subdivisions tx))
     = length (List.filter (lists_view view_name) (taxonomy_subdivisions tx)).
Proof.
  intros Hok. split;
    [| apply flat_map_length_filter; intros x; apply context_sentence_length].
  unfold context_ok in Hok. repeat (apply andb_true_iff in Hok; destruct Hok as [Hok ?]).
  destruct tx as [| | | | | t]; try discriminate.
  unfold business_context, taxonomy_subdivisions, taxonomy_business_units in *.
  cbn [vfield] in *.
  destruct t as [| kv t']; [reflexivity |]. cbn [truthy].
  set (t := kv :: t') in *.
  rewrite get_dict. cbn [bind].
  destruct (field t "hierarchy" (VDict [])) as [| | | | | h]; try discriminate.
  rewrite get_dict. cbn [bind vfield] in *.
  destruct (field h "division" (VDict [])) as [| | | | | dv]; try discriminate.
  rewrite get_dict. cbn [bind vfield] in *.
  destruct (field dv "business_units" (VDict [])) as [| | | | | bus]; try discriminate.
  cbn [items bind dict_values dict_of] in *.
  rewrite flat_map_map, flat_map_flat_map.
  apply (foldM_collect _ _ bus []).
  intros acc bu Hbu. rewrite forallb_forall in H. specialize (H bu Hbu).
  unfold business_unit_listing_ok in H. apply andb_true_iff in H. destruct H as [Hd Hsubs].
  destruct (snd bu) as [| | | | | b]; try discriminate.
  rewrite get_dict. cbn [bind vfield] in *.
  destruct (field b "subdivisions" (VDict [])) as [| | | | | subs]; try discriminate.
  cbn [items bind dict_values dict_of] in *.
  rewrite flat_map_map.
  apply foldM_collect.
  intros acc' sub Hsub. rewrite forallb_forall in Hsubs. specialize (Hsubs sub Hsub).
  unfold subdivision_listing_ok in Hsubs. apply andb_true_iff in Hsubs.
  destruct Hsubs as [Hsd Hviews].
  destruct (snd sub) as [| | | | | sd] eqn:Esub; try discriminate.
  rewrite get_dict. cbn [bind vfield] in *.
  unfold context_sentence. cbn [vfield].
  destruct (field sd "views" (VList [])) as [| | | | vs |]; try discriminate.
  cbn [py_iter bind list_items records] in *.
  rewrite (subdivision_context_first sd view_name vs Hviews). reflexivity.
Qed.

(** The taxonomy of the two subdivisions that both list [ViewX], and a view
    none of them lists. *)
Lemma business_context_per_subdivision_witness :
  (exists sentences,
     business_context two_subdivision_taxonomy (VStr "ViewX") = Ok sentences /\
     length sentences = 2%nat)
  /\ business_context two_subdivision_taxonomy (VStr "Elsewhere") = Ok [].
Proof.
  split.
  - destruct (business_context_per_subdivision two_subdivision_taxonomy (VStr "ViewX") eq_refl)
      as [Hrun Hlen].
    eexists. split; [exact Hrun | exact Hlen].
  - exact (proj1 (business_context_per_subdivision two_subdivision_taxonomy
                    (VStr "Elsewhere") eq_refl)).
Defined.

(** ** The cube describer *)

Lemma brief_block_length (kind : string) (bullets : list string) :
  length (brief_block kind bullets) = brief_entries (length bullets).
Proof.
  destruct bullets as [| x l]; [reflexivity |].
  cbn [brief_block length brief_entries]. rewrite length_app. cbn [length]. lia.
Qed.

(** X6. A cube record of the data model (whose type string has its capital
    among the one-byte characters) is always rendered by
    [generate_cube_description].  The text is the newline-join of a fixed
    layout: the 8 header lines, which carry the title, the description, the
    name, the capitalized type, the visibility words and the number of
    connected components; the two brief summaries (a heading each, then
    nothing for no field, or a count line, one bullet per field in order and
    a closing entry); the detailed measure section with the block
    [generate_measure_description] gives each measure and the detailed
    dimension section with the block [generate_dimension_description] gives
    each dimension. *)
Theorem cube_lines_layout (f : list (string * value)) (ms ds : list value) :
  cube_ok f = true ->
  one_byte_capital (field f "type" (VStr "cube")) = true ->
  field f "measures" (VList []) = VList ms ->
  field f "dimensions" (VList []) = VList ds ->
  exists measure_details dimension_details,
    Forall2 (fun m text =>
               generate_measure_description (field f "name" (VStr "UnknownCube")) m = Ok text)
      ms measure_details /\
    Forall2 (fun d text =>
               generate_dimension_description (field f "name" (VStr "UnknownCube")) d = Ok text)
      ds dimension_details /\
    generate_cube_description (VDict f)
    = Ok (join nl (cube_layout f ms ds measure_details dimension_details)) /\
    length (cube_layout f ms ds measure_details dimension_details)
    = (8 + (1 + brief_entries (length ms)) + (1 + brief_entries (length ds))
       + (2 + length ms) + (3 + length ds))%nat.
Proof.
  intros Hok _ Hms Hds.
  destruct (cube_lines_text f ms ds Hok Hms Hds) as (md & dd & Hmd & Hdd & Hrun).
  exists md, dd. split; [exact Hmd |]. split; [exact Hdd |]. split.
  - unfold generate_cube_description. rewrite Hrun. reflexivity.
  - unfold cube_layout. rewrite !length_app, !brief_block_length, !length_map.
    rewrite <- (Forall2_length _ _ _ Hmd), <- (Forall2_length _ _ _ Hdd).
    cbn [length cube_header_lines]. lia.
Qed.

(** A cube with one measure and no dimension: 8 + 1 + 3 + 1 + 0 + 2 + 1 + 3
    entries. *)
Lemma cube_lines_layout_witness :
  exists measure_details,
    generate_cube_description
      (VDict [("name", VStr "Orders");
              ("measures", VList [VDict [("name", VStr "total")]])])
    = Ok (join nl (cube_layout
                     [("name", VStr "Orders");
                      ("measures", VList [VDict [("name", VStr "total")]])]
                     [VDict [("name", VStr "total")]] [] measure_details [])) /\
    length (cube_layout
              [("name", VStr "Orders");
               ("measures", VList [VDict [("name", VStr "total")]])]
              [VDict [("name", VStr "total")]] [] measure_details []) = 19%nat.
Proof.
  destruct (cube_lines_layout
              [("name", VStr "Orders"); ("measures", VList [VDict [("name", VStr "total")]])]
              [VDict [("name", VStr "total")]] [] eq_refl eq_refl eq_refl eq_refl)
    as (md & dd & _ & Hdd & Hrun & Hlen).
  inversion Hdd; subst dd.
  exists md. split; [exact Hrun | exact Hlen].
Defined.

Lemma field_present (d : list (string * value)) (k : string) (v dflt : value) :
  lookup_key k d = Some v -> field d k dflt = v.
Proof. unfold field. intros ->. reflexivity. Qed.

(** X7. An explicit [null] is not a missing key.  A measure whose
    [description] is present but is not a string (a JSON null, say) is
    rendered by the Field Describer, yet in a cube it makes the brief
    summary call [strip] on it: the cube description raises
    [AttributeError]. *)
Theorem cube_measure_description_not_a_string
    (f mf : list (string * value)) (rest : list value) (v cube_name : value) :
  is_str (field f "type" (VStr "cube")) = true ->
  is_list (field f "connectedComponents" (VList [])) = true ->
  field f "measures" (VList []) = VList (VDict mf :: rest) ->
  lookup_key "description" mf = Some v ->
  is_str v = false ->
  generate_cube_description (VDict f) = Raise AttributeError /\
  exists text, generate_measure_description cube_name (VDict mf) = Ok text.
Proof.
  intros Hty Hcc Hms Hv Hnot. split.
  - unfold generate_cube_description, cube_lines, cube_header.
    repeat (rewrite get_dict; cbn [bind]).
    destruct (field f "type" (VStr "cube")); try discriminate.
    destruct (field f "connectedComponents" (VList [])); try discriminate.
    cbn [str_method py_len bind]. repeat (rewrite get_dict; cbn [bind]).
    rewrite Hms. unfold brief_summary. cbn [truthy py_len py_iter bind mapM].
    unfold measure_brief_line at 1. repeat (rewrite get_dict; cbn [bind]).
    rewrite (field_present mf "description" v _ Hv).
    destruct v; try discriminate; reflexivity.
  - unfold generate_measure_description.
    destruct (measure_paragraph_dict cube_name mf) as [p ->]. cbn [bind]. eauto.
Qed.

Lemma cube_measure_description_not_a_string_witness :
  generate_cube_description
    (VDict [("name", VStr "Orders");
            ("measures", VList [VDict [("name", VStr "total"); ("description", VNone)]])])
  = Raise AttributeError.
Proof.
  exact (proj1 (cube_measure_description_not_a_string
                  [("name", VStr "Orders");
                   ("measures", VList [VDict [("name", VStr "total"); ("description", VNone)]])]
                  [("name", VStr "total"); ("description", VNone)] [] VNone (VStr "Orders")
                  eq_refl eq_refl eq_refl eq_refl eq_refl)).
Defined.

(** ** The query-pattern synthesizer *)

Lemma filterM_total {A : Type} (p : A -> result bool) (xs : list A) :
  (forall x, In x xs -> exists b, p x = Ok b) -> exists ys, filterM p xs = Ok ys.
Proof.
  induction xs as [| x xs IH]; intros Hp; simpl; [eauto |].
  destruct (Hp x (or_introl eq_refl)) as [b ->].
  destruct IH as [ys ->]; [intros y Hy; apply Hp; right; exact Hy |].
  cbn [bind]. eauto.
Qed.

Lemma filterM_In {A : Type} (p : A -> result bool) (xs ys : list A) (y : A) :
  filterM p xs = Ok ys -> In y ys -> In y xs.
Proof.
  revert ys; induction xs as [| x xs IH]; simpl; intros ys H Hy.
  - injection H as <-. exact Hy.
  - bind_inv H. bind_inv H. injection H as <-.
    destruct a; [destruct Hy as [-> | Hy]; [left; reflexivity |] |]; right; eapply IH; eauto.
Qed.

Lemma entity_query_patterns_ok (c : value) :
  query_entity_ok c = true -> exists ps, entity_query_patterns c = Ok ps.
Proof.
  destruct c as [| | | | | f]; try discriminate. cbn [query_entity_ok].
  intros H. apply andb_true_iff in H. destruct H as [Hm Hd].
  unfold entity_query_patterns, get_none. repeat (rewrite get_dict; cbn [bind]).
  destruct (field f "measures" (VList [])) as [| | | | ms |]; try discriminate.
  destruct (field f "dimensions" (VList [])) as [| | | | ds |]; try discriminate.
  cbn [records] in Hm, Hd.
  assert (Hmetrics : exists x, metrics_pair (field f "title" (field f "name" (VStr "Unknown")))
                                 (VList ms) = Ok x).
  { unfold metrics_pair. destruct (truthy (VList ms)); [| eauto]. cbn [py_iter bind].
    destruct (mapM_records named_measure title_or_name ms) as [ts ->]; [| exact Hm |].
    - intros [| | | | | mf] Hx; try discriminate. unfold title_or_name, get_none.
      repeat (rewrite get_dict; cbn [bind]). eauto.
    - cbn [bind]. eauto. }
  assert (Hlist : exists x, measure_list_pair (field f "name" (VStr "Unknown")) (VList ms) = Ok x).
  { unfold measure_list_pair. destruct (truthy (VList ms)); [| eauto].
    cbn [py_len py_iter bind].
    assert (Hnames : exists names,
              mapM (fun m => get m "name" (VStr "unknown")) ms = Ok names /\
              forallb is_str names = true).
    { clear -Hm. induction ms as [| m ms IH]; [exists []; split; reflexivity |].
      cbn [forallb] in Hm. apply andb_true_iff in Hm. destruct Hm as [Hm Hrest].
      destruct m as [| | | | | mf]; try discriminate. cbn [named_measure] in Hm.
      destruct (IH Hrest) as (names & Hnames & Hstr).
      cbn [mapM]. rewrite get_dict. cbn [bind]. rewrite Hnames. cbn [bind].
      eexists. split; [reflexivity |]. cbn [forallb]. rewrite Hm, Hstr. reflexivity. }
    destruct Hnames as (names & -> & Hstr). cbn [bind].
    destruct (mapM_records is_str as_str names) as [ss ->]; [| exact Hstr |].
    - intros [| | | s | |] Hx; try discriminate. cbn [as_str]. eauto.
    - cbn [bind]. eauto. }
  assert (Htype : exists x, dimension_type_pair (field f "title" (field f "name" (VStr "Unknown")))
                              (VList ds) = Ok x).
  { unfold dimension_type_pair. destruct ds as [| dim ds']; [cbn [truthy]; eauto |].
    cbn [truthy index0 bind]. cbn [forallb] in Hd. apply andb_true_iff in Hd.
    destruct Hd as [Hdim _]. destruct dim as [| | | | | df]; try discriminate.
    unfold title_or_name, get_none. repeat (rewrite get_dict; cbn [bind]). eauto. }
  assert (Hloc : exists x, location_pair (field f "title" (field f "name" (VStr "Unknown")))
                             (VList ms) = Ok x).
  { unfold location_pair. destruct ms as [| m ms']; [cbn [truthy]; eauto |].
    cbn [truthy index0 bind]. cbn [forallb] in Hm. apply andb_true_iff in Hm.
    destruct Hm as [Hm0 _]. destruct m as [| | | | | mf]; try discriminate.
    unfold title_or_name, get_none. repeat (rewrite get_dict; cbn [bind]). eauto. }
  destruct Hmetrics as [x1 ->], Hlist as [x2 ->], Htype as [x3 ->], Hloc as [x4 ->].
  cbn [bind py_iter].
  destruct (filterM_total has_primary_key ds) as [pk_dims Hpk].
  { intros x Hx. rewrite forallb_forall in Hd. specialize (Hd x Hx).
    destruct x as [| | | | | df]; try discriminate.
    unfold has_primary_key, get_none. rewrite get_dict. cbn [bind]. eauto. }
  rewrite Hpk. cbn [bind].
  assert (Hkey : exists x, primary_key_pair (field f "name" (VStr "Unknown")) pk_dims = Ok x).
  { destruct pk_dims as [| pk rest]; [cbn; eauto |].
    assert (Hin : In pk ds) by (eapply filterM_In; [exact Hpk | left; reflexivity]).
    rewrite forallb_forall in Hd. specialize (Hd pk Hin).
    destruct pk as [| | | | | pf]; try discriminate.
    cbn [primary_key_pair]. unfold get_none. repeat (rewrite get_dict; cbn [bind]). eauto. }
  destruct Hkey as [x5 ->]. cbn [bind]. eauto.
Qed.

(** X8. The synthesizer returns as soon as the first 20 entities are
    records of the data model; an entity after the 20th is never looked at,
    so even a malformed one there cannot make it fail.  The text is the
    heading followed by the pairs of those entities, in document order. *)
Theorem query_patterns_first_twenty_decide
    (g : Generator) (d : list (string * value)) (l : list value) :
  metadata g = VDict d ->
  field d "cubes" (VList []) = VList l ->
  forallb query_entity_ok (firstn 20 l) = true ->
  exists pairs,
    generate_query_patterns g
    = Ok (query_patterns_header ++ String.concat "" (map (String.concat "") pairs)) /\
    Forall2 (fun entity ps => entity_query_patterns entity = Ok ps) (firstn 20 l) pairs.
Proof.
  intros Hg Hcubes Hok. unfold generate_query_patterns.
  rewrite Hg, get_dict, Hcubes. cbn [slice_prefix py_iter bind].
  destruct (mapM_records query_entity_ok entity_query_patterns (firstn 20 l)
              entity_query_patterns_ok Hok) as [pairs Hpairs].
  rewrite Hpairs. cbn [bind]. exists pairs. split; [reflexivity |].
  apply mapM_Forall2, Hpairs.
Qed.

(** Twenty records followed by an item that is no record at all. *)
Lemma query_patterns_first_twenty_decide_witness :
  exists out,
    generate_query_patterns
      (__init__ (Some (VDict [("cubes", VList (app (repeat full_entity 20) [VInt 1]))]))
                None None)
    = Ok out.
Proof.
  destruct (query_patterns_first_twenty_decide
              (__init__ (Some (VDict [("cubes", VList (app (repeat full_entity 20) [VInt 1]))]))
                        None None)
              _ _ eq_refl eq_refl eq_refl)
    as (pairs & Hrun & _).
  eexists. exact Hrun.
Defined.

(** X9. For an entity without measures, an explicit [null] under
    [dimensions] makes both the query-pattern synthesizer and the
    instruction generator raise [TypeError] (the primary-key comprehension
    iterates over it), whereas an explicit [null] under [measures] is
    skipped like an empty list. *)
Theorem null_dimensions_raise_null_measures_skipped (f : list (string * value)) :
  (truthy (field f "measures" (VList [])) = false ->
   lookup_key "dimensions" f = Some VNone ->
   entity_query_patterns (VDict f) = Raise TypeError /\
   InstructionGenerator.cube_instructions (VDict f) = Raise TypeError)
  /\
  (lookup_key "measures" f = Some VNone ->
   lookup_key "dimensions" f = None ->
   entity_query_patterns (VDict f)
   = Ok (purpose_pair (field f "name" (VStr "Unknown"))
           (field f "title" (field f "name" (VStr "Unknown")))
           (field f "description" VNone)) /\
   InstructionGenerator.cube_instructions (VDict f) = Ok []).
Proof.
  split.
  - intros Hm Hd. split.
    + unfold entity_query_patterns, get_none. repeat (rewrite get_dict; cbn [bind]).
      unfold metrics_pair, measure_list_pair, location_pair. rewrite Hm. cbn [bind].
      rewrite (field_present f "dimensions" VNone _ Hd). reflexivity.
    + unfold InstructionGenerator.cube_instructions. repeat (rewrite get_dict; cbn [bind]).
      rewrite Hm. cbn [bind]. rewrite (field_present f "dimensions" VNone _ Hd). reflexivity.
  - intros Hm Hd. split.
    + unfold entity_query_patterns, get_none. repeat (rewrite get_dict; cbn [bind]).
      rewrite (field_present f "measures" VNone _ Hm), (field_default f "dimensions" _ Hd).
      cbn. rewrite app_nil_r. reflexivity.
    + unfold InstructionGenerator.cube_instructions. repeat (rewrite get_dict; cbn [bind]).
      rewrite (field_present f "measures" VNone _ Hm), (field_default f "dimensions" _ Hd).
      reflexivity.
Qed.

Lemma null_dimensions_raise_null_measures_skipped_witness :
  entity_query_patterns (VDict [("name", VStr "Orders"); ("dimensions", VNone)])
  = Raise TypeError
  /\ entity_query_patterns (VDict [("name", VStr "Orders"); ("measures", VNone)]) = Ok [].
Proof.
  split.
  - exact (proj1 (proj1 (null_dimensions_raise_null_measures_skipped
                           [("name", VStr "Orders"); ("dimensions", VNone)])
                    eq_refl eq_refl)).
  - exact (proj1 (proj2 (null_dimensions_raise_null_measures_skipped
                           [("name", VStr "Orders"); ("measures", VNone)])
                    eq_refl eq_refl)).
Defined.

(** ** The instruction generator and the prompt formatter *)

Lemma cube_instructions_shape (c : value) (l : list value) :
  InstructionGenerator.cube_instructions c = Ok l ->
  exists f ds,
    c = VDict f /\
    py_iter (field f "dimensions" (VList [])) = Ok ds /\
    length l = (b2n (truthy (field f "measures" (VList [])))
                + b2n (is_some (find flagged_primary ds)))%nat /\
    Forall (fun ins => exists q a, ins = InstructionGenerator.instruction q a) l.
Proof.
  intros H. destruct c as [| | | | | f]; try discriminate.
  unfold InstructionGenerator.cube_instructions in H.
  repeat (rewrite get_dict in H; cbn [bind] in H).
  apply bind_Ok_inv in H; destruct H as (lm & Hlm & H).
  apply bind_Ok_inv in H; destruct H as (ds & Hds & H).
  apply bind_Ok_inv in H; destruct H as (pk_dims & Hpk & H).
  apply bind_Ok_inv in H; destruct H as (pk & Hkey & H).
  injection H as <-.
  apply filterM_primary in Hpk. subst pk_dims.
  exists f, ds. split; [reflexivity |]. split; [exact Hds |].
  assert (Hlm' : length lm = b2n (truthy (field f "measures" (VList []))) /\
                 Forall (fun ins => exists q a, ins = InstructionGenerator.instruction q a) lm).
  { destruct (truthy (field f "measures" (VList []))).
    - bind_inv Hlm. injection Hlm as <-. split; [reflexivity |].
      constructor; [eauto | constructor].
    - injection Hlm as <-. split; [reflexivity | constructor]. }
  assert (Hpk' : length pk = b2n (is_some (find flagged_primary ds)) /\
                 Forall (fun ins => exists q a, ins = InstructionGenerator.instruction q a) pk).
  { rewrite <- filter_head_find.
    destruct (List.filter flagged_primary ds) as [| p rest].
    - injection Hkey as <-. split; [reflexivity | constructor].
    - bind_inv Hkey. bind_inv Hkey. injection Hkey as <-. split; [reflexivity |].
      constructor; [eauto | constructor]. }
  destruct Hlm' as [Hl1 Hf1], Hpk' as [Hl2 Hf2].
  split; [rewrite length_app, Hl1, Hl2; reflexivity |].
  apply Forall_app. split; assumption.
Qed.

(** X10. The instruction generator goes through every entity of the
    document (there is no bound of 20 here) and adds, for each, one
    instruction when the entity has measures and one when a dimension is
    flagged [primaryKey]: at most two per entity, in document order. *)
Theorem instructions_per_entity (d : list (string * value)) (l out : list value) :
  field d "cubes" (VList []) = VList l ->
  InstructionGenerator.generate_instructions (VDict d) = Ok out ->
  exists per_cube,
    out = concat per_cube /\
    Forall2 (fun c ins =>
               InstructionGenerator.cube_instructions c = Ok ins /\
               exists f ds,
                 c = VDict f /\
                 py_iter (field f "dimensions" (VList [])) = Ok ds /\
                 length ins = (b2n (truthy (field f "measures" (VList [])))
                               + b2n (is_some (find flagged_primary ds)))%nat)
            l per_cube.
Proof.
  intros Hcubes H. unfold InstructionGenerator.generate_instructions in H.
  rewrite get_dict, Hcubes in H. cbn [bind py_iter] in H.
  bind_inv H. injection H as <-. exists a. split; [reflexivity |].
  apply mapM_Forall2 in Ha. clear Hcubes.
  induction Ha as [| c ins cs inss Hc _ IH]; [constructor |].
  constructor; [| exact IH].
  split; [exact Hc |].
  destruct (cube_instructions_shape c ins Hc) as (f & ds & Hf & Hds & Hlen & _).
  exists f, ds. auto.
Qed.

Lemma instructions_per_entity_witness :
  exists out,
    InstructionGenerator.generate_instructions
      (VDict [("cubes", VList (repeat full_entity 21))]) = Ok out /\
    length out = 42%nat.
Proof.
  destruct (InstructionGenerator.generate_instructions
              (VDict [("cubes", VList (repeat full_entity 21))])) as [out | e] eqn:Hrun;
    [| discriminate].
  destruct (instructions_per_entity [("cubes", VList (repeat full_entity 21))]
              (repeat full_entity 21) out eq_refl Hrun) as (per_cube & _ & _).
  exists out. split; [reflexivity |].
  vm_compute in Hrun. injection Hrun as <-. reflexivity.
Defined.

Lemma format_instruction_of_instruction (q a : string) :
  format_instruction (InstructionGenerator.instruction q a) = Ok (formatted_instruction q a).
Proof.
  reflexivity.
Qed.

(** X11. What the instruction generator writes is what the fine-tuning
    formatter reads: every instruction it produces is formatted without an
    error into a system block, a user block and an assistant block, in that
    order, each closed by the end marker. *)
Theorem generated_instructions_are_formatted (md : value) (out : list value) :
  InstructionGenerator.generate_instructions md = Ok out ->
  Forall (fun ins =>
            exists q a,
              ins = InstructionGenerator.instruction q a /\
              format_instruction ins = Ok (formatted_instruction q a))
         out.
Proof.
  intros H. unfold InstructionGenerator.generate_instructions in H.
  bind_inv H. bind_inv H. bind_inv H. injection H as <-.
  apply mapM_Forall2 in Ha1. clear Ha Ha0.
  induction Ha1 as [| c ins cs inss Hc _ IH]; [constructor |].
  cbn [concat]. apply Forall_app. split; [| exact IH].
  destruct (cube_instructions_shape c ins Hc) as (_ & _ & _ & _ & _ & Hshape).
  eapply List.Forall_impl; [| exact Hshape].
  intros x (q & answer & ->). exists q, answer. split; [reflexivity |].
  apply format_instruction_of_instruction.
Qed.

Lemma generated_instructions_are_formatted_witness :
  exists out,
    InstructionGenerator.generate_instructions (VDict [("cubes", VList [full_entity])])
    = Ok out /\
    length out = 2%nat /\
    Forall (fun ins =>
              exists q a,
                ins = InstructionGenerator.instruction q a /\
                format_instruction ins = Ok (formatted_instruction q a))
           out.
Proof.
  eexists. split; [reflexivity |]. split; [reflexivity |].
  exact (generated_instructions_are_formatted
           (VDict [("cubes", VList [full_entity])]) _ eq_refl).
Defined.









(** ** The taxonomy renderer *)

Lemma join_or_ok (xs : value) (dflt : string) :
  str_list xs = true -> exists s, join_or xs dflt = Ok s.
Proof.
  destruct xs as [| | | | l |]; try discriminate. cbn [str_list records]. intros Hl.
  unfold join_or. destruct (truthy (VList l)); [| eauto].
  unfold py_join. cbn [py_iter bind].
  destruct (mapM_records is_str as_str l) as [ss ->]; [| exact Hl |].
  - intros [| | | s | |] Hx; try discriminate. cbn [as_str]. eauto.
  - cbn [bind]. eauto.
Qed.

Lemma shared_line_ok (label : string) (xs : value) :
  str_list xs = true -> exists s, shared_line label xs = Ok s.
Proof.
  destruct xs as [| | | | l |]; try discriminate. cbn [str_list records]. intros Hl.
  unfold shared_line. destruct (truthy (VList l)); [| eauto].
  unfold py_join. cbn [py_iter bind].
  destruct (mapM_records is_str as_str l) as [ss ->]; [| exact Hl |].
  - intros [| | | s | |] Hx; try discriminate. cbn [as_str]. eauto.
  - cbn [bind]. eauto.
Qed.

Lemma bullet_section_ok (heading : string) (bullet : value -> result string)
    (p : value -> bool) (xs : value) :
  (forall x, p x = true -> exists y, bullet x = Ok y) ->
  records p xs = true ->
  exists s, bullet_section heading bullet xs = Ok s.
Proof.
  intros Hb. destruct xs as [| | | | l |]; try discriminate. cbn [records]. intros Hl.
  unfold bullet_section. destruct (truthy (VList l)); [| eauto].
  cbn [py_iter bind]. destruct (mapM_records p bullet l Hb Hl) as [bs ->].
  cbn [bind]. eauto.
Qed.

Lemma functional_area_bullet_ok (area : value) :
  is_dict area = true -> exists s, functional_area_bullet area = Ok s.
Proof.
  destruct area as [| | | | | f]; try discriminate. intros _.
  unfold functional_area_bullet. repeat (rewrite get_dict; cbn [bind]). eauto.
Qed.

Lemma hierarchy_view_bullet_ok (view : value) :
  view_entry_ok view = true -> exists s, hierarchy_view_bullet view = Ok s.
Proof.
  destruct view as [| | | | | f]; try discriminate. cbn [view_entry_ok]. intros H.
  apply andb_true_iff in H. destruct H as [Harea Htags].
  unfold hierarchy_view_bullet. repeat (rewrite get_dict; cbn [bind]).
  destruct (join_or_ok (field f "tags" (VList [])) "no associated tags" Htags) as [t ->].
  cbn [bind].
  destruct (field f "functional_area" (VStr "")); try discriminate.
  cbn [str_method bind]. eauto.
Qed.

Lemma subdivision_text_ok (bu_name : string) (subdiv : string * value) :
  subdivision_ok (snd subdiv) = true -> exists s, subdivision_text bu_name subdiv = Ok s.
Proof.
  destruct subdiv as [name sd]. cbn [snd].
  destruct sd as [| | | | | f]; try discriminate. cbn [subdivision_ok]. intros H.
  apply andb_true_iff in H. destruct H as [Hareas Hviews].
  unfold subdivision_text. repeat (rewrite get_dict; cbn [bind]).
  destruct (bullet_section_ok "**Functional Areas:**" functional_area_bullet is_dict
              (field f "functional_areas" (VList [])) functional_area_bullet_ok Hareas)
    as [a ->].
  cbn [bind].
  destruct (bullet_section_ok "**Views:**" hierarchy_view_bullet view_entry_ok
              (field f "views" (VList [])) hierarchy_view_bullet_ok Hviews)
    as [v ->].
  cbn [bind]. eauto.
Qed.

Lemma mapM_dict_of {B : Type} (p : value -> bool) (h : string * value -> result B)
    (d : list (string * value)) :
  (forall kv, p (snd kv) = true -> exists y, h kv = Ok y) ->
  forallb (fun kv => p (snd kv)) d = true ->
  exists ys, mapM h d = Ok ys.
Proof.
  intros Hh Hd. apply mapM_total. intros kv Hkv. apply Hh.
  rewrite forallb_forall in Hd. apply (Hd kv Hkv).
Qed.

Lemma business_unit_text_ok (div_name : value) (bu : string * value) :
  business_unit_ok (snd bu) = true -> exists s, business_unit_text div_name bu = Ok s.
Proof.
  destruct bu as [name b]. cbn [snd].
  destruct b as [| | | | | f]; try discriminate. cbn [business_unit_ok]. intros H.
  unfold business_unit_text. repeat (rewrite get_dict; cbn [bind]).
  destruct (field f "subdivisions" (VDict [])) as [| | | | | subs]; try discriminate.
  cbn [dict_of] in H. cbn [items bind].
  destruct (mapM_dict_of subdivision_ok (subdivision_text name) subs
              (subdivision_text_ok name) H) as [ts ->].
  cbn [bind]. eauto.
Qed.

Lemma classification_bullet_ok (vc : string * value) :
  classification_ok (snd vc) = true -> exists s, classification_bullet vc = Ok s.
Proof.
  destruct vc as [name c]. cbn [snd].
  destruct c as [| | | | | f]; try discriminate. cbn [classification_ok]. intros H.
  apply andb_true_iff in H. destruct H as [Hd Hu].
  unfold classification_bullet. repeat (rewrite get_dict; cbn [bind]).
  destruct (join_or_ok (field f "data_domains" (VList [])) "no data domains" Hd) as [a ->].
  cbn [bind].
  destruct (join_or_ok (field f "primary_users" (VList [])) "no defined users" Hu) as [b ->].
  cbn [bind]. eauto.
Qed.

Lemma relationship_entry_ok (vr : string * value) :
  relationship_ok (snd vr) = true -> exists s, relationship_entry vr = Ok s.
Proof.
  destruct vr as [name r]. cbn [snd].
  destruct r as [| | | | | f]; try discriminate. cbn [relationship_ok]. intros H.
  apply andb_true_iff in H. destruct H as [H Hdims].
  apply andb_true_iff in H. destruct H as [Hrel Hmeas].
  unfold relationship_entry. repeat (rewrite get_dict; cbn [bind]).
  destruct (join_or_ok (field f "related_views" (VList [])) "no directly related views" Hrel)
    as [a ->].
  cbn [bind].
  destruct (shared_line_ok "Shared measures" (field f "shared_measures" (VList [])) Hmeas)
    as [b ->].
  cbn [bind].
  destruct (shared_line_ok "Shared dimensions" (field f "shared_dimensions" (VList [])) Hdims)
    as [c ->].
  cbn [bind]. eauto.
Qed.

Lemma metadata_summary_ok (m : value) :
  summary_ok m = true -> exists s, metadata_summary m = Ok s.
Proof.
  destruct m as [| | | | | f]; try discriminate. cbn [summary_ok]. intros H.
  unfold metadata_summary. repeat (rewrite get_dict; cbn [bind]).
  destruct (field f "view_types" (VDict [])); try discriminate.
  cbn [items bind]. eauto.
Qed.

(** X13. With an [organization] dictionary in place, a taxonomy document
    typed as in the data model is always rendered: every other key, at every
    level, may be absent and is then resolved by its default; nothing is
    raised.  The text opens with the hierarchy heading. *)
Theorem hierarchy_rendered_for_typed_taxonomy (g : Generator) :
  taxonomy_ok (taxonomy g) = true ->
  exists desc,
    generate_hierarchy_description g = Ok desc /\
    String.prefix "# Business Hierarchy" desc = true.
Proof.
  intros Hok. unfold generate_hierarchy_description.
  destruct (taxonomy g) as [| | | | | t] eqn:Ht; try discriminate.
  cbn [taxonomy_ok] in Hok.
  repeat (apply andb_true_iff in Hok; destruct Hok as [Hok ?]).
  unfold taxonomy_business_units in *. cbn [vfield] in *.
  destruct (lookup_key "organization" t) as [[| | | | | org] |] eqn:Horg; try discriminate.
  repeat (rewrite get_dict; cbn [bind]).
  rewrite !(field_present t "organization" (VDict org) _ Horg).
  repeat (rewrite get_dict; cbn [bind]).
  destruct (field t "hierarchy" (VDict [])) as [| | | | | h]; try discriminate.
  cbn [vfield] in *. repeat (rewrite get_dict; cbn [bind]).
  destruct (field h "division" (VDict [])) as [| | | | | dv]; try discriminate.
  cbn [vfield] in *. repeat (rewrite get_dict; cbn [bind]).
  destruct (field dv "business_units" (VDict [])) as [| | | | | bus]; try discriminate.
  cbn [dict_of items bind] in *.
  destruct (mapM_dict_of business_unit_ok
              (business_unit_text (field dv "name" (VStr "Unknown"))) bus
              (business_unit_text_ok _)) as [bu_texts ->]; [assumption |].
  cbn [bind].
  assert (Hcls : exists s,
            guarded_section (field t "view_classifications" (VDict []))
              (let* vcs := items (field t "view_classifications" (VDict [])) in
               let* bullets := mapM classification_bullet vcs in
               Ok (classifications_intro ++ String.concat "" bullets ++ nl)) = Ok s).
  { unfold guarded_section.
    destruct (field t "view_classifications" (VDict [])) as [| | | | | vcs]; try discriminate.
    destruct (truthy (VDict vcs)); [| eauto]. cbn [items bind dict_of] in *.
    destruct (mapM_dict_of classification_ok classification_bullet vcs
                classification_bullet_ok) as [bs ->]; [assumption |].
    cbn [bind]. eauto. }
  destruct Hcls as [cls ->]. cbn [bind].
  assert (Hrel : exists s,
            guarded_section (field t "view_relationships" (VDict []))
              (let* vrs := items (field t "view_relationships" (VDict [])) in
               let* entries := mapM relationship_entry vrs in
               Ok (relationships_intro ++ String.concat "" entries)) = Ok s).
  { unfold guarded_section.
    destruct (field t "view_relationships" (VDict [])) as [| | | | | vrs]; try discriminate.
    destruct (truthy (VDict vrs)); [| eauto]. cbn [items bind dict_of] in *.
    destruct (mapM_dict_of relationship_ok relationship_entry vrs
                relationship_entry_ok) as [es ->]; [assumption |].
    cbn [bind]. eauto. }
  destruct Hrel as [rel ->]. cbn [bind].
  assert (Hsum : exists s,
            guarded_section (field t "metadata" (VDict []))
              (metadata_summary (field t "metadata" (VDict []))) = Ok s).
  { unfold guarded_section. destruct (truthy (field t "metadata" (VDict []))); [| eauto].
    apply metadata_summary_ok. assumption. }
  destruct Hsum as [sm ->]. cbn [bind].
  eexists. split; [reflexivity |]. apply prefix_append.
Qed.

(** A taxonomy that holds an empty [organization] and nothing else. *)
Lemma hierarchy_rendered_for_typed_taxonomy_witness :
  exists desc,
    generate_hierarchy_description
      (__init__ None (Some (VDict [("organization", VDict [])])) None) = Ok desc /\
    String.prefix "# Business Hierarchy" desc = true.
Proof.
  exact (hierarchy_rendered_for_typed_taxonomy
           (__init__ None (Some (VDict [("organization", VDict [])])) None) eq_refl).
Defined.

(** ** Stripped texts *)

Lemma lstrip_head (s : string) :
  lstrip s = "" \/ exists c r, lstrip s = String c r /\ is_space c = false.
Proof.
  induction s as [| c s IH]; [left; reflexivity |].
  cbn [lstrip]. destruct (is_space c) eqn:Hc; [exact IH |].
  right. exists c, s. split; [reflexivity | exact Hc].
Qed.

Lemma rstrip_head (c : ascii) (r : string) :
  is_space c = false -> exists r', rstrip (String c r) = String c r'.
Proof.
  intros Hc. cbn [rstrip]. destruct (rstrip r); [rewrite Hc |]; eauto.
Qed.

Lemma rstrip_idempotent (s : string) : rstrip (rstrip s) = rstrip s.
Proof.
  induction s as [| c s IH]; [reflexivity |].
  cbn [rstrip]. destruct (rstrip s) as [| x r] eqn:E.
  - destruct (is_space c) eqn:Hc; [reflexivity |]. cbn [rstrip]. rewrite Hc. reflexivity.
  - change (rstrip (String c (String x r)))
      with (match rstrip (String x r) with
            | EmptyString => if is_space c then EmptyString else String c EmptyString
            | r0 => String c r0
            end).
    rewrite IH. reflexivity.
Qed.

(** [strip] leaves nothing to strip. *)
Lemma strip_idempotent (s : string) : strip (strip s) = strip s.
Proof.
  unfold strip. destruct (lstrip_head s) as [-> | (c & r & -> & Hc)]; [reflexivity |].
  destruct (rstrip_head c r Hc) as [r' Hr]. rewrite Hr.
  cbn [lstrip]. rewrite Hc. rewrite <- Hr. apply rstrip_idempotent.
Qed.

Lemma all_chars_lstrip (p : ascii -> bool) (s : string) :
  all_chars p s = true -> all_chars p (lstrip s) = true.
Proof.
  induction s as [| c s IH]; [reflexivity |].
  cbn [all_chars lstrip]. intros H. apply andb_true_iff in H. destruct H as [Hc Hs].
  destruct (is_space c); [apply IH, Hs |]. cbn [all_chars]. rewrite Hc, Hs. reflexivity.
Qed.

Lemma all_chars_rstrip (p : ascii -> bool) (s : string) :
  all_chars p s = true -> all_chars p (rstrip s) = true.
Proof.
  induction s as [| c s IH]; [reflexivity |].
  cbn [all_chars rstrip]. intros H. apply andb_true_iff in H. destruct H as [Hc Hs].
  specialize (IH Hs). destruct (rstrip s).
  - destruct (is_space c); [reflexivity |]. cbn [all_chars]. rewrite Hc. reflexivity.
  - cbn [all_chars] in *. rewrite Hc, IH. reflexivity.
Qed.

(** X14. The answer of [_format_measures_answer] comes back stripped:
    stripping it again changes nothing, so it neither starts nor ends with
    white space and the blank line written after the last measure is
    gone. *)
Theorem measures_answer_is_stripped (cube_name measures : value) (answer : string) :
  InstructionGenerator._format_measures_answer cube_name measures = Ok answer ->
  strip answer = answer.
Proof.
  unfold InstructionGenerator._format_measures_answer. intros H.
  bind_inv H. bind_inv H. bind_inv H. injection H as <-. apply strip_idempotent.
Qed.

Lemma measures_answer_is_stripped_witness :
  exists answer,
    InstructionGenerator._format_measures_answer (VStr "Orders")
      (VList [VDict [("name", VStr "total"); ("aggType", VStr "sum")]]) = Ok answer /\
    strip answer = answer.
Proof.
  eexists. split; [reflexivity |].
  exact (measures_answer_is_stripped (VStr "Orders")
           (VList [VDict [("name", VStr "total"); ("aggType", VStr "sum")]]) _ eq_refl).
Defined.

(** ** The names the relationship extractor yields *)

Lemma prefix_of_append (p x y : string) :
  String.prefix p x = true -> String.prefix p (x ++ y) = true.
Proof.
  intros H. apply prefix_spec in H. destruct H as [post ->].
  rewrite append_assoc. apply prefix_append.
Qed.

Lemma strip_prefix_none (p s : string) :
  strip_prefix p s = None -> String.prefix p s = false.
Proof.
  intros H. destruct (String.prefix p s) eqn:E; [| reflexivity].
  apply strip_prefix_of_prefix in E. destruct E as [r E]. congruence.
Qed.

(** The cut [find_sep] finds is the first one: [sep] does not occur before
    it. *)
Lemma find_sep_first (sep s before after : string) :
  sep <> "" ->
  find_sep sep s = Some (before, after) ->
  is_substring sep before = false.
Proof.
  intros Hsep. revert before; induction s as [| c s IH]; intros before; cbn [find_sep].
  - destruct (strip_prefix sep "") eqn:E; [| discriminate].
    intros [= <- <-]. destruct sep; [contradiction | reflexivity].
  - destruct (strip_prefix sep (String c s)) eqn:E.
    + intros [= <- <-]. destruct sep; [contradiction | reflexivity].
    + destruct (find_sep sep s) as [[b a] |] eqn:Ef; [| discriminate].
      intros [= <- <-]. rewrite is_substring_unfold. rewrite (IH b eq_refl).
      apply strip_prefix_none in E. apply find_sep_spec in Ef.
      destruct (String.prefix sep (String c b)) eqn:Ep; [| reflexivity].
      apply (prefix_of_append _ _ (sep ++ a)) in Ep.
      change (String c b ++ sep ++ a) with (String c (b ++ sep ++ a)) in Ep.
      rewrite <- Ef in Ep. congruence.
Qed.

Lemma find_sep_none_substring (sep s : string) :
  find_sep sep s = None -> is_substring sep s = false.
Proof.
  intros H. destruct (is_substring sep s) eqn:E; [| reflexivity].
  apply find_sep_substring in E. destruct E as (b & a & E). congruence.
Qed.

(** No piece of a split holds the separator. *)
Lemma split_pieces_free (sep s : string) :
  sep <> "" -> Forall (fun piece => is_substring sep piece = false) (split sep s).
Proof.
  intros Hsep. unfold split.
  assert (H : forall n s fuel, (String.length s <= n)%nat -> (String.length s <= fuel)%nat ->
            Forall (fun piece => is_substring sep piece = false) (split_fuel fuel sep s)).
  { clear s. induction n as [| n IH]; intros s fuel Hn Hfuel.
    - destruct s; [| simpl in Hn; lia]. rewrite split_fuel_empty by exact Hsep.
      constructor; [| constructor]. destruct sep; [contradiction | reflexivity].
    - destruct fuel as [| fuel].
      + destruct s; [| simpl in Hfuel; lia]. cbn [split_fuel].
        constructor; [| constructor]. destruct sep; [contradiction | reflexivity].
      + cbn [split_fuel]. destruct (find_sep sep s) as [[b a] |] eqn:E.
        * constructor; [exact (find_sep_first _ _ _ _ Hsep E) |].
          pose proof (find_sep_spec _ _ _ _ E) as Hs.
          assert (Hlen : (String.length a < String.length s)%nat).
          { rewrite Hs, !length_append. destruct sep; [contradiction | simpl; lia]. }
          apply IH; lia.
        * constructor; [exact (find_sep_none_substring _ _ E) | constructor]. }
  apply (H (String.length s)); lia.
Qed.

Lemma no_char_all_chars (c : ascii) (s : string) :
  is_substring (String c "") s = false -> all_chars (is_not c) s = true.
Proof.
  induction s as [| x s IH]; [reflexivity |].
  rewrite is_substring_unfold. intros H. apply orb_false_iff in H. destruct H as [Hp Hs].
  cbn [all_chars]. rewrite (IH Hs), andb_true_r. unfold is_not.
  destruct (Ascii.eqb x c) eqn:E; [| reflexivity].
  apply Ascii.eqb_eq in E. subst x.
  change (String c s) with (String c "" ++ s) in Hp.
  rewrite (prefix_append (String c "") s) in Hp. discriminate.
Qed.

(** X15. Whatever the description, every cube name the extractor yields is
    stripped of surrounding white space and holds no comma. *)
Theorem extracted_names_are_clean (d : string) (names : list string) :
  extract_cube_names d = Ok names ->
  Forall (fun name => strip name = name /\ all_chars (is_not ",") name = true) names.
Proof.
  unfold extract_cube_names. intros H.
  destruct (nth_error (split "A combined view of" d) 1) as [after_phrase |]; [| discriminate].
  destruct (nth_error (split " to provide" after_phrase) 0) as [s |]; [| discriminate].
  injection H as <-.
  pose proof (split_pieces_free "," (replace "and " "" s)) as Hfree.
  induction (split "," (replace "and " "" s)) as [| piece pieces IH]; [constructor |].
  assert (Hcomma : "," <> "") by discriminate.
  specialize (Hfree Hcomma). inversion Hfree as [| ? ? Hpiece Hrest]; subst.
  cbn [map]. constructor.
  - split; [apply strip_idempotent |].
    unfold strip. apply all_chars_rstrip, all_chars_lstrip, no_char_all_chars, Hpiece.
  - apply IH. intros _. exact Hrest.
Qed.

Lemma extracted_names_are_clean_witness :
  exists names,
    extract_cube_names "A combined view of Orders ,  Customers, and Shipments to provide x"
    = Ok names /\
    names = ["Orders"; "Customers"; "Shipments"] /\
    Forall (fun name => strip name = name /\ all_chars (is_not ",") name = true) names.
Proof.
  eexists. split; [reflexivity |]. split; [reflexivity |].
  exact (extracted_names_are_clean
           "A combined view of Orders ,  Customers, and Shipments to provide x" _ eq_refl).
Defined.

(** ** The classification runs on every entity *)

Lemma filterM_raises {A : Type} (p : A -> result bool) (f : A -> bool)
    (xs ys : list A) (x : A) (e : exn) :
  (forall y, In y xs -> p y = Ok (f y)) ->
  p x = Raise e ->
  filterM p (app xs (x :: ys)) = Raise e.
Proof.
  intros Hxs Hx. induction xs as [| y xs IH]; simpl.
  - rewrite Hx. reflexivity.
  - rewrite (Hxs y (or_introl eq_refl)). cbn [bind].
    rewrite IH by (intros z Hz; apply Hxs; right; exact Hz). reflexivity.
Qed.

(** X16. Although no stage uses the three lists, [generate_full_corpus]
    still computes them over every item of [cubes]: one item that is not a
    record, anywhere in the list, makes the whole call raise
    [AttributeError], so no corpus and no statistics are produced. *)
Theorem full_corpus_needs_every_entity_a_record
    (g : Generator) (d : list (string * value)) (before after : list value) (x : value) :
  metadata g = VDict d ->
  field d "cubes" (VList []) = VList (app before (x :: after)) ->
  forallb is_dict before = true ->
  is_dict x = false ->
  generate_full_corpus g = Raise AttributeError.
Proof.
  intros Hg Hcubes Hbefore Hx. unfold generate_full_corpus.
  rewrite Hg, get_dict, Hcubes. cbn [py_iter bind]. unfold classify_entities.
  rewrite (filterM_raises is_catalog in_catalog_views before after x AttributeError).
  - reflexivity.
  - intros y Hy. apply is_catalog_dict. rewrite forallb_forall in Hbefore. apply Hbefore, Hy.
  - destruct x; try discriminate; reflexivity.
Qed.

Lemma full_corpus_needs_every_entity_a_record_witness :
  generate_full_corpus
    (__init__ (Some (VDict [("cubes", VList [full_entity; VStr "Orders"; full_entity])]))
              None None)
  = Raise AttributeError.
Proof.
  exact (full_corpus_needs_every_entity_a_record
           (__init__ (Some (VDict [("cubes", VList [full_entity; VStr "Orders"; full_entity])]))
                     None None)
           _ [full_entity] [full_entity] (VStr "Orders") eq_refl eq_refl eq_refl eq_refl).
Defined.

(** ** The deduplication of named views *)

(** X17. A view record with a [name] key that is requested while its name
    is not in [seen_entities] is rendered: the outcome of the call is the one
    of building the text, a text that opens with the "# Semantic View: "
    heading or an exception.  The name is put into [seen_entities] before
    the text is built, so it is there also when building the text raises.
    From then on, in every later state of the generator, requesting the same
    view yields the empty string and changes nothing: a view whose first
    rendering raises is never rendered. *)
Theorem named_view_rendered_once
    (g g1 : Generator) (f : list (string * value)) (name : value) (k : hkey)
    (r : result string) :
  lookup_key "name" f = Some name ->
  as_key name = Ok k ->
  k ∉ seen_entities g ->
  generate_view_description g (VDict f) = (r, g1) ->
  r = view_text (taxonomy g) (VDict f) name /\
  g1 = mark_seen k g /\
  k ∈ seen_entities g1 /\
  (forall desc, r = Ok desc -> String.prefix "# Semantic View: " desc = true) /\
  (forall g2 : Generator,
     seen_entities g1 ⊆ seen_entities g2 ->
     generate_view_description g2 (VDict f) = (Ok "", g2)).
Proof.
  intros Hname Hk Hnew H.
  assert (Hlater : forall g2, k ∈ seen_entities g2 ->
            generate_view_description g2 (VDict f) = (Ok "", g2)).
  { intros g2 Hin. unfold generate_view_description.
    rewrite (lookup_key_truthy f "name" name Hname). cbn [negb].
    unfold get_none. rewrite get_dict. unfold field. rewrite Hname. cbn [bind].
    rewrite Hk. rewrite bool_decide_true by exact Hin. reflexivity. }
  unfold generate_view_description in H.
  rewrite (lookup_key_truthy f "name" name Hname) in H. cbn [negb] in H.
  unfold get_none in H. rewrite !get_dict in H. unfold field in H.
  rewrite Hname in H. cbn [bind] in H. rewrite Hk in H. cbn [bind] in H.
  rewrite bool_decide_false in H by exact Hnew.
  injection H as <- <-.
  assert (Hin : k ∈ seen_entities (mark_seen k g)).
  { unfold mark_seen; simpl. apply elem_of_union_l, elem_of_singleton. reflexivity. }
  split; [reflexivity |]. split; [reflexivity |]. split; [exact Hin |]. split.
  - intros desc Hdesc.
    exact (view_text_starts_with_heading _ _ _ _ Hdesc).
  - intros g2 Hsub. apply Hlater, Hsub, Hin.
Qed.

(** On a fresh generator: a view that is rendered, and a view whose
    [measures] is null, which raises where the detailed fields are listed;
    both yield the empty string when requested again. *)
Lemma named_view_rendered_once_witness :
  (exists g1,
     generate_view_description (__init__ None None None)
       (VDict [("name", VStr "V1"); ("title", VStr "First view")])
     = (Ok ("# Semantic View: First view" ++ nl ++ nl
              ++ "**Technical Name**: `V1`" ++ nl ++ nl
              ++ "**Description**: No description available." ++ nl ++ nl
              ++ nl ++ "#### Detailed Fields for V1:" ++ nl), g1) /\
     generate_view_description g1
       (VDict [("name", VStr "V1"); ("title", VStr "First view")]) = (Ok "", g1))
  /\ (exists g1,
        generate_view_description (__init__ None None None)
          (VDict [("name", VStr "V2"); ("measures", VNone)]) = (Raise TypeError, g1) /\
        generate_view_description g1
          (VDict [("name", VStr "V2"); ("measures", VNone)]) = (Ok "", g1)).
Proof.
  assert (Hnew : forall k : hkey, k ∉ seen_entities (__init__ None None None)).
  { intros k. simpl. apply not_elem_of_empty. }
  split.
  - exists (mark_seen (Some (inr "V1")) (__init__ None None None)).
    split; [reflexivity |].
    apply (named_view_rendered_once (__init__ None None None) _
             [("name", VStr "V1"); ("title", VStr "First view")] (VStr "V1")
             (Some (inr "V1")) _ eq_refl eq_refl (Hnew _) eq_refl).
    reflexivity.
  - exists (mark_seen (Some (inr "V2")) (__init__ None None None)).
    split; [reflexivity |].
    apply (named_view_rendered_once (__init__ None None None) _
             [("name", VStr "V2"); ("measures", VNone)] (VStr "V2")
             (Some (inr "V2")) _ eq_refl eq_refl (Hnew _) eq_refl).
    reflexivity.
Defined.
